(** * NostalgiaForInfinity X7, FreqAI and Hybrid strategies

    A shallow embedding of the decision logic of
    [NostalgiaForInfinityX7_FreqAI.py] and [NostalgiaForInfinityX7_Hybrid.py]:
    target labelling, the entry and exit passes, the ML filter of the Hybrid
    strategy and the two trade guards.

    Numbers are IEEE 754 binary64 values, as Python's [float] and the
    float64 columns of pandas are; the arithmetic is the one the standard
    library specifies in [SpecFloat].  A dataframe is a row count together
    with a finite map from column names to columns of cells.  A Python
    exception (a missing column, a string where a number is read, a
    library call that refuses its input) is the [None] of an [option]
    result.  What belongs to the libraries and not to these sources (the
    indicators of TA-Lib and qtpylib, the rolling mean and the column sum
    of pandas, the wrapped strategy) is a parameter, with what the code
    relies on stated as a property of it. *)

From Stdlib Require Import ZArith Lia Bool.
From Stdlib Require Import Floats.SpecFloat Floats.PrimFloat Floats.FloatOps.
From stdpp Require Import gmap strings list.
From stdpp Require Import pretty.

Set Warnings "-inexact-float".
Set Default Proof Using "Type".

(** ** Binary64 arithmetic *)

Abbreviation f64 := spec_float.

Module F64.

(** A Python float literal: the nearest binary64 value. *)
Definition lit (x : PrimFloat.float) : f64 := Prim2SF x.

Definition nan : f64 := S754_nan.
Definition zero : f64 := lit 0.
Definition one : f64 := lit 1.

Definition add : f64 → f64 → f64 := SFadd prec emax.
Definition sub : f64 → f64 → f64 := SFsub prec emax.
Definition mul : f64 → f64 → f64 := SFmul prec emax.
Definition div : f64 → f64 → f64 := SFdiv prec emax.
Definition opp : f64 → f64 := SFopp.

(** Python's [x < y], [x > y], [x == y] and [x != y]. *)
Definition lt (x y : f64) : bool := SFltb x y.
Definition gt (x y : f64) : bool := SFltb y x.
Definition eq (x y : f64) : bool := SFeqb x y.
Definition ne (x y : f64) : bool := negb (SFeqb x y).
(** Python's [x <= y] and [x >= y]. *)
Definition le (x y : f64) : bool := SFleb x y.
Definition ge (x y : f64) : bool := SFleb y x.

Definition is_nan (x : f64) : bool :=
  match x with S754_nan => true | _ => false end.

Definition is_zero (x : f64) : bool :=
  match x with S754_zero _ => true | _ => false end.

Definition is_inf (x : f64) : bool :=
  match x with S754_infinity _ => true | _ => false end.

Definition is_finite (x : f64) : bool :=
  match x with S754_zero _ | S754_finite _ _ _ => true | _ => false end.

#[global] Instance eq_dec : EqDecision f64.
Proof. solve_decision. Defined.

(** The float of a Python int. *)
Definition of_Z (z : Z) : f64 := binary_normalize prec emax z 0 false.

End F64.

(** ** Dataframes *)

(** A cell holds a number or a string (a tag); a missing cell is the number
    NaN, as in pandas. *)
Inductive value :=
  | VNum (x : f64)
  | VStr (s : string).

Abbreviation Series := (list value).

Record DataFrame := mkDataFrame {
  nrows : nat;                    (* len(dataframe) *)
  cols : gmap string Series       (* dataframe[name] *)
}.

Definition as_num (v : value) : option f64 :=
  match v with VNum x => Some x | VStr _ => None end.

(** [dataframe[name]] read as a numeric column. *)
Definition num_col (dataframe : DataFrame) (name : string) : option (list f64) :=
  s ← cols dataframe !! name; mapM as_num s.

(** [name in dataframe.columns] *)
Definition has_col (dataframe : DataFrame) (name : string) : bool :=
  bool_decide (is_Some (cols dataframe !! name)).

(** [dataframe[name] = s] *)
Definition set_col (name : string) (s : Series) (dataframe : DataFrame) : DataFrame :=
  {| nrows := nrows dataframe; cols := <[name := s]> (cols dataframe) |}.

Definition set_num_col (name : string) (s : list f64) : DataFrame → DataFrame :=
  set_col name (VNum <$> s).

(** The cell of a column at a row; NaN where the frame has no such column. *)
Definition cell (dataframe : DataFrame) (name : string) (i : nat) : option value :=
  match cols dataframe !! name with
  | Some s => s !! i
  | None => if decide (i < nrows dataframe) then Some (VNum F64.nan) else None
  end.

(** The cells [dataframe.loc[mask, name] = v] leaves in a column: rows
    selected by the mask receive [v], the others keep their cell; a column
    that did not exist is created with NaN in the rows left out. *)
Definition loc_set (mask : list bool) (name : string) (v : value)
    (dataframe : DataFrame) : DataFrame :=
  let old := default (replicate (length mask) (VNum F64.nan)) (cols dataframe !! name) in
  set_col name (zip_with (λ (b : bool) o, if b then v else o) mask old) dataframe.

(** [dataframe.loc[mask, name] = v] for one column label and a scalar [v].
    pandas creates a missing column, except in a frame without rows, where
    it refuses to ("cannot set a frame with no defined index and a
    scalar"). *)
Definition loc_set_scalar (mask : list bool) (name : string) (v : value)
    (dataframe : DataFrame) : option DataFrame :=
  if (nrows dataframe =? 0) && negb (has_col dataframe name) then None
  else Some (loc_set mask name v dataframe).

(** [dataframe.iloc[-1].squeeze()[name]] read as a number.  The last row of
    a frame with exactly one column is squeezed to a scalar, and indexing a
    scalar by a column name raises. *)
Definition last_candle (dataframe : DataFrame) (name : string) : option f64 :=
  if decide (size (cols dataframe) = 1) then None
  else s ← cols dataframe !! name; v ← s !! (nrows dataframe - 1); as_num v.

(** Element-wise operations on numeric columns. *)
Definition ser_gt (a b : list f64) : list bool := zip_with F64.gt a b.
Definition ser_lt (a b : list f64) : list bool := zip_with F64.lt a b.
Definition ser_gt_c (a : list f64) (c : f64) : list bool := (λ x, F64.gt x c) <$> a.
Definition ser_lt_c (a : list f64) (c : f64) : list bool := (λ x, F64.lt x c) <$> a.
Definition ser_eq_c (a : list f64) (c : f64) : list bool := (λ x, F64.eq x c) <$> a.
Definition ser_and (a b : list bool) : list bool := zip_with andb a b.
Definition ser_or (a b : list bool) : list bool := zip_with orb a b.
Definition ser_not (a : list bool) : list bool := negb <$> a.
Definition ser_add (a b : list f64) : list f64 := zip_with F64.add a b.
Definition ser_sub (a b : list f64) : list f64 := zip_with F64.sub a b.
Definition ser_div (a b : list f64) : list f64 := zip_with F64.div a b.
Definition ser_sub_c (a : list f64) (c : f64) : list f64 := (λ x, F64.sub x c) <$> a.
Definition ser_div_c (a : list f64) (c : f64) : list f64 := (λ x, F64.div x c) <$> a.

(** [mask.astype(int)] *)
Definition astype_int (mask : list bool) : list f64 :=
  (λ b : bool, if b then F64.lit 1 else F64.lit 0) <$> mask.

(** [s.shift(-k)]: row [i] receives the cell of row [i + k]; the last [k]
    rows have none and are NaN. *)
Definition shift_back (k : nat) (s : list f64) : list f64 :=
  drop k s ++ replicate (length s - length (drop k s)) F64.nan.

(** [functools.reduce(f, xs)] on a list that is not empty. *)
Definition reduce {A} (f : A → A → A) (xs : list A) : option A :=
  match xs with
  | [] => None
  | x :: rest => Some (foldl f x rest)
  end.

(** A decision cell counts as set when it compares equal to 1. *)
Definition is_set (v : value) : bool :=
  match v with VNum x => F64.eq x F64.one | VStr _ => false end.

(** The cells an entry or exit column holds: 0, 1, or nothing (NaN). *)
Definition decision_cell (x : f64) : bool :=
  F64.is_nan x || F64.eq x F64.zero || F64.eq x F64.one.

(** Every column of a pandas frame has one cell per row. *)
Definition well_formed (dataframe : DataFrame) : Prop :=
  map_Forall (λ _ (s : Series), length s = nrows dataframe) (cols dataframe).

(** ** The kernels of pandas

    Two reductions are computed inside pandas, in an order of additions
    that belongs to the library: the sum of a column and the mean over a
    rolling window.  They are parameters of the functions that call them;
    what the code relies on is stated here. *)

(** [s.sum()], which skips missing cells, counts the marks of a decision
    column: over cells 0, 1 and NaN it is positive when a cell is 1 and is
    0 when none is. *)
Definition counts_marks (series_sum : list f64 → f64) : Prop :=
  ∀ column, forallb decision_cell column = true →
    if decide (F64.one ∈ column)
    then F64.gt (series_sum column) (F64.lit 0) = true
    else F64.eq (series_sum column) (F64.lit 0) = true.

(** A sum that adds from the first row to the last.  It counts the marks of
    a decision column, and stands for [s.sum()] where a concrete frame is
    evaluated. *)
Definition ser_sum (s : list f64) : f64 :=
  foldl (λ acc x, if F64.is_nan x then acc else F64.add acc x) F64.zero s.

(** [s.rolling(w).mean()] with the default [min_periods = w]: the result
    has one cell per row, and a row whose window of [w] cells is not
    complete, or holds a cell that is missing or infinite (pandas reads an
    infinite cell as missing here), is NaN.  On the other rows the value
    comes out of a running sum that pandas carries from row to row. *)
Definition min_periods (rolling_mean : nat → list f64 → list f64) : Prop :=
  ∀ w s,
    length (rolling_mean w s) = length s ∧
    ∀ i, i < length s → 1 ≤ w →
      S i < w ∨ forallb F64.is_finite (take w (drop (S i - w) s)) = false →
      rolling_mean w s !! i = Some F64.nan.

(** The arithmetic mean of a window, summed from the left. *)
Definition mean (win : list f64) : f64 :=
  F64.div (foldl F64.add F64.zero win) (F64.of_Z (Z.of_nat (length win))).

(** A rolling mean that computes every window afresh.  It has the property
    [min_periods], and stands for [s.rolling(w).mean()] where a concrete
    frame is evaluated. *)
Definition windowed (window_mean : list f64 → f64) (w : nat) (s : list f64)
    : list f64 :=
  imap (λ i _,
    if decide (1 ≤ w ≤ S i) then
      let win := take w (drop (S i - w) s) in
      if forallb F64.is_finite win then window_mean win else F64.nan
    else F64.nan) s.

(** ** The strategy interface *)

Abbreviation Metadata := (gmap string string).

(** The two passes of freqtrade's [IStrategy] that produce decision columns. *)
Module Strategy.
Class IStrategy := {
  populate_entry_trend : DataFrame → Metadata → option DataFrame;
  populate_exit_trend : DataFrame → Metadata → option DataFrame
}.
End Strategy.

(** The indicator libraries (TA-Lib and qtpylib) the feature pipeline calls.
    A call raises when the frame lacks a candle column it reads or the
    period is outside its domain; [bollinger_bands] returns the lower,
    middle and upper band. *)
Record Indicators := {
  ta_RSI : DataFrame → nat → option (list f64);
  ta_MFI : DataFrame → nat → option (list f64);
  ta_ADX : DataFrame → nat → option (list f64);
  ta_EMA : DataFrame → nat → option (list f64);
  ta_ROC : DataFrame → nat → option (list f64);
  ta_STOCHRSI : DataFrame → nat → nat → nat → option (list f64 * list f64);
  typical_price : DataFrame → option (list f64);
  bollinger_bands : list f64 → nat → f64 → option (list f64 * list f64 * list f64)
}.

(** ** The primary strategy: NostalgiaForInfinityX7_FreqAI *)

Module FreqAI.

Definition startup_candle_count : nat := 800.

(** [self.freqai_info["feature_parameters"]]. *)
Record FeatureParameters := { label_period_candles : nat }.

Record Trade := { is_short : bool }.

Section Features.
Variable ta : Indicators.
(** [s.rolling(w).mean()] *)
Variable rolling_mean : nat → list f64 → list f64.

Definition feature_engineering_expand_all (dataframe : DataFrame) (period : nat)
    : option DataFrame :=
  rsi ← ta_RSI ta dataframe period;
  let dataframe := set_num_col "%-rsi-period" rsi dataframe in
  mfi ← ta_MFI ta dataframe period;
  let dataframe := set_num_col "%-mfi-period" mfi dataframe in
  adx ← ta_ADX ta dataframe period;
  let dataframe := set_num_col "%-adx-period" adx dataframe in
  sma ← ta_EMA ta dataframe period;
  let dataframe := set_num_col "%-sma-period" sma dataframe in
  ema ← ta_EMA ta dataframe period;
  let dataframe := set_num_col "%-ema-period" ema dataframe in
  price ← typical_price ta dataframe;
  '(lower, mid, upper) ← bollinger_bands ta price period (F64.lit 2.2);
  let dataframe := set_num_col "bb_lowerband-period" lower dataframe in
  let dataframe := set_num_col "bb_middleband-period" mid dataframe in
  let dataframe := set_num_col "bb_upperband-period" upper dataframe in
  bb_upperband ← num_col dataframe "bb_upperband-period";
  bb_lowerband ← num_col dataframe "bb_lowerband-period";
  bb_middleband ← num_col dataframe "bb_middleband-period";
  let dataframe :=
    set_num_col "%-bb_width-period"
      (ser_div (ser_sub bb_upperband bb_lowerband) bb_middleband) dataframe in
  close ← num_col dataframe "close";
  bb_lowerband ← num_col dataframe "bb_lowerband-period";
  let dataframe :=
    set_num_col "%-close-bb_lower-period" (ser_div close bb_lowerband) dataframe in
  roc ← ta_ROC ta dataframe period;
  let dataframe := set_num_col "%-roc-period" roc dataframe in
  volume ← num_col dataframe "volume";
  let dataframe :=
    set_num_col "%-relative_volume-period"
      (ser_div volume (rolling_mean period volume)) dataframe in
  '(fastk, fastd) ← ta_STOCHRSI ta dataframe 14 period 3;
  let dataframe := set_num_col "%-stochrsi_k-period" fastk dataframe in
  let dataframe := set_num_col "%-stochrsi_d-period" fastd dataframe in
  Some dataframe.

Definition set_freqai_targets (feature_parameters : FeatureParameters)
    (dataframe : DataFrame) : option DataFrame :=
  let label_period := label_period_candles feature_parameters in
  close ← num_col dataframe "close";
  Some (set_num_col "&-s_close"
          (ser_sub_c
             (ser_div (rolling_mean label_period (shift_back label_period close)) close)
             (F64.lit 1))
          dataframe).
End Features.

Definition populate_entry_trend (dataframe : DataFrame) (metadata : Metadata)
    : option DataFrame :=
  do_predict ← num_col dataframe "do_predict";
  s_close ← num_col dataframe "&-s_close";
  EMA_12 ← num_col dataframe "EMA_12";
  EMA_26 ← num_col dataframe "EMA_26";
  RSI_14 ← num_col dataframe "RSI_14";
  bb_width ← num_col dataframe "bb_width";
  volume ← num_col dataframe "volume";
  let enter_long_conditions :=
    [ ser_eq_c do_predict (F64.lit 1);
      ser_gt_c s_close (F64.lit 0.0001);
      ser_or (ser_gt EMA_12 EMA_26) (ser_lt_c RSI_14 (F64.lit 35));
      ser_gt_c bb_width (F64.lit 0.015);
      ser_gt_c volume (F64.lit 0) ] in
  match reduce ser_and enter_long_conditions with
  | Some mask =>
      Some (loc_set mask "enter_tag" (VStr "ml_long")
              (loc_set mask "enter_long" (VNum (F64.lit 1)) dataframe))
  | None => Some dataframe
  end.

Definition populate_exit_trend (dataframe : DataFrame) (metadata : Metadata)
    : option DataFrame :=
  do_predict ← num_col dataframe "do_predict";
  s_close ← num_col dataframe "&-s_close";
  RSI_14 ← num_col dataframe "RSI_14";
  let exit_long_conditions :=
    [ ser_eq_c do_predict (F64.lit 1);
      ser_or (ser_lt_c s_close (F64.lit (-0.005))) (ser_gt_c RSI_14 (F64.lit 80)) ] in
  dataframe ←
    match reduce ser_and exit_long_conditions with
    | Some mask => loc_set_scalar mask "exit_long" (VNum (F64.lit 1)) dataframe
    | None => Some dataframe
    end;
  let exit_short_conditions :=
    [ ser_eq_c do_predict (F64.lit 1);
      ser_or (ser_gt_c s_close (F64.lit 0.005)) (ser_lt_c RSI_14 (F64.lit 20)) ] in
  dataframe ←
    match reduce ser_and exit_short_conditions with
    | Some mask => loc_set_scalar mask "exit_short" (VNum (F64.lit 1)) dataframe
    | None => Some dataframe
    end;
  Some dataframe.

#[export] Instance strategy : Strategy.IStrategy := {|
  Strategy.populate_entry_trend := populate_entry_trend;
  Strategy.populate_exit_trend := populate_exit_trend
|}.

Section TradeGuard.
(** [self.dp.get_analyzed_dataframe(pair, self.timeframe)]: the host's data
    provider, here a function of the pair. *)
Variable get_analyzed_dataframe : string → DataFrame.

Definition confirm_trade_entry (pair order_type : string) (amount rate : f64)
    (time_in_force : string) (current_time : Z) (entry_tag : option string)
    (side : string) : option bool :=
  let dataframe := get_analyzed_dataframe pair in
  if decide (nrows dataframe < 1) then Some false
  else
    close ← last_candle dataframe "close";
    if decide (side = "long") then
      if F64.gt rate (F64.mul close (F64.lit 1.0025)) then Some false
      else Some true
    else
      if F64.lt rate (F64.mul close (F64.lit 0.9975)) then Some false
      else Some true.

(** The result is Python's [Optional[str]]; the outer option is the
    exception. *)
Definition custom_exit (pair : string) (trade : Trade) (current_time : Z)
    (current_rate current_profit : f64) : option (option string) :=
  let dataframe := get_analyzed_dataframe pair in
  if decide (nrows dataframe < 1) then Some None
  else
    do_predict ← last_candle dataframe "do_predict";
    if F64.ne do_predict (F64.lit 1) then Some (Some "ml_confidence_lost")
    else if F64.gt current_profit (F64.lit 0.02) then
      s_close ← last_candle dataframe "&-s_close";
      if is_short trade then
        if F64.gt s_close (F64.lit 0) then Some (Some "ml_reversal_short")
        else Some None
      else
        if F64.lt s_close (F64.lit 0) then Some (Some "ml_reversal_long")
        else Some None
    else Some None.
End TradeGuard.

End FreqAI.

(** ** The indicator pass of the primary strategy *)

Module FreqAIIndicators.

Section Indicators.
Variable ta : Indicators.
Variable rolling_mean : nat → list f64 → list f64.
(** [self.freqai.start(dataframe, metadata, self)]: the FreqAI model of the
    host, which adds the features and the predictions. *)
Variable freqai_start : DataFrame → Metadata → option DataFrame.

Definition populate_indicators (dataframe : DataFrame) (metadata : Metadata)
    : option DataFrame :=
  rsi ← ta_RSI ta dataframe 14;
  let dataframe := set_num_col "RSI_14" rsi dataframe in
  rsi ← ta_RSI ta dataframe 3;
  let dataframe := set_num_col "RSI_3" rsi dataframe in
  mfi ← ta_MFI ta dataframe 14;
  let dataframe := set_num_col "MFI_14" mfi dataframe in
  adx ← ta_ADX ta dataframe 14;
  let dataframe := set_num_col "ADX_14" adx dataframe in
  dataframe ←
    foldl (λ frame ema_period,
             dataframe ← frame;
             ema ← ta_EMA ta dataframe ema_period;
             Some (set_num_col ("EMA_" +:+ pretty ema_period) ema dataframe))
          (Some dataframe) [12; 26; 50; 100; 200];
  price ← typical_price ta dataframe;
  '(lower, mid, upper) ← bollinger_bands ta price 20 (F64.lit 2);
  let dataframe := set_num_col "bb_lower" lower dataframe in
  let dataframe := set_num_col "bb_mid" mid dataframe in
  let dataframe := set_num_col "bb_upper" upper dataframe in
  bb_upper ← num_col dataframe "bb_upper";
  bb_lower ← num_col dataframe "bb_lower";
  bb_mid ← num_col dataframe "bb_mid";
  let dataframe :=
    set_num_col "bb_width" (ser_div (ser_sub bb_upper bb_lower) bb_mid) dataframe in
  volume ← num_col dataframe "volume";
  let dataframe := set_num_col "volume_mean_20" (rolling_mean 20 volume) dataframe in
  freqai_start dataframe metadata.
End Indicators.

End FreqAIIndicators.

(** ** The Hybrid strategy: NostalgiaForInfinityX7_Hybrid *)

Module Hybrid.

(** The [.value] of the three hyperoptable parameters. *)
Record Parameters := {
  ml_confidence_long : f64;
  ml_confidence_short : f64;
  ml_exit_confidence_threshold : f64
}.

Definition default_parameters : Parameters := {|
  ml_confidence_long := F64.lit 0.60;
  ml_confidence_short := F64.lit 0.60;
  ml_exit_confidence_threshold := F64.lit 0.45
|}.

Definition can_short : bool := true.
Definition ml_exit_on_confidence_loss : bool := true.

Section Targets.
(** [s.rolling(w).mean()] *)
Variable rolling_mean : nat → list f64 → list f64.

Definition set_freqai_targets (dataframe : DataFrame) : option DataFrame :=
  close ← num_col dataframe "close";
  Some (set_num_col "&-s_close" (rolling_mean 5 (shift_back 24 close)) dataframe).
End Targets.

Section Filter.
Variable self : Parameters.
(** [s.sum()] *)
Variable series_sum : list f64 → f64.
(** [self._get_x7_instance()]: the wrapped NostalgiaForInfinityX7 instance,
    whose class is not part of these sources. *)
Variable x7 : Strategy.IStrategy.

Definition populate_entry_trend (dataframe : DataFrame) (metadata : Metadata)
    : option DataFrame :=
  dataframe ← @Strategy.populate_entry_trend x7 dataframe metadata;
  if has_col dataframe "&-s_close" && has_col dataframe "do_predict" then
    s_close ← num_col dataframe "&-s_close";
    close ← num_col dataframe "close";
    let dataframe :=
      set_num_col "ml_upside" (ser_div (ser_sub s_close close) close) dataframe in
    do_predict ← num_col dataframe "do_predict";
    ml_upside ← num_col dataframe "ml_upside";
    let conditions_ml_long :=
      ser_and (ser_eq_c do_predict (F64.lit 1))
              (ser_gt_c ml_upside (F64.div (ml_confidence_long self) (F64.lit 100))) in
    dataframe ←
      (if has_col dataframe "enter_long" then
         enter_long ← num_col dataframe "enter_long";
         if F64.gt (series_sum enter_long) (F64.lit 0) then
           let original_signals := series_sum enter_long in
           dataframe ←
             loc_set_scalar (ser_not conditions_ml_long) "enter_long" (VNum (F64.lit 0))
               dataframe;
           enter_long ← num_col dataframe "enter_long";
           let filtered_signals := series_sum enter_long in
           if F64.gt original_signals filtered_signals then
             (* the log line reads [metadata['pair']] *)
             pair ← metadata !! "pair";
             Some dataframe
           else Some dataframe
         else Some dataframe
       else Some dataframe);
    if can_short && has_col dataframe "enter_short" then
      do_predict ← num_col dataframe "do_predict";
      ml_upside ← num_col dataframe "ml_upside";
      let conditions_ml_short :=
        ser_and (ser_eq_c do_predict (F64.lit 1))
                (ser_lt_c ml_upside
                   (F64.div (F64.opp (ml_confidence_short self)) (F64.lit 100))) in
      enter_short ← num_col dataframe "enter_short";
      if F64.gt (series_sum enter_short) (F64.lit 0) then
        loc_set_scalar (ser_not conditions_ml_short) "enter_short" (VNum (F64.lit 0))
          dataframe
      else Some dataframe
    else Some dataframe
  else Some dataframe.

Definition populate_exit_trend (dataframe : DataFrame) (metadata : Metadata)
    : option DataFrame :=
  dataframe ← @Strategy.populate_exit_trend x7 dataframe metadata;
  if ml_exit_on_confidence_loss && has_col dataframe "&-s_close" then
    dataframe ←
      (if negb (has_col dataframe "ml_upside") then
         s_close ← num_col dataframe "&-s_close";
         close ← num_col dataframe "close";
         Some (set_num_col "ml_upside" (ser_div (ser_sub s_close close) close) dataframe)
       else Some dataframe);
    do_predict ← num_col dataframe "do_predict";
    ml_upside ← num_col dataframe "ml_upside";
    let conditions_ml_exit_long :=
      ser_and (ser_eq_c do_predict (F64.lit 1))
              (ser_lt_c ml_upside
                 (F64.div (ml_exit_confidence_threshold self) (F64.lit 100))) in
    dataframe ←
      (if has_col dataframe "exit_long" then
         dataframe ←
           loc_set_scalar conditions_ml_exit_long "exit_long" (VNum (F64.lit 1))
             dataframe;
         loc_set_scalar conditions_ml_exit_long "exit_tag" (VStr "ml_confidence_lost")
           dataframe
       else Some dataframe);
    if can_short && has_col dataframe "exit_short" then
      do_predict ← num_col dataframe "do_predict";
      ml_upside ← num_col dataframe "ml_upside";
      let conditions_ml_exit_short :=
        ser_and (ser_eq_c do_predict (F64.lit 1))
                (ser_gt_c ml_upside
                   (F64.div (F64.opp (ml_exit_confidence_threshold self)) (F64.lit 100))) in
      dataframe ←
        loc_set_scalar conditions_ml_exit_short "exit_short" (VNum (F64.lit 1))
          dataframe;
      loc_set_scalar conditions_ml_exit_short "exit_tag"
        (VStr "ml_confidence_lost_short") dataframe
    else Some dataframe
  else Some dataframe.
End Filter.

End Hybrid.

(** ** The feature functions of the Hybrid strategy *)

Module HybridFeatures.

Definition feature_engineering_expand_basic (dataframe : DataFrame)
    : option DataFrame :=
  dataframe ←
    (if has_col dataframe "ema_12" then
       close ← num_col dataframe "close";
       ema_12 ← num_col dataframe "ema_12";
       Some (set_num_col "%-pct_close_ema12" (ser_div (ser_sub close ema_12) ema_12)
               dataframe)
     else Some dataframe);
  if has_col dataframe "ema_26" then
    close ← num_col dataframe "close";
    ema_26 ← num_col dataframe "ema_26";
    Some (set_num_col "%-pct_close_ema26" (ser_div (ser_sub close ema_26) ema_26)
            dataframe)
  else Some dataframe.

Definition feature_engineering_standard (dataframe : DataFrame) : option DataFrame :=
  dataframe ←
    (if has_col dataframe "rsi_14" then
       rsi_14 ← num_col dataframe "rsi_14";
       Some (set_num_col "%-rsi_normalized" (ser_div_c rsi_14 (F64.lit 100.0)) dataframe)
     else Some dataframe);
  dataframe ←
    (if has_col dataframe "ema_12" && has_col dataframe "ema_26" then
       ema_12 ← num_col dataframe "ema_12";
       ema_26 ← num_col dataframe "ema_26";
       Some (set_num_col "%-ema12_ema26_cross" (astype_int (ser_gt ema_12 ema_26))
               dataframe)
     else Some dataframe);
  (* the default of [dataframe.get] is evaluated before the call *)
  high ← num_col dataframe "high";
  low ← num_col dataframe "low";
  let range := ser_sub high low in
  let atr := default (VNum <$> range) (cols dataframe !! "atr") in
  let dataframe := set_col "%-atr" atr dataframe in
  atr ← num_col dataframe "%-atr";
  close ← num_col dataframe "close";
  Some (set_num_col "%-atr_pct" (ser_div atr close) dataframe).

End HybridFeatures.

(** ** The stand-in model of the test script *)

Module MockFreqAI.

(** [dataframe[name] = x] for a scalar [x]: the same cell on every row. *)
Definition constant (dataframe : DataFrame) (x : f64) : list f64 :=
  replicate (nrows dataframe) x.

Definition start (dataframe : DataFrame) (metadata : Metadata) : option DataFrame :=
  let dataframe := set_num_col "do_predict" (constant dataframe (F64.lit 1)) dataframe in
  let dataframe := set_num_col "&-s_close" (constant dataframe (F64.lit 0.0)) dataframe in
  let dataframe :=
    set_num_col "&-s_close_mean" (constant dataframe (F64.lit 0.0)) dataframe in
  let dataframe :=
    set_num_col "&-s_close_std" (constant dataframe (F64.lit 0.01)) dataframe in
  let dataframe :=
    set_num_col "&-s_volatility" (constant dataframe (F64.lit 0.02)) dataframe in
  let dataframe :=
    set_num_col "&-s_max_profit" (constant dataframe (F64.lit 0.03)) dataframe in
  let dataframe :=
    set_num_col "&-s_max_drawdown" (constant dataframe (F64.lit (-0.02))) dataframe in
  Some dataframe.

End MockFreqAI.

(** ** The indicator test of the test script

    The part of [test_nfi_x7_freqai.py] that runs the strategy on the
    candles [df] of the test period (lines 89 to 146). *)

Module TestScript.

(** How the run of the script ends. *)
Inductive Outcome :=
  | Exit (status : Z)        (* [sys.exit(status)] *)
  | Failed                   (* an exception, reported by the [except] clause *)
  | Complete (warned : bool) (* "Strategy validation complete!", after the
                                warning that no entry signal was generated
                                or without it *).

Definition metadata : Metadata := {["pair" := "BTC/USDT:USDT"]}.

Definition required_indicators : list string :=
  ["RSI_14"; "RSI_3"; "MFI_14"; "EMA_12"; "EMA_26"; "bb_lower"; "bb_upper"].

Section Run.
Variable ta : Indicators.
Variable rolling_mean : nat → list f64 → list f64.
Variable series_sum : list f64 → f64.

(** [df[name].sum() if name in df.columns else 0] *)
Definition signal_count (dataframe : DataFrame) (name : string) : option f64 :=
  if has_col dataframe name then
    column ← num_col dataframe name; Some (series_sum column)
  else Some (F64.lit 0).

(** The three passes and the four counts; [None] is an exception. *)
Definition signals (df : DataFrame)
    : option (DataFrame * DataFrame * (f64 * f64 * f64 * f64)) :=
  df_with_indicators ←
    FreqAIIndicators.populate_indicators ta rolling_mean MockFreqAI.start df metadata;
  df_with_signals ← FreqAI.populate_entry_trend df_with_indicators metadata;
  df_with_signals ← FreqAI.populate_exit_trend df_with_signals metadata;
  long_entries ← signal_count df_with_signals "enter_long";
  short_entries ← signal_count df_with_signals "enter_short";
  long_exits ← signal_count df_with_signals "exit_long";
  short_exits ← signal_count df_with_signals "exit_short";
  Some (df_with_indicators, df_with_signals,
        (long_entries, short_entries, long_exits, short_exits)).

Definition run (df : DataFrame) : Outcome :=
  if decide (nrows df < FreqAI.startup_candle_count) then Exit 1
  else
    match FreqAIIndicators.populate_indicators ta rolling_mean MockFreqAI.start df
            metadata with
    | None => Failed
    | Some df_with_indicators =>
        let missing_indicators :=
          filter (λ ind, has_col df_with_indicators ind = false) required_indicators in
        if decide (missing_indicators ≠ []) then Exit 1
        else
          match signals df with
          | None => Failed
          | Some (_, _, (long_entries, short_entries, _, _)) =>
              Complete (F64.eq long_entries (F64.lit 0) &&
                        F64.eq short_entries (F64.lit 0))
          end
    end.
End Run.

End TestScript.

(** ** Signs

    Floats above zero, floats below zero, and the two sides on which a
    threshold derived from a positive parameter can lie. *)

Definition above_zero (x : f64) : bool :=
  match x with S754_finite false _ _ | S754_infinity false => true | _ => false end.

Definition below_zero (x : f64) : bool :=
  match x with S754_finite true _ _ | S754_infinity true => true | _ => false end.

Definition signed_or_nan (s : bool) (x : f64) : Prop :=
  match x with
  | S754_nan => True
  | S754_zero s' | S754_infinity s' | S754_finite s' _ _ => s' = s
  end.

(** ** Ratios

    What the quotient [q] of [x] by a denominator [d] that is undefined or
    zero is: undefined under an undefined denominator, and then every
    ordering and every equality over it is false and [!=] is true;
    undefined under a zero denominator when [x] is zero or undefined, and
    infinite otherwise; and never zero. *)
Definition unusable_denominator (x d q : f64) : Prop :=
  (F64.is_nan d = true →
     F64.is_nan q = true ∧
     ∀ y, F64.gt q y = false ∧ F64.lt q y = false ∧ F64.eq q y = false ∧
          F64.gt y q = false ∧ F64.lt y q = false ∧ F64.eq y q = false ∧
          F64.ge q y = false ∧ F64.le q y = false ∧
          F64.ge y q = false ∧ F64.le y q = false ∧
          F64.ne q y = true ∧ F64.ne y q = true) ∧
  (F64.is_zero d = true →
     F64.is_nan q = F64.is_zero x || F64.is_nan x ∧
     F64.is_inf q = negb (F64.is_zero x || F64.is_nan x)) ∧
  (F64.is_nan d || F64.is_zero d = true → F64.is_zero q = false).

(** The number of rows of a decision column that are set. *)
Definition count_set (column : list f64) : nat :=
  length (filter (λ x, is_set (VNum x) = true) column).

(** The number of rows that are set and that a mask keeps. *)
Definition count_kept (column : list f64) (keep : list bool) : nat :=
  length (filter (λ p : f64 * bool, is_set (VNum p.1) && p.2 = true) (zip column keep)).

(** The running sum of a decision column once a 1 has been added: +infinity
    or a positive float whose exponent is -52 or more. *)
Definition at_least_ulp (a : f64) : Prop :=
  a = S754_infinity false ∨ ∃ m e, a = S754_finite false m e ∧ (-52 ≤ e)%Z.

(** ** Indicators as functions of the candles

    The indicator libraries read the candle columns of the frame they are
    given and no other column. *)

Definition candle_columns : list string := ["open"; "high"; "low"; "close"; "volume"].

Definition same_candles (d d' : DataFrame) : Prop :=
  nrows d = nrows d' ∧ ∀ name, name ∈ candle_columns → cols d !! name = cols d' !! name.

Definition candles_only (ta : Indicators) : Prop :=
  ∀ d d', same_candles d d' →
    (∀ p, ta_RSI ta d p = ta_RSI ta d' p) ∧
    (∀ p, ta_MFI ta d p = ta_MFI ta d' p) ∧
    (∀ p, ta_ADX ta d p = ta_ADX ta d' p) ∧
    (∀ p, ta_EMA ta d p = ta_EMA ta d' p) ∧
    (∀ p, ta_ROC ta d p = ta_ROC ta d' p) ∧
    (∀ p q r, ta_STOCHRSI ta d p q r = ta_STOCHRSI ta d' p q r) ∧
    typical_price ta d = typical_price ta d'.

(** A sequence of column writes, the first of the list being the last one
    made. *)
Definition writes (columns : list (string * list f64)) (dataframe : DataFrame)
    : DataFrame :=
  foldr (λ column, set_num_col column.1 column.2) dataframe columns.

(** The columns [feature_engineering_expand_all] writes at a period, the
    first of the list being the last one written, when every indicator is
    computed from the candles of [dataframe]. *)
Definition expand_all_columns (ta : Indicators)
    (rolling_mean : nat → list f64 → list f64) (dataframe : DataFrame) (period : nat)
    : option (list (string * list f64)) :=
  rsi ← ta_RSI ta dataframe period;
  mfi ← ta_MFI ta dataframe period;
  adx ← ta_ADX ta dataframe period;
  ema ← ta_EMA ta dataframe period;
  price ← typical_price ta dataframe;
  '(lower, mid, upper) ← bollinger_bands ta price period (F64.lit 2.2);
  close ← num_col dataframe "close";
  roc ← ta_ROC ta dataframe period;
  volume ← num_col dataframe "volume";
  '(fastk, fastd) ← ta_STOCHRSI ta dataframe 14 period 3;
  Some [("%-stochrsi_d-period", fastd);
        ("%-stochrsi_k-period", fastk);
        ("%-relative_volume-period", ser_div volume (rolling_mean period volume));
        ("%-roc-period", roc);
        ("%-close-bb_lower-period", ser_div close lower);
        ("%-bb_width-period", ser_div (ser_sub upper lower) mid);
        ("bb_upperband-period", upper);
        ("bb_middleband-period", mid);
        ("bb_lowerband-period", lower);
        ("%-ema-period", ema);
        ("%-sma-period", ema);
        ("%-adx-period", adx);
        ("%-mfi-period", mfi);
        ("%-rsi-period", rsi)].

(** ** Concrete frames

    Small frames on which the passes are evaluated. *)

Module Frames.

Definition nums (xs : list PrimFloat.float) : Series := (λ x, VNum (F64.lit x)) <$> xs.

Definition frame (n : nat) (columns : list (string * Series)) : DataFrame :=
  {| nrows := n; cols := list_to_map columns |}.

(** The metadata freqtrade passes for a pair. *)
Definition btc : Metadata := {["pair" := "BTC/USDT:USDT"]}.

(** No analysed candle yet. *)
Definition no_candle : DataFrame := frame 0 [].

(** One analysed candle that closed at 100, in a frame that holds nothing
    but the close. *)
Definition one_candle : DataFrame := frame 1 [("close", nums [100%float])].

(** One candle closing at 100 on a volume of 10. *)
Definition traded_candle : DataFrame :=
  frame 1 [("close", nums [100%float]); ("volume", nums [10%float])].

(** One candle whose prediction is not trusted, in a frame that holds
    nothing but the validity flag. *)
Definition untrusted_only : DataFrame := frame 1 [("do_predict", nums [0%float])].

(** The last candle of an open position: the prediction is not trusted
    ([do_predict = 0]) and has turned negative. *)
Definition untrusted_candle : DataFrame :=
  frame 2 [("close", nums [100; 103]%float);
           ("do_predict", nums [1; 0]%float);
           ("&-s_close", nums [0.01; -0.01]%float)].

(** Three candles with trusted positive predictions: the trend filter
    fails on the first and the volume filter on the last. *)
Definition uptrend : DataFrame :=
  frame 3 [("close", nums [100; 101; 102]%float);
           ("volume", nums [10; 12; 0]%float);
           ("do_predict", nums [1; 1; 1]%float);
           ("&-s_close", nums [0.01; 0.01; 0.01]%float);
           ("EMA_12", nums [99; 101; 102]%float);
           ("EMA_26", nums [100; 100; 100]%float);
           ("RSI_14", nums [50; 50; 50]%float);
           ("bb_width", nums [0.02; 0.02; 0.02]%float)].

(** The frame [uptrend] on whose second candle a short entry is already
    set. *)
Definition uptrend_shorted : DataFrame :=
  frame 3 [("close", nums [100; 101; 102]%float);
           ("volume", nums [10; 12; 0]%float);
           ("do_predict", nums [1; 1; 1]%float);
           ("&-s_close", nums [0.01; 0.01; 0.01]%float);
           ("EMA_12", nums [99; 101; 102]%float);
           ("EMA_26", nums [100; 100; 100]%float);
           ("RSI_14", nums [50; 50; 50]%float);
           ("bb_width", nums [0.02; 0.02; 0.02]%float);
           ("enter_short", nums [0; 1; 0]%float)].

(** Ten candles closing at 100, on each of which the wrapped strategy has
    set [enter_long]; the predicted price is 101 on the first four and
    100.5 on the other six. *)
Definition ten_marked : DataFrame :=
  frame 10
    [("close", nums [100; 100; 100; 100; 100; 100; 100; 100; 100; 100]%float);
     ("&-s_close",
      nums [101; 101; 101; 101; 100.5; 100.5; 100.5; 100.5; 100.5; 100.5]%float);
     ("do_predict", nums [1; 1; 1; 1; 1; 1; 1; 1; 1; 1]%float);
     ("enter_long", nums [1; 1; 1; 1; 1; 1; 1; 1; 1; 1]%float);
     ("enter_short", nums [0; 0; 0; 0; 0; 0; 0; 0; 0; 0]%float)].

(** One candle whose trusted prediction equals its close, with both exit
    columns at 0: [ml_upside] is 0, inside both exit thresholds. *)
Definition flat_prediction : DataFrame :=
  frame 1 [("close", nums [100%float]);
           ("&-s_close", nums [100%float]);
           ("do_predict", nums [1%float]);
           ("exit_long", nums [0%float]);
           ("exit_short", nums [0%float])].

(** The same candle in a frame that has no exit column. *)
Definition no_exit_columns : DataFrame :=
  frame 1 [("close", nums [100%float]);
           ("&-s_close", nums [100%float]);
           ("do_predict", nums [1%float])].

(** Two candles on which the wrapped strategy has set both entry columns;
    the predicted price is above the close on the first and below it on
    the second. *)
Definition both_marked : DataFrame :=
  frame 2 [("close", nums [100; 100]%float);
           ("&-s_close", nums [101; 99]%float);
           ("do_predict", nums [1; 1]%float);
           ("enter_long", nums [1; 1]%float);
           ("enter_short", nums [1; 1]%float)].

(** Two candles on which the wrapped strategy has set both entry columns,
    in a frame without predictions. *)
Definition both_marked_unpredicted : DataFrame :=
  frame 2 [("close", nums [100; 100]%float);
           ("enter_long", nums [1; 1]%float);
           ("enter_short", nums [1; 1]%float)].

(** The frame [uptrend] with the prediction of its second candle not
    trusted. *)
Definition untrusted_uptrend : DataFrame :=
  frame 3 [("close", nums [100; 101; 102]%float);
           ("volume", nums [10; 12; 0]%float);
           ("do_predict", nums [1; 0; 1]%float);
           ("&-s_close", nums [0.01; 0.01; 0.01]%float);
           ("EMA_12", nums [99; 101; 102]%float);
           ("EMA_26", nums [100; 100; 100]%float);
           ("RSI_14", nums [50; 50; 50]%float);
           ("bb_width", nums [0.02; 0.02; 0.02]%float)].

(** The frame [both_marked] with the prediction of its first candle not
    trusted. *)
Definition untrusted_marked : DataFrame :=
  frame 2 [("close", nums [100; 100]%float);
           ("&-s_close", nums [101; 99]%float);
           ("do_predict", nums [0; 1]%float);
           ("enter_long", nums [1; 1]%float);
           ("enter_short", nums [1; 1]%float)].

(** The frame [flat_prediction] with its prediction not trusted. *)
Definition untrusted_flat : DataFrame :=
  frame 1 [("close", nums [100%float]);
           ("&-s_close", nums [100%float]);
           ("do_predict", nums [0%float]);
           ("exit_long", nums [0%float]);
           ("exit_short", nums [0%float])].

(** A frame without rows that holds the three columns the exit pass
    reads and no exit column. *)
Definition no_rows : DataFrame :=
  frame 0 [("do_predict", []); ("&-s_close", []); ("RSI_14", [])].

(** Five candles closing at 1, 2, 3, 4 and 5. *)
Definition five_closes : DataFrame :=
  frame 5 [("close", nums [1; 2; 3; 4; 5]%float)].

(** Thirty candles that all close at 100. *)
Definition flat_thirty : DataFrame :=
  frame 30 [("close", replicate 30 (VNum (F64.lit 100)))].

(** Two candles with their five candle columns. *)
Definition two_candles : DataFrame :=
  frame 2 [("open", nums [100; 101]%float);
           ("high", nums [102; 103]%float);
           ("low", nums [99; 100]%float);
           ("close", nums [101; 102]%float);
           ("volume", nums [10; 12]%float)].

(** The frame [two_candles] without its volume. *)
Definition two_candles_no_volume : DataFrame :=
  frame 2 [("open", nums [100; 101]%float);
           ("high", nums [102; 103]%float);
           ("low", nums [99; 100]%float);
           ("close", nums [101; 102]%float)].

(** A history of [n] candles that are all alike. *)
Definition flat_history (n : nat) : DataFrame :=
  frame n [("open", replicate n (VNum (F64.lit 100)));
           ("high", replicate n (VNum (F64.lit 101)));
           ("low", replicate n (VNum (F64.lit 99)));
           ("close", replicate n (VNum (F64.lit 100)));
           ("volume", replicate n (VNum (F64.lit 10)))].

(** The answer of an indicator that is still undefined on every row, as
    the libraries' are while their period is not covered; the call raises
    when a column it reads is missing or the period is below 2. *)
Definition undefined_on (reads : list string) (dataframe : DataFrame) (period : nat)
    : option (list f64) :=
  if forallb (λ name, bool_decide (is_Some (num_col dataframe name))) reads
     && (2 <=? period)
  then Some (replicate (nrows dataframe) F64.nan)
  else None.

(** An indicator library whose Bollinger bands are given columns and whose
    other indicators are undefined on every row; the typical price is
    qtpylib's, the mean of high, low and close. *)
Definition with_bands (lower mid upper : list f64) : Indicators :=
  {| ta_RSI := undefined_on ["close"];
     ta_MFI := undefined_on ["high"; "low"; "close"; "volume"];
     ta_ADX := undefined_on ["high"; "low"; "close"];
     ta_EMA := undefined_on ["close"];
     ta_ROC := undefined_on ["close"];
     ta_STOCHRSI := λ dataframe timeperiod fastk_period fastd_period,
       k ← undefined_on ["close"] dataframe timeperiod;
       Some (k, k);
     typical_price := λ dataframe,
       high ← num_col dataframe "high";
       low ← num_col dataframe "low";
       close ← num_col dataframe "close";
       Some (ser_div_c (ser_add (ser_add high low) close) (F64.lit 3));
     bollinger_bands := λ _ _ _, Some (lower, mid, upper) |}.

(** The library with undefined bands as well: no indicator has a value on
    any of the [n] rows.  On a history shorter than every period this is
    what TA-Lib and qtpylib return; on a longer one it stands in for them. *)
Definition undefined_indicators (n : nat) : Indicators :=
  with_bands (replicate n F64.nan) (replicate n F64.nan) (replicate n F64.nan).

(** A wrapped strategy whose passes return a given frame. *)
Definition returns (entry exit : DataFrame) : Strategy.IStrategy := {|
  Strategy.populate_entry_trend := λ _ _, Some entry;
  Strategy.populate_exit_trend := λ _ _, Some exit
|}.

End Frames.

(** ** Further frames *)

Module Cases.

(** One analysed candle whose close is undefined. *)
Definition undefined_close : DataFrame :=
  Frames.frame 1 [("close", [VNum F64.nan]); ("volume", Frames.nums [10%float])].

(** The frame [Frames.uptrend] with the volume of its second candle
    undefined. *)
Definition undefined_volume : DataFrame :=
  Frames.frame 3 [("close", Frames.nums [100; 101; 102]%float);
                  ("volume", [VNum (F64.lit 10); VNum F64.nan; VNum (F64.lit 0)]);
                  ("do_predict", Frames.nums [1; 1; 1]%float);
                  ("&-s_close", Frames.nums [0.01; 0.01; 0.01]%float);
                  ("EMA_12", Frames.nums [99; 101; 102]%float);
                  ("EMA_26", Frames.nums [100; 100; 100]%float);
                  ("RSI_14", Frames.nums [50; 50; 50]%float);
                  ("bb_width", Frames.nums [0.02; 0.02; 0.02]%float)].

(** One candle with a prediction and no [do_predict] column. *)
Definition prediction_only : DataFrame :=
  Frames.frame 1 [("close", Frames.nums [100%float]);
                  ("&-s_close", Frames.nums [101%float])].

(** One candle with a close and an [atr] column, without high and low. *)
Definition atr_only : DataFrame :=
  Frames.frame 1 [("close", Frames.nums [100%float]);
                  ("atr", Frames.nums [2%float])].

(** One candle with its range, its close and its two EMAs; the slow EMA is
    not yet defined. *)
Definition warming_up : DataFrame :=
  Frames.frame 1 [("high", Frames.nums [101%float]);
                  ("low", Frames.nums [99%float]);
                  ("close", Frames.nums [100%float]);
                  ("ema_12", Frames.nums [100%float]);
                  ("ema_26", [VNum F64.nan])].

End Cases.

Ltac by_eval := vm_compute; reflexivity.

(** * Properties *)

(** ** The trade guard *)

Lemma last_candle_single_column (dataframe : DataFrame) (name : string) :
  size (cols dataframe) = 1 → last_candle dataframe name = None.
Proof.
  intros Hone. unfold last_candle.
  destruct (decide (size (cols dataframe) = 1)); [reflexivity | contradiction].
Qed.

Section TradeGuardFacts.
Variable dp : string → DataFrame.
Variables (pair order_type time_in_force : string) (amount rate : f64).
Variables (current_time : Z) (entry_tag : option string) (side : string).

Lemma confirm_trade_entry_no_candle :
  nrows (dp pair) < 1 →
  FreqAI.confirm_trade_entry dp pair order_type amount rate time_in_force
    current_time entry_tag side = Some false.
Proof.
  intros Hn. unfold FreqAI.confirm_trade_entry.
  destruct (decide (nrows (dp pair) < 1)); [reflexivity | contradiction].
Qed.

Lemma confirm_trade_entry_last_close c :
  1 ≤ nrows (dp pair) →
  last_candle (dp pair) "close" = Some c →
  FreqAI.confirm_trade_entry dp pair order_type amount rate time_in_force
    current_time entry_tag side
  = Some (negb (if decide (side = "long")
                then F64.gt rate (F64.mul c (F64.lit 1.0025))
                else F64.lt rate (F64.mul c (F64.lit 0.9975)))).
Proof.
  intros Hn Hc. unfold FreqAI.confirm_trade_entry.
  destruct (decide (nrows (dp pair) < 1)) as [Hlt | _]; [lia |].
  rewrite Hc. cbn [mbind option_bind].
  destruct (decide (side = "long")).
  - destruct (F64.gt rate _); reflexivity.
  - destruct (F64.lt rate _); reflexivity.
Qed.

Lemma confirm_trade_entry_single_column :
  1 ≤ nrows (dp pair) → size (cols (dp pair)) = 1 →
  FreqAI.confirm_trade_entry dp pair order_type amount rate time_in_force
    current_time entry_tag side = None.
Proof.
  intros Hn Hone. unfold FreqAI.confirm_trade_entry.
  destruct (decide (nrows (dp pair) < 1)) as [Hlt | _]; [lia |].
  rewrite (last_candle_single_column _ _ Hone). reflexivity.
Qed.
End TradeGuardFacts.

(** C1 as stated fails: one analysed candle is fewer than the 800 of the
    warm-up, and a long entry at the last close is confirmed. *)
Lemma confirm_trade_entry_short_history_accepts :
  nrows Frames.traded_candle < FreqAI.startup_candle_count ∧
  FreqAI.confirm_trade_entry (λ _, Frames.traded_candle) "BTC/USDT:USDT" "limit"
    (F64.lit 1) (F64.lit 100) "GTC" 0 None "long" = Some true.
Proof. split; [vm_compute; lia | vm_compute; reflexivity]. Qed.

(** C1, amended: the guard rejects, whatever the pair, rate, side and other
    arguments, when fewer than one analysed candle is available; from one
    candle on, also below the warm-up length, the answer is that of the
    slippage check against the last close, and the guard raises when the
    frame holds a single column. *)
Theorem confirm_trade_entry_fails_closed_without_candles
    (dp : string → DataFrame) (pair order_type time_in_force : string)
    (amount rate : f64) (current_time : Z) (entry_tag : option string)
    (side : string) :
  (nrows (dp pair) < 1 →
   FreqAI.confirm_trade_entry dp pair order_type amount rate time_in_force
     current_time entry_tag side = Some false) ∧
  (∀ c, 1 ≤ nrows (dp pair) →
   last_candle (dp pair) "close" = Some c →
   FreqAI.confirm_trade_entry dp pair order_type amount rate time_in_force
     current_time entry_tag side
   = Some (negb (if decide (side = "long")
                 then F64.gt rate (F64.mul c (F64.lit 1.0025))
                 else F64.lt rate (F64.mul c (F64.lit 0.9975))))) ∧
  (1 ≤ nrows (dp pair) → size (cols (dp pair)) = 1 →
   FreqAI.confirm_trade_entry dp pair order_type amount rate time_in_force
     current_time entry_tag side = None).
Proof.
  split; [| split].
  - apply confirm_trade_entry_no_candle.
  - intros c. apply confirm_trade_entry_last_close.
  - apply confirm_trade_entry_single_column.
Qed.

Lemma confirm_trade_entry_fails_closed_witness :
  FreqAI.confirm_trade_entry (λ _, Frames.no_candle) "BTC/USDT:USDT" "limit"
    (F64.lit 1) (F64.lit 100) "GTC" 0 None "long" = Some false ∧
  FreqAI.confirm_trade_entry (λ _, Frames.traded_candle) "BTC/USDT:USDT" "limit"
    (F64.lit 1) (F64.lit 100) "GTC" 0 None "short" = Some true ∧
  FreqAI.confirm_trade_entry (λ _, Frames.one_candle) "BTC/USDT:USDT" "limit"
    (F64.lit 1) (F64.lit 100) "GTC" 0 None "short" = None.
Proof.
  split; [| split].
  - apply (confirm_trade_entry_fails_closed_without_candles (λ _, Frames.no_candle)).
    vm_compute. lia.
  - refine (proj1 (proj2 (confirm_trade_entry_fails_closed_without_candles
             (λ _, Frames.traded_candle) _ _ _ _ _ _ _ _)) (F64.lit 100) _ _).
    + vm_compute. lia.
    + vm_compute. reflexivity.
  - refine (proj2 (proj2 (confirm_trade_entry_fails_closed_without_candles
             (λ _, Frames.one_candle) _ _ _ _ _ _ _ _)) _ _).
    + vm_compute. lia.
    + vm_compute. reflexivity.
Defined.







(** ** Frames and columns *)

Lemma mapM_as_num_fmap (l : list f64) : mapM as_num (VNum <$> l) = Some l.
Proof.
  induction l as [| x l IH]; [reflexivity |].
  cbn [fmap list_fmap mapM as_num]. rewrite IH. reflexivity.
Qed.

Lemma mapM_as_num_inv (s : Series) (l : list f64) :
  mapM as_num s = Some l → s = VNum <$> l.
Proof.
  revert l. induction s as [| v s IH]; intros l Hl.
  - injection Hl as <-. reflexivity.
  - cbn [mapM] in Hl. destruct v as [x | t]; [| discriminate].
    cbn in Hl. destruct (mapM as_num s) as [k |]; [| discriminate].
    injection Hl as <-. cbn. f_equal. apply IH. reflexivity.
Qed.

Lemma num_col_inv (df : DataFrame) (name : string) (l : list f64) :
  num_col df name = Some l → cols df !! name = Some (VNum <$> l).
Proof.
  unfold num_col. destruct (cols df !! name) as [s |]; [| discriminate].
  cbn. intros Hl. f_equal. apply mapM_as_num_inv, Hl.
Qed.

Lemma num_col_has_col (df : DataFrame) (name : string) (l : list f64) :
  num_col df name = Some l → has_col df name = true.
Proof.
  intros Hl. apply num_col_inv in Hl. unfold has_col.
  apply bool_decide_eq_true. rewrite Hl. eexists. reflexivity.
Qed.

Lemma has_col_false (df : DataFrame) (name : string) :
  has_col df name = false ↔ cols df !! name = None.
Proof.
  unfold has_col. rewrite bool_decide_eq_false, <- eq_None_not_Some. reflexivity.
Qed.

Lemma cols_set_col_eq (df : DataFrame) (name : string) (s : Series) :
  cols (set_col name s df) !! name = Some s.
Proof. apply lookup_insert_eq. Qed.

Lemma cols_set_col_ne (df : DataFrame) (name other : string) (s : Series) :
  name ≠ other → cols (set_col name s df) !! other = cols df !! other.
Proof. intros Hne. apply lookup_insert_ne, Hne. Qed.

Lemma num_col_set_num_col_eq (df : DataFrame) (name : string) (l : list f64) :
  num_col (set_num_col name l df) name = Some l.
Proof.
  unfold num_col, set_num_col. rewrite cols_set_col_eq. apply mapM_as_num_fmap.
Qed.

Lemma num_col_set_col_ne (df : DataFrame) (name other : string) (s : Series) :
  name ≠ other → num_col (set_col name s df) other = num_col df other.
Proof. intros Hne. unfold num_col. rewrite cols_set_col_ne by exact Hne. reflexivity. Qed.

Lemma has_col_set_col_ne (df : DataFrame) (name other : string) (s : Series) :
  name ≠ other → has_col (set_col name s df) other = has_col df other.
Proof. intros Hne. unfold has_col. rewrite cols_set_col_ne by exact Hne. reflexivity. Qed.

Lemma has_col_set_col_eq (df : DataFrame) (name : string) (s : Series) :
  has_col (set_col name s df) name = true.
Proof.
  unfold has_col. apply bool_decide_eq_true. rewrite cols_set_col_eq.
  eexists. reflexivity.
Qed.

Lemma cell_set_col_ne (df : DataFrame) (name other : string) (s : Series) (i : nat) :
  name ≠ other → cell (set_col name s df) other i = cell df other i.
Proof. intros Hne. unfold cell. rewrite cols_set_col_ne by exact Hne. reflexivity. Qed.

Lemma cell_num_col (df : DataFrame) (name : string) (l : list f64) (i : nat) (x : f64) :
  num_col df name = Some l → l !! i = Some x → cell df name i = Some (VNum x).
Proof.
  intros Hl Hx. apply num_col_inv in Hl. unfold cell. rewrite Hl.
  rewrite list_lookup_fmap, Hx. reflexivity.
Qed.

(** What [dataframe.loc[mask, name] = v] leaves in a row. *)
Lemma cell_loc_set_eq (df : DataFrame) (mask : list bool) (name : string)
    (v o : value) (i : nat) (b : bool) :
  mask !! i = Some b → cell df name i = Some o →
  cell (loc_set mask name v df) name i = Some (if b then v else o).
Proof.
  intros Hb Ho. unfold cell, loc_set in *. rewrite cols_set_col_eq.
  rewrite lookup_zip_with, Hb. cbn [mbind option_bind].
  destruct (cols df !! name) as [s |]; cbn [default id].
  - rewrite Ho. reflexivity.
  - destruct (decide (i < nrows df)); [| discriminate]. injection Ho as <-.
    rewrite lookup_replicate_2 by (eapply lookup_lt_Some, Hb). reflexivity.
Qed.

Lemma cols_loc_set_ne (df : DataFrame) (mask : list bool) (name other : string)
    (v : value) :
  name ≠ other → cols (loc_set mask name v df) !! other = cols df !! other.
Proof. intros Hne. unfold loc_set. apply cols_set_col_ne, Hne. Qed.

Lemma cell_loc_set_ne (df : DataFrame) (mask : list bool) (name other : string)
    (v : value) (i : nat) :
  name ≠ other → cell (loc_set mask name v df) other i = cell df other i.
Proof. intros Hne. unfold loc_set. apply cell_set_col_ne, Hne. Qed.

Lemma num_col_loc_set_ne (df : DataFrame) (mask : list bool) (name other : string)
    (v : value) :
  name ≠ other → num_col (loc_set mask name v df) other = num_col df other.
Proof. intros Hne. unfold loc_set. apply num_col_set_col_ne, Hne. Qed.

Lemma has_col_loc_set_ne (df : DataFrame) (mask : list bool) (name other : string)
    (v : value) :
  name ≠ other → has_col (loc_set mask name v df) other = has_col df other.
Proof. intros Hne. unfold loc_set. apply has_col_set_col_ne, Hne. Qed.

Lemma zip_with_mask_fmap (mask : list bool) (x : f64) (l : list f64) :
  zip_with (λ (b : bool) o, if b then VNum x else o) mask (VNum <$> l)
  = VNum <$> zip_with (λ (b : bool) o, if b then x else o) mask l.
Proof.
  revert l. induction mask as [| b mask IH]; intros [| o l]; try reflexivity.
  cbn. rewrite <- IH. destruct b; reflexivity.
Qed.

(** A number written under a mask into a numeric column leaves it numeric. *)
Lemma num_col_loc_set_eq (df : DataFrame) (mask : list bool) (name : string)
    (x : f64) (l : list f64) :
  num_col df name = Some l →
  num_col (loc_set mask name (VNum x) df) name
  = Some (zip_with (λ (b : bool) o, if b then x else o) mask l).
Proof.
  intros Hl. apply num_col_inv in Hl. unfold num_col, loc_set.
  rewrite cols_set_col_eq, Hl. cbn [default from_option id mbind option_bind].
  rewrite zip_with_mask_fmap. apply mapM_as_num_fmap.
Qed.

(** A scalar can be written under a mask into a column that exists, and
    into any column of a frame that has rows. *)
Lemma loc_set_scalar_Some (df : DataFrame) (mask : list bool) (name : string)
    (v : value) :
  nrows df ≠ 0 ∨ has_col df name = true →
  loc_set_scalar mask name v df = Some (loc_set mask name v df).
Proof.
  intros Hok. unfold loc_set_scalar.
  destruct (Nat.eqb_spec (nrows df) 0) as [Hz | _]; [| reflexivity].
  destruct Hok as [Hn | ->]; [contradiction | reflexivity].
Qed.

Lemma loc_set_scalar_None (df : DataFrame) (mask : list bool) (name : string)
    (v : value) :
  nrows df = 0 → has_col df name = false → loc_set_scalar mask name v df = None.
Proof.
  intros Hz Hno. unfold loc_set_scalar. rewrite Hz, Hno. reflexivity.
Qed.

Lemma loc_set_scalar_inv (df df' : DataFrame) (mask : list bool) (name : string)
    (v : value) :
  loc_set_scalar mask name v df = Some df' →
  df' = loc_set mask name v df ∧ (nrows df ≠ 0 ∨ has_col df name = true).
Proof.
  unfold loc_set_scalar.
  destruct (Nat.eqb_spec (nrows df) 0) as [Hz | Hnz];
    destruct (has_col df name); cbn; intros [= <-]; split; auto.
Qed.

Lemma nrows_loc_set (df : DataFrame) (mask : list bool) (name : string) (v : value) :
  nrows (loc_set mask name v df) = nrows df.
Proof. reflexivity. Qed.

Lemma has_col_loc_set_eq (df : DataFrame) (mask : list bool) (name : string)
    (v : value) :
  has_col (loc_set mask name v df) name = true.
Proof. apply has_col_set_col_eq. Qed.

(** Rows of the element-wise operations. *)
Lemma lookup_ser_and (a b : list bool) (i : nat) (x y : bool) :
  a !! i = Some x → b !! i = Some y → ser_and a b !! i = Some (x && y).
Proof. intros Ha Hb. unfold ser_and. rewrite lookup_zip_with, Ha, Hb. reflexivity. Qed.

Lemma lookup_ser_or (a b : list bool) (i : nat) (x y : bool) :
  a !! i = Some x → b !! i = Some y → ser_or a b !! i = Some (x || y).
Proof. intros Ha Hb. unfold ser_or. rewrite lookup_zip_with, Ha, Hb. reflexivity. Qed.

Lemma lookup_ser_not (a : list bool) (i : nat) (x : bool) :
  a !! i = Some x → ser_not a !! i = Some (negb x).
Proof. intros Ha. unfold ser_not. rewrite list_lookup_fmap, Ha. reflexivity. Qed.

Lemma lookup_ser_gt (a b : list f64) (i : nat) (x y : f64) :
  a !! i = Some x → b !! i = Some y → ser_gt a b !! i = Some (F64.gt x y).
Proof. intros Ha Hb. unfold ser_gt. rewrite lookup_zip_with, Ha, Hb. reflexivity. Qed.

Lemma lookup_ser_gt_c (a : list f64) (c : f64) (i : nat) (x : f64) :
  a !! i = Some x → ser_gt_c a c !! i = Some (F64.gt x c).
Proof. intros Ha. unfold ser_gt_c. rewrite list_lookup_fmap, Ha. reflexivity. Qed.

Lemma lookup_ser_lt_c (a : list f64) (c : f64) (i : nat) (x : f64) :
  a !! i = Some x → ser_lt_c a c !! i = Some (F64.lt x c).
Proof. intros Ha. unfold ser_lt_c. rewrite list_lookup_fmap, Ha. reflexivity. Qed.

Lemma lookup_ser_eq_c (a : list f64) (c : f64) (i : nat) (x : f64) :
  a !! i = Some x → ser_eq_c a c !! i = Some (F64.eq x c).
Proof. intros Ha. unfold ser_eq_c. rewrite list_lookup_fmap, Ha. reflexivity. Qed.

Lemma lookup_ser_sub (a b : list f64) (i : nat) (x y : f64) :
  a !! i = Some x → b !! i = Some y → ser_sub a b !! i = Some (F64.sub x y).
Proof. intros Ha Hb. unfold ser_sub. rewrite lookup_zip_with, Ha, Hb. reflexivity. Qed.

Lemma lookup_ser_div (a b : list f64) (i : nat) (x y : f64) :
  a !! i = Some x → b !! i = Some y → ser_div a b !! i = Some (F64.div x y).
Proof. intros Ha Hb. unfold ser_div. rewrite lookup_zip_with, Ha, Hb. reflexivity. Qed.

Lemma lookup_ser_sub_c (a : list f64) (c : f64) (i : nat) (x : f64) :
  a !! i = Some x → ser_sub_c a c !! i = Some (F64.sub x c).
Proof. intros Ha. unfold ser_sub_c. rewrite list_lookup_fmap, Ha. reflexivity. Qed.

Create HintDb rows discriminated.
#[export] Hint Resolve lookup_ser_and lookup_ser_or lookup_ser_not lookup_ser_gt
  lookup_ser_gt_c lookup_ser_lt_c lookup_ser_eq_c lookup_ser_sub lookup_ser_div
  lookup_ser_sub_c : rows.

(** ** The entry and exit passes of the primary strategy *)

Section PrimaryPasses.
Variables (df : DataFrame) (metadata : Metadata).
Variables do_predict s_close EMA_12 EMA_26 RSI_14 bb_width volume : list f64.
Hypothesis Hdo_predict : num_col df "do_predict" = Some do_predict.
Hypothesis Hs_close : num_col df "&-s_close" = Some s_close.
Hypothesis HEMA_12 : num_col df "EMA_12" = Some EMA_12.
Hypothesis HEMA_26 : num_col df "EMA_26" = Some EMA_26.
Hypothesis HRSI_14 : num_col df "RSI_14" = Some RSI_14.
Hypothesis Hbb_width : num_col df "bb_width" = Some bb_width.
Hypothesis Hvolume : num_col df "volume" = Some volume.

(** The entry pass writes under one mask, whose rows are the conjunction of
    the five conditions. *)
Lemma primary_entry_mask :
  ∃ mask,
    FreqAI.populate_entry_trend df metadata
    = Some (loc_set mask "enter_tag" (VStr "ml_long")
              (loc_set mask "enter_long" (VNum (F64.lit 1)) df)) ∧
    ∀ i d p e12 e26 r w v,
      do_predict !! i = Some d → s_close !! i = Some p →
      EMA_12 !! i = Some e12 → EMA_26 !! i = Some e26 → RSI_14 !! i = Some r →
      bb_width !! i = Some w → volume !! i = Some v →
      mask !! i = Some (F64.eq d (F64.lit 1) && F64.gt p (F64.lit 0.0001)
                        && (F64.gt e12 e26 || F64.lt r (F64.lit 35))
                        && F64.gt w (F64.lit 0.015) && F64.gt v (F64.lit 0)).
Proof using Hdo_predict Hs_close HEMA_12 HEMA_26 HRSI_14 Hbb_width Hvolume.
  eexists. split.
  - unfold FreqAI.populate_entry_trend.
    rewrite Hdo_predict, Hs_close, HEMA_12, HEMA_26, HRSI_14, Hbb_width, Hvolume.
    cbn [mbind option_bind reduce foldl]. reflexivity.
  - intros i d p e12 e26 r w v Hd Hp H12 H26 Hr Hw Hv. auto 10 with rows.
Qed.

(** The exit pass writes [exit_long] and [exit_short] under two masks, both
    of which require [do_predict = 1]. *)
(** The exit pass writes [exit_long] and [exit_short] under two masks, both
    of which require [do_predict = 1]. *)
Lemma primary_exit_masks :
  ∃ mask_long mask_short,
    FreqAI.populate_exit_trend df metadata
    = (dataframe ← loc_set_scalar mask_long "exit_long" (VNum (F64.lit 1)) df;
       loc_set_scalar mask_short "exit_short" (VNum (F64.lit 1)) dataframe) ∧
    ∀ i d p r,
      do_predict !! i = Some d → s_close !! i = Some p → RSI_14 !! i = Some r →
      mask_long !! i = Some (F64.eq d (F64.lit 1)
                             && (F64.lt p (F64.lit (-0.005)) || F64.gt r (F64.lit 80))) ∧
      mask_short !! i = Some (F64.eq d (F64.lit 1)
                              && (F64.gt p (F64.lit 0.005) || F64.lt r (F64.lit 20))).
Proof using Hdo_predict Hs_close HRSI_14.
  exists (ser_and (ser_eq_c do_predict (F64.lit 1))
            (ser_or (ser_lt_c s_close (F64.lit (-0.005)))
                    (ser_gt_c RSI_14 (F64.lit 80)))),
         (ser_and (ser_eq_c do_predict (F64.lit 1))
            (ser_or (ser_gt_c s_close (F64.lit 0.005))
                    (ser_lt_c RSI_14 (F64.lit 20)))).
  split.
  - unfold FreqAI.populate_exit_trend.
    rewrite Hdo_predict, Hs_close, HRSI_14.
    cbn [mbind option_bind reduce foldl].
    destruct (loc_set_scalar _ "exit_long" _ df) as [df1 |];
      cbn [mbind option_bind]; [| reflexivity].
    destruct (loc_set_scalar _ "exit_short" _ _); reflexivity.
  - intros i d p r Hd Hp Hr. split; auto 10 with rows.
Qed.

(** The exit pass returns on a frame that has rows, and on a frame that
    holds both exit columns; what it returns is the frame with the two
    columns written. *)
Lemma primary_exit_run :
  ∃ mask_long mask_short,
    let written :=
      loc_set mask_short "exit_short" (VNum (F64.lit 1))
        (loc_set mask_long "exit_long" (VNum (F64.lit 1)) df) in
    (nrows df ≠ 0 ∨ has_col df "exit_long" = true ∧ has_col df "exit_short" = true →
       FreqAI.populate_exit_trend df metadata = Some written) ∧
    (∀ df', FreqAI.populate_exit_trend df metadata = Some df' → df' = written) ∧
    ∀ i d p r,
      do_predict !! i = Some d → s_close !! i = Some p → RSI_14 !! i = Some r →
      mask_long !! i = Some (F64.eq d (F64.lit 1)
                             && (F64.lt p (F64.lit (-0.005)) || F64.gt r (F64.lit 80))) ∧
      mask_short !! i = Some (F64.eq d (F64.lit 1)
                              && (F64.gt p (F64.lit 0.005) || F64.lt r (F64.lit 20))).
Proof using Hdo_predict Hs_close HRSI_14.
  destruct primary_exit_masks as (mask_long & mask_short & Hrun & Hmasks).
  exists mask_long, mask_short. split; [| split; [| exact Hmasks]].
  - intros Hok. rewrite Hrun.
    rewrite loc_set_scalar_Some by (destruct Hok as [? | [? _]]; auto).
    cbn [mbind option_bind]. apply loc_set_scalar_Some.
    rewrite nrows_loc_set, has_col_loc_set_ne by discriminate.
    destruct Hok as [? | [_ ?]]; auto.
  - intros df' Hdf'. rewrite Hrun in Hdf'.
    destruct (loc_set_scalar mask_long "exit_long" _ df) as [df1 |] eqn:Hlong;
      [| discriminate].
    cbn [mbind option_bind] in Hdf'.
    apply loc_set_scalar_inv in Hlong as [-> _].
    apply loc_set_scalar_inv in Hdf' as [-> _]. reflexivity.
Qed.

(** Without rows and without an [exit_long] column the exit pass raises. *)
Lemma primary_exit_no_rows :
  nrows df = 0 → has_col df "exit_long" = false →
  FreqAI.populate_exit_trend df metadata = None.
Proof using Hdo_predict Hs_close HRSI_14.
  intros Hz Hno. destruct primary_exit_masks as (mask_long & mask_short & Hrun & _).
  rewrite Hrun, loc_set_scalar_None by assumption. reflexivity.
Qed.
End PrimaryPasses.

(** C3: on a frame that holds the seven columns read, the entry pass of the
    primary strategy leaves in [enter_long] the value 1, and in [enter_tag]
    the tag ['ml_long'], on the rows where the five conditions hold, and the
    former cell on the other rows; on a frame that has no [enter_long]
    column yet, as the pass receives it, the rows set are exactly the rows
    where the conditions hold.  The column [enter_short] is not written. *)
Theorem primary_entry_long_only
    (df : DataFrame) (metadata : Metadata)
    (do_predict s_close EMA_12 EMA_26 RSI_14 bb_width volume : list f64) :
  num_col df "do_predict" = Some do_predict →
  num_col df "&-s_close" = Some s_close →
  num_col df "EMA_12" = Some EMA_12 →
  num_col df "EMA_26" = Some EMA_26 →
  num_col df "RSI_14" = Some RSI_14 →
  num_col df "bb_width" = Some bb_width →
  num_col df "volume" = Some volume →
  ∃ df',
    FreqAI.populate_entry_trend df metadata = Some df' ∧
    cols df' !! "enter_short" = cols df !! "enter_short" ∧
    ∀ i d p e12 e26 r w v o t,
      do_predict !! i = Some d → s_close !! i = Some p →
      EMA_12 !! i = Some e12 → EMA_26 !! i = Some e26 → RSI_14 !! i = Some r →
      bb_width !! i = Some w → volume !! i = Some v →
      cell df "enter_long" i = Some o → cell df "enter_tag" i = Some t →
      let holds :=
        F64.eq d (F64.lit 1) && F64.gt p (F64.lit 0.0001)
        && (F64.gt e12 e26 || F64.lt r (F64.lit 35))
        && F64.gt w (F64.lit 0.015) && F64.gt v (F64.lit 0) in
      cell df' "enter_long" i = Some (if holds then VNum (F64.lit 1) else o) ∧
      cell df' "enter_tag" i = Some (if holds then VStr "ml_long" else t) ∧
      (has_col df "enter_long" = false →
         ∃ x, cell df' "enter_long" i = Some x ∧ (is_set x = true ↔ holds = true)).
Proof.
  intros Hdp Hsc H12 H26 Hrsi Hbw Hvol.
  destruct (primary_entry_mask df metadata _ _ _ _ _ _ _ Hdp Hsc H12 H26 Hrsi Hbw Hvol)
    as (mask & Hrun & Hmask).
  eexists. split; [exact Hrun |]. split.
  - rewrite !cols_loc_set_ne by discriminate. reflexivity.
  - intros i d p e12 e26 r w v o t Hd Hp He12 He26 Hr Hw Hv Ho Ht holds.
    specialize (Hmask i d p e12 e26 r w v Hd Hp He12 He26 Hr Hw Hv).
    fold holds in Hmask.
    assert (Hlong : cell (loc_set mask "enter_tag" (VStr "ml_long")
                            (loc_set mask "enter_long" (VNum (F64.lit 1)) df))
                      "enter_long" i
                    = Some (if holds then VNum (F64.lit 1) else o)).
    { rewrite cell_loc_set_ne by discriminate. apply cell_loc_set_eq; assumption. }
    split; [exact Hlong |]. split.
    + apply cell_loc_set_eq; [assumption |].
      rewrite cell_loc_set_ne by discriminate. assumption.
    + intros Habsent. eexists. split; [exact Hlong |].
      apply has_col_false in Habsent. unfold cell in Ho. rewrite Habsent in Ho.
      destruct (decide (i < nrows df)); [| discriminate]. injection Ho as <-.
      destruct holds; cbn; split; (reflexivity || discriminate).
Qed.

Lemma primary_entry_long_only_witness :
  ∃ df',
    FreqAI.populate_entry_trend Frames.uptrend Frames.btc = Some df' ∧
    cell df' "enter_long" 0 = Some (VNum F64.nan) ∧
    cell df' "enter_long" 1 = Some (VNum (F64.lit 1)) ∧
    cell df' "enter_tag" 1 = Some (VStr "ml_long") ∧
    cell df' "enter_long" 2 = Some (VNum F64.nan).
Proof.
  edestruct (primary_entry_long_only Frames.uptrend Frames.btc)
    as (df' & Hrun & _ & Hrows); [by_eval .. |].
  exists df'. split; [exact Hrun |].
  edestruct (Hrows 0) as (H0 & _ & _); [by_eval .. |].
  edestruct (Hrows 1) as (H1 & T1 & _); [by_eval .. |].
  edestruct (Hrows 2) as (H2 & _ & _); [by_eval .. |].
  repeat split; [exact H0 | exact H1 | exact T1 | exact H2].
Defined.

(** ** Sums of decision columns

    The Hybrid filter runs under the guard [column.sum() > 0].  On a column
    of cells 0, 1 and NaN the guard passes exactly when a row is set: the
    running sum starts at 0, is left alone by 0 and NaN, and from the first
    1 on is a positive float that adding 1 keeps positive.  That last step
    goes through the rounding of [SFadd]. *)

(** ** Sums of decision columns

    The Hybrid filter runs under the guard [column.sum() > 0].  On a column
    of cells 0, 1 and NaN the guard passes exactly when a row is set: the
    running sum starts at 0, is left alone by 0 and NaN, and from the first
    1 on is a positive float that adding 1 keeps positive.  That last step
    goes through the rounding of [SFadd]. *)

Section Rounding.
Local Open Scope Z_scope.

(** The number of binary digits of a mantissa. *)
Lemma digits2_pos_bounds (p : positive) :
  2 ^ (Z.pos (digits2_pos p) - 1) ≤ Z.pos p < 2 ^ Z.pos (digits2_pos p).
Proof.
  induction p as [p IH | p IH |]; cbn [digits2_pos].
  - rewrite Pos2Z.inj_succ.
    replace (Z.succ (Z.pos (digits2_pos p)) - 1) with (Z.succ (Z.pos (digits2_pos p) - 1)) by lia.
    rewrite !Z.pow_succ_r by lia. lia.
  - rewrite Pos2Z.inj_succ.
    replace (Z.succ (Z.pos (digits2_pos p)) - 1) with (Z.succ (Z.pos (digits2_pos p) - 1)) by lia.
    rewrite !Z.pow_succ_r by lia. lia.
  - cbn. lia.
Qed.

(** One shift to the right halves the mantissa, and [n] shifts divide it by
    [2 ^ n]. *)
Lemma shr_m_shr_1 (mrs : shr_record) :
  0 ≤ shr_m mrs → shr_m (shr_1 mrs) = shr_m mrs / 2.
Proof.
  destruct mrs as [m r s]. cbn [shr_m]. intros Hm. rewrite <- Z.div2_div.
  destruct m as [| [p | p |] | p]; try reflexivity; lia.
Qed.

Lemma shr_m_iter_pos (n : positive) (mrs : shr_record) :
  0 ≤ shr_m mrs → shr_m (SpecFloat.iter_pos shr_1 n mrs) = shr_m mrs / 2 ^ Z.pos n.
Proof.
  revert mrs. induction n as [n IH | n IH |]; intros mrs Hm; cbn [SpecFloat.iter_pos].
  - assert (H1 : 0 ≤ shr_m (shr_1 mrs)).
    { rewrite shr_m_shr_1 by exact Hm. apply Z.div_pos; lia. }
    assert (H2 : 0 ≤ shr_m (SpecFloat.iter_pos shr_1 n (shr_1 mrs))).
    { rewrite IH by exact H1. apply Z.div_pos; [exact H1 | lia]. }
    rewrite IH by exact H2. rewrite IH by exact H1. rewrite shr_m_shr_1 by exact Hm.
    rewrite !Z.div_div by lia. f_equal.
    replace (Z.pos n~1) with (1 + Z.pos n + Z.pos n) by lia.
    rewrite !Z.pow_add_r by lia. lia.
  - assert (H2 : 0 ≤ shr_m (SpecFloat.iter_pos shr_1 n mrs)).
    { rewrite IH by exact Hm. apply Z.div_pos; [exact Hm | lia]. }
    rewrite IH by exact H2. rewrite IH by exact Hm.
    rewrite !Z.div_div by lia. f_equal.
    replace (Z.pos n~0) with (Z.pos n + Z.pos n) by lia.
    rewrite !Z.pow_add_r by lia. lia.
  - rewrite shr_m_shr_1 by exact Hm. reflexivity.
Qed.

Lemma shr_m_record_of_loc (m : Z) (l : location) : shr_m (shr_record_of_loc m l) = m.
Proof. destruct l as [| []]; reflexivity. Qed.

(** Shifting a positive mantissa down to the precision of binary64 leaves a
    positive mantissa, and does not lower the exponent. *)
Lemma shr_fexp_positive (q : positive) (e : Z) (l : location) :
  -52 ≤ e →
  1 ≤ shr_m (fst (shr_fexp prec emax (Z.pos q) e l)) ∧
  e ≤ snd (shr_fexp prec emax (Z.pos q) e l).
Proof.
  intros He. unfold shr_fexp, shr, fexp, SpecFloat.emin, prec, emax.
  cbn [Zdigits2]. pose proof (digits2_pos_bounds q) as [Hlo _].
  set (d := Z.pos (digits2_pos q)) in *.
  replace (Z.max (d + e - 53) (3 - 1024 - 53) - e) with (d - 53) by lia.
  destruct (d - 53) as [| n | n] eqn:Hn; cbn [fst snd];
    rewrite ?shr_m_record_of_loc; try lia.
  rewrite shr_m_iter_pos by (rewrite shr_m_record_of_loc; lia).
  rewrite shr_m_record_of_loc. split; [| lia].
  apply Z.div_le_lower_bound; [lia |].
  assert (2 ^ Z.pos n ≤ 2 ^ (d - 1)) by (apply Z.pow_le_mono_r; lia). lia.
Qed.

Lemma round_nearest_even_ge (m : Z) (l : location) : m ≤ round_nearest_even m l.
Proof. destruct l as [| []]; cbn; try destruct (Z.even m); lia. Qed.

(** A sum that is positive, at an exponent of -52 or more, rounds to a
    positive float at such an exponent, or overflows to +infinity. *)
Lemma binary_round_aux_positive (q : positive) (e : Z) (l : location) :
  -52 ≤ e → at_least_ulp (binary_round_aux prec emax false (Z.pos q) e l).
Proof.
  intros He. unfold binary_round_aux.
  pose proof (shr_fexp_positive q e l He) as [Hm1 He1].
  destruct (shr_fexp prec emax (Z.pos q) e l) as [mrs1 e1]. cbn [fst snd] in *.
  pose proof (round_nearest_even_ge (shr_m mrs1) (loc_of_shr_record mrs1)) as Hr.
  destruct (round_nearest_even (shr_m mrs1) (loc_of_shr_record mrs1)) as [| q1 | q1];
    try lia.
  pose proof (shr_fexp_positive q1 e1 loc_Exact ltac:(lia)) as [Hm2 He2].
  destruct (shr_fexp prec emax (Z.pos q1) e1 loc_Exact) as [mrs2 e2]. cbn [fst snd] in *.
  destruct (shr_m mrs2) as [| q2 | q2]; try lia.
  destruct (e2 <=? emax - prec); [right | left; reflexivity].
  exists q2, e2. split; [reflexivity | lia].
Qed.

(** A mantissa of 53 digits or more is not shifted to the left first. *)
Lemma binary_round_positive (q : positive) (e : Z) :
  -52 ≤ e → 2 ^ 52 ≤ Z.pos q → at_least_ulp (binary_round prec emax false q e).
Proof.
  intros He Hq. unfold binary_round, shl_align, fexp, SpecFloat.emin, prec, emax.
  pose proof (digits2_pos_bounds q) as [_ Hhi].
  set (d := Z.pos (digits2_pos q)) in *.
  assert (Hd : 53 ≤ d).
  { destruct (Z.le_gt_cases 53 d) as [| Hlt]; [assumption |].
    assert (2 ^ d ≤ 2 ^ 52) by (apply Z.pow_le_mono_r; lia). lia. }
  replace (Z.max (d + e - 53) (3 - 1024 - 53) - e) with (d - 53) by lia.
  destruct (d - 53) as [| n | n] eqn:Hn; try lia;
    apply binary_round_aux_positive; exact He.
Qed.

(** Adding 1 to a positive float at an exponent of -52 or more gives such a
    float again, or +infinity. *)
Lemma add_one_at_least_ulp (a : spec_float) :
  at_least_ulp a → at_least_ulp (SFadd prec emax a (Prim2SF 1)).
Proof.
  intros [-> | (m & e & -> & He)]; [left; reflexivity |].
  change (Prim2SF 1) with (S754_finite false 4503599627370496 (-52)).
  unfold SFadd. replace (Z.min e (-52)) with (-52) by lia.
  unfold cond_Zopp.
  assert (Hm : ∃ m', fst (shl_align m e (-52)) = m').
  { eexists. reflexivity. }
  destruct Hm as [m' Hm']. rewrite Hm'.
  change (fst (shl_align 4503599627370496 (-52) (-52))) with 4503599627370496%positive.
  cbn [Z.add binary_normalize].
  apply binary_round_positive; [lia |].
  rewrite Pos2Z.inj_add. change (2 ^ 52) with 4503599627370496. lia.
Qed.
End Rounding.

Lemma one_eq : F64.one = S754_finite false 4503599627370496 (-52).
Proof. reflexivity. Qed.

Lemma zero_eq : F64.zero = S754_zero false.
Proof. reflexivity. Qed.

Lemma decision_cell_cases (x : f64) :
  decision_cell x = true → x = F64.nan ∨ F64.is_zero x = true ∨ x = F64.one.
Proof.
  unfold decision_cell, F64.eq, SFeqb. rewrite one_eq, zero_eq. intros H.
  destruct x as [s | s | | s m e]; auto.
  - destruct s; discriminate.
  - right. right. cbn [F64.is_nan SFcompare orb] in H.
    destruct s; [discriminate |].
    destruct (Z.compare_spec e (-52)) as [He | He | He]; try discriminate.
    rewrite Pos.compare_cont_spec in H. cbn [Pos.switch_Eq] in H.
    destruct (Pos.compare_spec m 4503599627370496) as [Hm | Hm | Hm];
      try discriminate.
    rewrite He, Hm. reflexivity.
Qed.

Lemma at_least_ulp_positive (a : f64) : at_least_ulp a → F64.gt a (F64.lit 0) = true.
Proof. intros [-> | (m & e & -> & _)]; reflexivity. Qed.

Lemma at_least_ulp_not_nan (a : f64) : at_least_ulp a → F64.is_nan a = false.
Proof. intros [-> | (m & e & -> & _)]; reflexivity. Qed.

(** One step of [ser_sum] over a decision cell. *)
Lemma ser_sum_step (acc x : f64) :
  decision_cell x = true →
  acc = F64.zero ∨ at_least_ulp acc →
  let acc' := if F64.is_nan x then acc else F64.add acc x in
  (acc' = F64.zero ∨ at_least_ulp acc') ∧
  (at_least_ulp acc ∨ x = F64.one → at_least_ulp acc').
Proof.
  intros Hx Hacc acc'. subst acc'.
  destruct (decision_cell_cases x Hx) as [-> | [Hz | ->]].
  - cbn [F64.is_nan F64.nan]. split; [exact Hacc |].
    intros [H | H]; [exact H | discriminate].
  - destruct x as [s | | |]; try discriminate. cbn [F64.is_nan].
    assert (Hsame : at_least_ulp acc → F64.add acc (S754_zero s) = acc).
    { intros [-> | (m & e & -> & _)]; reflexivity. }
    split.
    + destruct Hacc as [-> | H]; [left; destruct s; reflexivity |].
      right. rewrite Hsame; assumption.
    + intros [H | H]; [| discriminate]. rewrite Hsame; assumption.
  - change (F64.is_nan F64.one) with false. cbn match.
    assert (H : at_least_ulp (F64.add acc F64.one)).
    { destruct Hacc as [-> | H].
      - right. exists 4503599627370496%positive, (-52)%Z. split; [reflexivity | lia].
      - apply add_one_at_least_ulp, H. }
    split; [right; exact H | intros _; exact H].
Qed.

Lemma ser_sum_from (l : list f64) (acc : f64) :
  forallb decision_cell l = true →
  acc = F64.zero ∨ at_least_ulp acc →
  let total := foldl (λ a x, if F64.is_nan x then a else F64.add a x) acc l in
  (total = F64.zero ∨ at_least_ulp total) ∧
  (at_least_ulp acc ∨ F64.one ∈ l → at_least_ulp total).
Proof.
  revert acc. induction l as [| x l IH]; intros acc Hl Hacc; cbn [foldl].
  - split; [exact Hacc |]. intros [H | H]; [exact H | inversion H].
  - cbn [forallb] in Hl. apply andb_prop in Hl as [Hx Hl].
    destruct (ser_sum_step acc x Hx Hacc) as [Hstep Hone].
    destruct (IH _ Hl Hstep) as [Htotal Hmarked].
    split; [exact Htotal |].
    intros [H | H]; apply Hmarked.
    + left. apply Hone. left. exact H.
    + apply elem_of_cons in H as [<- | H]; [| right; exact H].
      left. apply Hone. right. reflexivity.
Qed.

(** The guard [column.sum() > 0] of the Hybrid filter passes on a decision
    column exactly when one of its rows is set. *)
(** The left-to-right sum of a decision column without a set row is 0. *)
Lemma ser_sum_unmarked (l : list f64) :
  forallb decision_cell l = true → F64.one ∉ l → ser_sum l = F64.zero.
Proof.
  intros Hl Hno. unfold ser_sum.
  assert (Hzero : ∀ acc, acc = F64.zero →
            foldl (λ a x, if F64.is_nan x then a else F64.add a x) acc l = F64.zero);
    [| apply Hzero; reflexivity].
  induction l as [| x l IH]; intros acc ->; [reflexivity |].
  cbn [forallb] in Hl. apply andb_prop in Hl as [Hx Hl]. cbn [foldl].
  apply IH; [exact Hl | intros H; apply Hno; right; exact H |].
  destruct (decision_cell_cases x Hx) as [-> | [Hz | ->]].
  - reflexivity.
  - destruct x as [[] | | |]; try discriminate; reflexivity.
  - exfalso. apply Hno. left.
Qed.

(** The left-to-right sum of a decision column is positive exactly when one
    of its rows is set. *)
Lemma ser_sum_marked (l : list f64) :
  forallb decision_cell l = true →
  F64.gt (ser_sum l) (F64.lit 0) = true ↔ F64.one ∈ l.
Proof.
  intros Hl. split.
  - intros Hsum. destruct (decide (F64.one ∈ l)) as [| Hno]; [assumption | exfalso].
    rewrite (ser_sum_unmarked l Hl Hno) in Hsum. discriminate.
  - intros Hin. apply at_least_ulp_positive.
    apply (ser_sum_from l F64.zero Hl (or_introl eq_refl)). right. exact Hin.
Qed.

(** The left-to-right sum counts the marks of a decision column. *)
Lemma ser_sum_counts_marks : counts_marks ser_sum.
Proof.
  intros column Hdec. destruct (decide (F64.one ∈ column)) as [Hin | Hno].
  - apply ser_sum_marked; assumption.
  - rewrite (ser_sum_unmarked column Hdec Hno). reflexivity.
Qed.

Lemma eq_zero_not_gt (x : f64) :
  F64.eq x (F64.lit 0) = true → F64.gt x (F64.lit 0) = false.
Proof. destruct x as [[] | [] | | [] m e]; cbn; intros H; try discriminate; reflexivity. Qed.

(** The guard [column.sum() > 0] of the Hybrid filter passes on a decision
    column exactly when one of its rows is set. *)
Lemma sum_marked (series_sum : list f64 → f64) (l : list f64) :
  counts_marks series_sum →
  forallb decision_cell l = true →
  F64.gt (series_sum l) (F64.lit 0) = true ↔ F64.one ∈ l.
Proof.
  intros Hsum Hl. specialize (Hsum l Hl).
  destruct (decide (F64.one ∈ l)) as [Hin | Hno].
  - split; auto.
  - apply eq_zero_not_gt in Hsum. split; [congruence | contradiction].
Qed.

(** ** The entry filter of the Hybrid strategy *)

Lemma num_col_set_num_col_ne (df : DataFrame) (name other : string) (l : list f64) :
  name ≠ other → num_col (set_num_col name l df) other = num_col df other.
Proof. apply num_col_set_col_ne. Qed.

Lemma has_col_set_num_col_ne (df : DataFrame) (name other : string) (l : list f64) :
  name ≠ other → has_col (set_num_col name l df) other = has_col df other.
Proof. apply has_col_set_col_ne. Qed.

Lemma cell_set_num_col_ne (df : DataFrame) (name other : string) (l : list f64) (i : nat) :
  name ≠ other → cell (set_num_col name l df) other i = cell df other i.
Proof. apply cell_set_col_ne. Qed.

Lemma cols_set_num_col_ne (df : DataFrame) (name other : string) (l : list f64) :
  name ≠ other → cols (set_num_col name l df) !! other = cols df !! other.
Proof. apply cols_set_col_ne. Qed.

(** Reads of a frame after writes to columns of other names. *)
Ltac frame_reads :=
  repeat first
    [ rewrite num_col_set_num_col_eq
    | rewrite num_col_loc_set_ne by discriminate
    | rewrite num_col_set_num_col_ne by discriminate
    | rewrite has_col_loc_set_ne by discriminate
    | rewrite has_col_set_num_col_ne by discriminate
    | rewrite cell_loc_set_ne by discriminate
    | rewrite cell_set_num_col_ne by discriminate
    | rewrite cols_loc_set_ne by discriminate
    | rewrite cols_set_num_col_ne by discriminate ].

Lemma is_set_decision (x : f64) :
  decision_cell x = true → is_set (VNum x) = true ↔ x = F64.one.
Proof.
  intros Hx. split; [| intros ->; reflexivity].
  destruct (decision_cell_cases x Hx) as [-> | [Hz | ->]];
    [discriminate | | reflexivity].
  destruct x; discriminate.
Qed.

Lemma count_set_filtered (column : list f64) (keep : list bool) :
  count_set (zip_with (λ (b : bool) o, if b then F64.lit 0 else o) (ser_not keep) column)
  = count_kept column keep.
Proof.
  unfold count_set, count_kept, ser_not.
  revert column. induction keep as [| k keep IH]; intros [| x column]; try reflexivity.
  rewrite fmap_cons. cbn [zip_with]. rewrite !filter_cons. cbn [fst snd].
  specialize (IH column).
  destruct k; cbn [negb].
  - rewrite andb_true_r.
    destruct (decide (is_set (VNum x) = true)); cbn [length]; rewrite IH; reflexivity.
  - rewrite andb_false_r.
    destruct (decide (is_set (VNum (F64.lit 0)) = true)) as [H |]; [discriminate H |].
    destruct (decide (false = true)) as [H |]; [discriminate H | exact IH].
Qed.

Section Filtered.
Variable series_sum : list f64 → f64.
Hypothesis Hsum : counts_marks series_sum.

(** What the filter [dataframe.loc[~keep, name] = 0], run under the guard
    [column.sum() > 0], leaves in a row of a decision column: a row stays
    set exactly when it was set and is kept, and a row at 0 stays at 0. *)
Lemma filtered_row (column : list f64) (keep : list bool) (i : nat) (x : f64) (k : bool) :
  forallb decision_cell column = true →
  column !! i = Some x → keep !! i = Some k →
  let column' :=
    if F64.gt (series_sum column) (F64.lit 0)
    then zip_with (λ (b : bool) o, if b then F64.lit 0 else o) (ser_not keep) column
    else column in
  ∃ x', column' !! i = Some x' ∧
        is_set (VNum x') = is_set (VNum x) && k ∧
        (F64.is_zero x = true → F64.is_zero x' = true) ∧
        (k = true → x' = x).
Proof using Hsum.
  intros Hdec Hx Hk column'. subst column'.
  assert (Hxd : decision_cell x = true).
  { rewrite forallb_forall in Hdec. apply Hdec.
    apply list_elem_of_In, list_elem_of_lookup. eauto. }
  destruct (F64.gt (series_sum column) (F64.lit 0)) eqn:Hguard.
  - rewrite lookup_zip_with, (lookup_ser_not _ _ _ Hk), Hx. cbn [mbind option_bind].
    eexists. split; [reflexivity |].
    destruct k; cbn [negb]; [rewrite andb_true_r | rewrite andb_false_r]; auto.
    repeat split; auto. discriminate.
  - exists x. split; [exact Hx |].
    assert (Hnot : is_set (VNum x) = false).
    { destruct (is_set (VNum x)) eqn:Hset; [| reflexivity].
      apply is_set_decision in Hset; [| exact Hxd]. subst x.
      assert (F64.gt (series_sum column) (F64.lit 0) = true); [| congruence].
      apply (sum_marked series_sum _ Hsum Hdec). apply list_elem_of_lookup. eauto. }
    rewrite Hnot. auto.
Qed.

Lemma count_set_guarded (column : list f64) (keep : list bool) :
  forallb decision_cell column = true →
  count_set (if F64.gt (series_sum column) (F64.lit 0)
             then zip_with (λ (b : bool) o, if b then F64.lit 0 else o)
                    (ser_not keep) column
             else column)
  = count_kept column keep.
Proof using Hsum.
  intros Hdec. destruct (F64.gt (series_sum column) (F64.lit 0)) eqn:Hguard.
  - apply count_set_filtered.
  - assert (Hnone : F64.one ∉ column).
    { intros Hin. apply (sum_marked series_sum _ Hsum Hdec) in Hin. congruence. }
    unfold count_set, count_kept. clear Hguard. revert keep.
    induction column as [| x column IH]; intros keep; [reflexivity |].
    cbn [forallb] in Hdec. apply andb_prop in Hdec as [Hx Hdec].
    assert (Hx' : is_set (VNum x) = false).
    { destruct (is_set (VNum x)) eqn:Hset; [| reflexivity].
      apply is_set_decision in Hset; [| exact Hx]. subst x.
      exfalso. apply Hnone. left. }
    assert (Hnone' : F64.one ∉ column) by (intros H; apply Hnone; right; exact H).
    rewrite filter_cons, Hx'.
    destruct (decide (false = true)) as [H |]; [discriminate H |].
    destruct keep as [| k keep]; cbn [zip zip_with].
    + rewrite (IH Hdec Hnone' []). destruct column; reflexivity.
    + rewrite filter_cons. cbn [fst snd]. rewrite Hx'. cbn [andb].
      destruct (decide (false = true)) as [H |]; [discriminate H |]. apply IH; assumption.
Qed.
End Filtered.

Section HybridEntry.
Variables (self : Hybrid.Parameters) (series_sum : list f64 → f64).
Variable x7 : Strategy.IStrategy.
Variables (dataframe wrapped : DataFrame) (metadata : Metadata).
Variables s_close close do_predict enter_long enter_short : list f64.
Hypothesis Hwrapped :
  @Strategy.populate_entry_trend x7 dataframe metadata = Some wrapped.
Hypothesis Hs_close : num_col wrapped "&-s_close" = Some s_close.
Hypothesis Hclose : num_col wrapped "close" = Some close.
Hypothesis Hdo_predict : num_col wrapped "do_predict" = Some do_predict.
Hypothesis Henter_long : num_col wrapped "enter_long" = Some enter_long.
Hypothesis Henter_short : num_col wrapped "enter_short" = Some enter_short.

(** The pass on a frame that holds the prediction columns and both entry
    columns: [ml_upside] is written, then each entry column is filtered
    when its sum is positive; the log line that follows the long filter
    reads the pair of the metadata when the sum has gone down. *)
Lemma hybrid_entry_steps :
  let ml_upside := ser_div (ser_sub s_close close) close in
  let keep_long :=
    ser_and (ser_eq_c do_predict (F64.lit 1))
      (ser_gt_c ml_upside (F64.div (Hybrid.ml_confidence_long self) (F64.lit 100))) in
  let keep_short :=
    ser_and (ser_eq_c do_predict (F64.lit 1))
      (ser_lt_c ml_upside
         (F64.div (F64.opp (Hybrid.ml_confidence_short self)) (F64.lit 100))) in
  let enter_long' :=
    if F64.gt (series_sum enter_long) (F64.lit 0)
    then zip_with (λ (b : bool) o, if b then F64.lit 0 else o)
           (ser_not keep_long) enter_long
    else enter_long in
  let enter_short' :=
    if F64.gt (series_sum enter_short) (F64.lit 0)
    then zip_with (λ (b : bool) o, if b then F64.lit 0 else o)
           (ser_not keep_short) enter_short
    else enter_short in
  let logged :=
    F64.gt (series_sum enter_long) (F64.lit 0)
    && F64.gt (series_sum enter_long) (series_sum enter_long') in
  ∃ df',
    Hybrid.populate_entry_trend self series_sum x7 dataframe metadata
    = (if logged then pair ← metadata !! "pair"; Some df' else Some df') ∧
    num_col df' "ml_upside" = Some ml_upside ∧
    num_col df' "enter_long" = Some enter_long' ∧
    num_col df' "enter_short" = Some enter_short'.
Proof using Hwrapped Hs_close Hclose Hdo_predict Henter_long Henter_short.
  intros ml_upside keep_long keep_short enter_long' enter_short' logged.
  subst logged enter_long' enter_short'.
  unfold Hybrid.populate_entry_trend. rewrite Hwrapped. cbn [mbind option_bind].
  rewrite (num_col_has_col _ _ _ Hs_close), (num_col_has_col _ _ _ Hdo_predict).
  cbn [andb]. rewrite Hs_close, Hclose. cbn [mbind option_bind].
  fold ml_upside. frame_reads. rewrite Hdo_predict. cbn [mbind option_bind].
  fold keep_long. rewrite (num_col_has_col _ _ _ Henter_long), Henter_long.
  cbn [mbind option_bind].
  set (df1 := set_num_col "ml_upside" ml_upside wrapped).
  assert (Hl1 : num_col df1 "enter_long" = Some enter_long)
    by (subst df1; frame_reads; exact Henter_long).
  assert (Hs1 : num_col df1 "enter_short" = Some enter_short)
    by (subst df1; frame_reads; exact Henter_short).
  assert (Hd1 : num_col df1 "do_predict" = Some do_predict)
    by (subst df1; frame_reads; exact Hdo_predict).
  assert (Hu1 : num_col df1 "ml_upside" = Some ml_upside)
    by (subst df1; frame_reads; reflexivity).
  assert (Hshort : ∀ df2,
    num_col df2 "enter_short" = Some enter_short →
    num_col df2 "do_predict" = Some do_predict →
    num_col df2 "ml_upside" = Some ml_upside →
    ∃ df',
      (if Hybrid.can_short && has_col df2 "enter_short"
       then do_predict ← num_col df2 "do_predict";
            ml_upside ← num_col df2 "ml_upside";
            enter_short ← num_col df2 "enter_short";
            if F64.gt (series_sum enter_short) (F64.lit 0)
            then loc_set_scalar
                   (ser_not
                      (ser_and (ser_eq_c do_predict (F64.lit 1))
                         (ser_lt_c ml_upside
                            (F64.div (F64.opp (Hybrid.ml_confidence_short self))
                               (F64.lit 100)))))
                   "enter_short" (VNum (F64.lit 0)) df2
            else Some df2
       else Some df2) = Some df' ∧
      num_col df' "ml_upside" = Some ml_upside ∧
      num_col df' "enter_long" = num_col df2 "enter_long" ∧
      num_col df' "enter_short"
      = Some (if F64.gt (series_sum enter_short) (F64.lit 0)
              then zip_with (λ (b : bool) o, if b then F64.lit 0 else o)
                     (ser_not keep_short) enter_short
              else enter_short)).
  { intros df2 Hs2 Hd2 Hu2. change Hybrid.can_short with true. cbn [andb].
    rewrite (num_col_has_col _ _ _ Hs2), Hd2, Hu2, Hs2. cbn [mbind option_bind].
    fold keep_short.
    destruct (F64.gt (series_sum enter_short) (F64.lit 0)).
    - rewrite loc_set_scalar_Some by (right; exact (num_col_has_col _ _ _ Hs2)).
      eexists. split; [reflexivity |]. frame_reads.
      split; [exact Hu2 |]. split; [reflexivity |].
      apply num_col_loc_set_eq, Hs2.
    - exists df2. auto. }
  destruct (F64.gt (series_sum enter_long) (F64.lit 0)); cbn [andb].
  - rewrite loc_set_scalar_Some by (right; exact (num_col_has_col _ _ _ Hl1)).
    cbn [mbind option_bind].
    rewrite (num_col_loc_set_eq _ _ _ _ _ Hl1). cbn [mbind option_bind].
    edestruct (Hshort (loc_set (ser_not keep_long) "enter_long" (VNum (F64.lit 0)) df1))
      as (df' & Hrun & Hup & Hlong & Hsh); [frame_reads; assumption .. |].
    exists df'. rewrite (num_col_loc_set_eq _ _ _ _ _ Hl1) in Hlong.
    split; [| auto].
    destruct (F64.gt (series_sum enter_long) _); cbn [mbind option_bind].
    + destruct (metadata !! "pair"); cbn [mbind option_bind]; [exact Hrun | reflexivity].
    + exact Hrun.
  - cbn [mbind option_bind].
    destruct (Hshort df1 Hs1 Hd1 Hu1) as (df' & Hrun & Hup & Hlong & Hsh).
    exists df'. rewrite Hl1 in Hlong. auto.
Qed.

(** With a pair in the metadata the pass returns. *)
Lemma hybrid_entry_run :
  is_Some (metadata !! "pair") →
  let ml_upside := ser_div (ser_sub s_close close) close in
  let keep_long :=
    ser_and (ser_eq_c do_predict (F64.lit 1))
      (ser_gt_c ml_upside (F64.div (Hybrid.ml_confidence_long self) (F64.lit 100))) in
  let keep_short :=
    ser_and (ser_eq_c do_predict (F64.lit 1))
      (ser_lt_c ml_upside
         (F64.div (F64.opp (Hybrid.ml_confidence_short self)) (F64.lit 100))) in
  ∃ df',
    Hybrid.populate_entry_trend self series_sum x7 dataframe metadata = Some df' ∧
    num_col df' "ml_upside" = Some ml_upside ∧
    num_col df' "enter_long"
    = Some (if F64.gt (series_sum enter_long) (F64.lit 0)
            then zip_with (λ (b : bool) o, if b then F64.lit 0 else o)
                   (ser_not keep_long) enter_long
            else enter_long) ∧
    num_col df' "enter_short"
    = Some (if F64.gt (series_sum enter_short) (F64.lit 0)
            then zip_with (λ (b : bool) o, if b then F64.lit 0 else o)
                   (ser_not keep_short) enter_short
            else enter_short).
Proof using Hwrapped Hs_close Hclose Hdo_predict Henter_long Henter_short.
  intros [pair Hpair] ml_upside keep_long keep_short.
  destruct hybrid_entry_steps as (df' & Hrun & Hrest).
  exists df'. split; [| exact Hrest].
  rewrite Hrun, Hpair. cbn [mbind option_bind]. destruct (_ && _); reflexivity.
Qed.

(** Whenever the pass returns, it returns that frame; and it returns when
    the metadata names the pair. *)
Lemma hybrid_entry_result :
  let ml_upside := ser_div (ser_sub s_close close) close in
  let keep_long :=
    ser_and (ser_eq_c do_predict (F64.lit 1))
      (ser_gt_c ml_upside (F64.div (Hybrid.ml_confidence_long self) (F64.lit 100))) in
  let keep_short :=
    ser_and (ser_eq_c do_predict (F64.lit 1))
      (ser_lt_c ml_upside
         (F64.div (F64.opp (Hybrid.ml_confidence_short self)) (F64.lit 100))) in
  ∃ df',
    (is_Some (metadata !! "pair") →
       Hybrid.populate_entry_trend self series_sum x7 dataframe metadata = Some df') ∧
    (∀ returned,
       Hybrid.populate_entry_trend self series_sum x7 dataframe metadata
       = Some returned → returned = df') ∧
    num_col df' "ml_upside" = Some ml_upside ∧
    num_col df' "enter_long"
    = Some (if F64.gt (series_sum enter_long) (F64.lit 0)
            then zip_with (λ (b : bool) o, if b then F64.lit 0 else o)
                   (ser_not keep_long) enter_long
            else enter_long) ∧
    num_col df' "enter_short"
    = Some (if F64.gt (series_sum enter_short) (F64.lit 0)
            then zip_with (λ (b : bool) o, if b then F64.lit 0 else o)
                   (ser_not keep_short) enter_short
            else enter_short).
Proof using Hwrapped Hs_close Hclose Hdo_predict Henter_long Henter_short.
  intros ml_upside keep_long keep_short.
  destruct hybrid_entry_steps as (df' & Hrun & Hrest).
  exists df'. split; [| split; [| exact Hrest]].
  - intros [pair Hpair]. rewrite Hrun, Hpair. cbn [mbind option_bind].
    destruct (_ && _); reflexivity.
  - intros returned. rewrite Hrun.
    destruct (_ && _); [destruct (metadata !! "pair") |];
      cbn [mbind option_bind]; congruence.
Qed.
End HybridEntry.




(** ** The exit forcing of the Hybrid strategy *)

Lemma has_col_cols (df : DataFrame) (name : string) (s : Series) :
  cols df !! name = Some s → has_col df name = true.
Proof.
  intros Hs. unfold has_col. apply bool_decide_eq_true. rewrite Hs. eexists. reflexivity.
Qed.

Lemma cell_cols (df : DataFrame) (name : string) (s : Series) (i : nat) :
  cols df !! name = Some s → cell df name i = s !! i.
Proof. intros Hs. unfold cell. rewrite Hs. reflexivity. Qed.

Lemma nrows_set_num_col (df : DataFrame) (name : string) (l : list f64) :
  nrows (set_num_col name l df) = nrows df.
Proof. reflexivity. Qed.

(** One side of the forcing: under the guard that the exit column exists,
    the column and then the tag are written under the same mask. *)
Lemma exit_side_forced (df : DataFrame) (mask : list bool) (name tag : string) :
  nrows df ≠ 0 ∨ has_col df "exit_tag" = true →
  (if has_col df name
   then dataframe ← loc_set_scalar mask name (VNum (F64.lit 1)) df;
        loc_set_scalar mask "exit_tag" (VStr tag) dataframe
   else Some df)
  = Some (if has_col df name
          then loc_set mask "exit_tag" (VStr tag)
                 (loc_set mask name (VNum (F64.lit 1)) df)
          else df).
Proof.
  intros Htag. destruct (has_col df name) eqn:Hname; [| reflexivity].
  rewrite loc_set_scalar_Some by (right; exact Hname). cbn [mbind option_bind].
  apply loc_set_scalar_Some. rewrite nrows_loc_set.
  destruct Htag as [Hn | Ht]; [left; exact Hn |].
  destruct (decide (name = "exit_tag")) as [-> | Hne].
  - right. apply has_col_loc_set_eq.
  - right. rewrite has_col_loc_set_ne by exact Hne. exact Ht.
Qed.

Section HybridExit.
Variables (self : Hybrid.Parameters) (x7 : Strategy.IStrategy).
Variables (dataframe wrapped : DataFrame) (metadata : Metadata).
Variables s_close do_predict ml_upside : list f64.
Hypothesis Hwrapped :
  @Strategy.populate_exit_trend x7 dataframe metadata = Some wrapped.
Hypothesis Hs_close : num_col wrapped "&-s_close" = Some s_close.
Hypothesis Hdo_predict : num_col wrapped "do_predict" = Some do_predict.
(** [ml_upside] is the column of that name when the frame has one, and is
    computed from the prediction and the close otherwise. *)
Hypothesis Hml_upside :
  if has_col wrapped "ml_upside"
  then num_col wrapped "ml_upside" = Some ml_upside
  else ∃ close, num_col wrapped "close" = Some close ∧
                ml_upside = ser_div (ser_sub s_close close) close.
(** The tag can be written: the frame has rows, or holds the column. *)
Hypothesis Htag : nrows wrapped ≠ 0 ∨ has_col wrapped "exit_tag" = true.

(** The pass on a frame that holds the prediction columns: each side is
    forced under the guard that its exit column exists. *)
Lemma hybrid_exit_rows :
  let threshold := Hybrid.ml_exit_confidence_threshold self in
  ∃ df',
    Hybrid.populate_exit_trend self x7 dataframe metadata = Some df' ∧
    has_col df' "exit_long" = has_col wrapped "exit_long" ∧
    has_col df' "exit_short" = has_col wrapped "exit_short" ∧
    ∀ i d u xl xs t,
      do_predict !! i = Some d → ml_upside !! i = Some u →
      cell wrapped "exit_long" i = Some xl → cell wrapped "exit_short" i = Some xs →
      cell wrapped "exit_tag" i = Some t →
      let force_long :=
        has_col wrapped "exit_long"
        && (F64.eq d (F64.lit 1) && F64.lt u (F64.div threshold (F64.lit 100))) in
      let force_short :=
        has_col wrapped "exit_short"
        && (F64.eq d (F64.lit 1)
            && F64.gt u (F64.div (F64.opp threshold) (F64.lit 100))) in
      cell df' "exit_long" i = Some (if force_long then VNum (F64.lit 1) else xl) ∧
      cell df' "exit_short" i = Some (if force_short then VNum (F64.lit 1) else xs) ∧
      cell df' "exit_tag" i
      = Some (if force_short then VStr "ml_confidence_lost_short"
              else if force_long then VStr "ml_confidence_lost" else t).
Proof using Hwrapped Hs_close Hdo_predict Hml_upside Htag.
  intros threshold.
  assert (Hstage : ∃ df1,
    (if negb (has_col wrapped "ml_upside")
     then s_close ← num_col wrapped "&-s_close";
          close ← num_col wrapped "close";
          Some (set_num_col "ml_upside" (ser_div (ser_sub s_close close) close) wrapped)
     else Some wrapped) = Some df1 ∧
    num_col df1 "do_predict" = Some do_predict ∧
    num_col df1 "ml_upside" = Some ml_upside ∧
    nrows df1 = nrows wrapped ∧
    (∀ name, name ≠ "ml_upside" → has_col df1 name = has_col wrapped name) ∧
    ∀ name i, name ≠ "ml_upside" → cell df1 name i = cell wrapped name i).
  { destruct (has_col wrapped "ml_upside"); cbn [negb].
    - exists wrapped. auto 10.
    - destruct Hml_upside as (close & Hclose & ->).
      rewrite Hs_close, Hclose. cbn [mbind option_bind].
      eexists. split; [reflexivity |]. frame_reads.
      split; [assumption |]. split; [reflexivity |]. split; [reflexivity |].
      split; intros; [apply has_col_set_num_col_ne | apply cell_set_num_col_ne];
        congruence. }
  destruct Hstage as (df1 & Hrun1 & Hd1 & Hu1 & Hn1 & Hhas1 & Hcell1).
  unfold Hybrid.populate_exit_trend. rewrite Hwrapped. cbn [mbind option_bind].
  change Hybrid.ml_exit_on_confidence_loss with true.
  rewrite (num_col_has_col _ _ _ Hs_close). cbn [andb].
  rewrite Hrun1. cbn [mbind option_bind]. rewrite Hd1, Hu1. cbn [mbind option_bind].
  fold threshold.
  set (mask_long := ser_and (ser_eq_c do_predict (F64.lit 1))
                      (ser_lt_c ml_upside (F64.div threshold (F64.lit 100)))).
  set (mask_short := ser_and (ser_eq_c do_predict (F64.lit 1))
                       (ser_gt_c ml_upside (F64.div (F64.opp threshold) (F64.lit 100)))).
  assert (Htag1 : nrows df1 ≠ 0 ∨ has_col df1 "exit_tag" = true)
    by (rewrite Hn1, Hhas1 by discriminate; exact Htag).
  rewrite (exit_side_forced df1 mask_long "exit_long" "ml_confidence_lost" Htag1).
  cbn [mbind option_bind].
  set (df2 := if has_col df1 "exit_long"
              then loc_set mask_long "exit_tag" (VStr "ml_confidence_lost")
                     (loc_set mask_long "exit_long" (VNum (F64.lit 1)) df1)
              else df1).
  assert (Hd2 : num_col df2 "do_predict" = Some do_predict)
    by (subst df2; destruct (has_col df1 "exit_long"); frame_reads; exact Hd1).
  assert (Hu2 : num_col df2 "ml_upside" = Some ml_upside)
    by (subst df2; destruct (has_col df1 "exit_long"); frame_reads; exact Hu1).
  assert (Hs2 : has_col df2 "exit_short" = has_col wrapped "exit_short").
  { subst df2. destruct (has_col df1 "exit_long"); frame_reads;
      apply Hhas1; discriminate. }
  assert (Htag2 : nrows df2 ≠ 0 ∨ has_col df2 "exit_tag" = true).
  { subst df2. destruct (has_col df1 "exit_long"); [| exact Htag1].
    destruct Htag1 as [Hn | Ht]; [left; exact Hn | right].
    apply has_col_loc_set_eq. }
  change Hybrid.can_short with true. cbn [andb].
  assert (Hshort :
    (if has_col df2 "exit_short"
     then do_predict ← num_col df2 "do_predict";
          ml_upside ← num_col df2 "ml_upside";
          dataframe ←
            loc_set_scalar
              (ser_and (ser_eq_c do_predict (F64.lit 1))
                 (ser_gt_c ml_upside (F64.div (F64.opp threshold) (F64.lit 100))))
              "exit_short" (VNum (F64.lit 1)) df2;
          loc_set_scalar
            (ser_and (ser_eq_c do_predict (F64.lit 1))
               (ser_gt_c ml_upside (F64.div (F64.opp threshold) (F64.lit 100))))
            "exit_tag" (VStr "ml_confidence_lost_short") dataframe
     else Some df2)
    = Some (if has_col df2 "exit_short"
            then loc_set mask_short "exit_tag" (VStr "ml_confidence_lost_short")
                   (loc_set mask_short "exit_short" (VNum (F64.lit 1)) df2)
            else df2)).
  { rewrite <- (exit_side_forced df2 mask_short "exit_short"
                  "ml_confidence_lost_short" Htag2).
    destruct (has_col df2 "exit_short"); [| reflexivity].
    rewrite Hd2, Hu2. reflexivity. }
  rewrite Hshort. clear Hshort. eexists. split; [reflexivity |].
  rewrite Hs2. rewrite <- (Hhas1 "exit_long") by discriminate.
  rewrite <- (Hhas1 "exit_short") by discriminate.
  split; [| split].
  { subst df2.
    destruct (has_col df1 "exit_short"), (has_col df1 "exit_long") eqn:Hl;
      frame_reads; rewrite ?has_col_loc_set_eq; auto. }
  { subst df2.
    destruct (has_col df1 "exit_short") eqn:Hs, (has_col df1 "exit_long");
      frame_reads; rewrite ?has_col_loc_set_eq; auto. }
  intros i d u xl xs t Hd Hu Hxl Hxs Ht.
  rewrite <- Hcell1 in Hxl, Hxs, Ht by discriminate.
  set (rule_long := F64.eq d (F64.lit 1) && F64.lt u (F64.div threshold (F64.lit 100))).
  set (rule_short :=
         F64.eq d (F64.lit 1) && F64.gt u (F64.div (F64.opp threshold) (F64.lit 100))).
  assert (Hml : mask_long !! i = Some rule_long)
    by (subst mask_long rule_long; auto with rows).
  assert (Hms : mask_short !! i = Some rule_short)
    by (subst mask_short rule_short; auto with rows).
  subst df2.
  destruct (has_col df1 "exit_short"), (has_col df1 "exit_long"); cbn [andb].
  - split; [| split].
    + frame_reads. apply cell_loc_set_eq; assumption.
    + frame_reads. apply cell_loc_set_eq; [exact Hms |]. frame_reads. exact Hxs.
    + apply cell_loc_set_eq; [exact Hms |]. frame_reads.
      apply cell_loc_set_eq; [exact Hml |]. frame_reads. exact Ht.
  - split; [| split].
    + frame_reads. exact Hxl.
    + frame_reads. apply cell_loc_set_eq; assumption.
    + apply cell_loc_set_eq; [exact Hms |]. frame_reads. exact Ht.
  - split; [| split].
    + frame_reads. apply cell_loc_set_eq; assumption.
    + frame_reads. exact Hxs.
    + apply cell_loc_set_eq; [exact Hml |]. frame_reads. exact Ht.
  - auto.
Qed.
End HybridExit.

(** C8 as stated fails.  On a row with [do_predict = 1] and [ml_upside = 0],
    below the exit threshold, [exit_long] is forced but the tag left is
    ['ml_confidence_lost_short'], written by the short rule that fires on
    the same row; and on a frame without an [exit_long] column nothing is
    forced. *)
Lemma hybrid_exit_tag_overwritten :
  F64.lt (F64.div (F64.sub (F64.lit 100) (F64.lit 100)) (F64.lit 100))
    (F64.div (Hybrid.ml_exit_confidence_threshold Hybrid.default_parameters)
       (F64.lit 100)) = true ∧
  (∃ df',
     Hybrid.populate_exit_trend Hybrid.default_parameters
       (Frames.returns Frames.flat_prediction Frames.flat_prediction)
       Frames.flat_prediction Frames.btc = Some df' ∧
     cell df' "exit_long" 0 = Some (VNum (F64.lit 1)) ∧
     cell df' "exit_tag" 0 = Some (VStr "ml_confidence_lost_short")) ∧
  (∃ df',
     Hybrid.populate_exit_trend Hybrid.default_parameters
       (Frames.returns Frames.no_exit_columns Frames.no_exit_columns)
       Frames.no_exit_columns Frames.btc = Some df' ∧
     has_col df' "exit_long" = false).
Proof.
  split; [by_eval |]. split; eexists; (split; [by_eval |]); split || idtac; by_eval.
Qed.

(** C8, amended: when the frame of the wrapped strategy holds the prediction
    columns, and has rows or an [exit_tag] column, the Hybrid exit pass
    clears no exit (a row set in [exit_long] or [exit_short] stays set); on
    a frame with an [exit_long] column it sets [exit_long] to 1 on every
    row where [do_predict = 1] and [ml_upside] is below the exit threshold
    (the parameter over 100), and on a frame with an [exit_short] column it
    sets [exit_short] to 1, with tag ['ml_confidence_lost_short'], where
    [do_predict = 1] and [ml_upside] is above the negated threshold; the
    tag is ['ml_confidence_lost'] on the rows where the long rule fires and
    the short rule does not; rows where a rule does not fire keep their
    cell; without an [exit_long] ([exit_short]) column nothing is forced on
    that side and the column is not created. *)
Theorem hybrid_exit_forcing
    (self : Hybrid.Parameters) (x7 : Strategy.IStrategy)
    (dataframe wrapped : DataFrame) (metadata : Metadata)
    (s_close do_predict ml_upside : list f64) :
  @Strategy.populate_exit_trend x7 dataframe metadata = Some wrapped →
  num_col wrapped "&-s_close" = Some s_close →
  num_col wrapped "do_predict" = Some do_predict →
  (if has_col wrapped "ml_upside"
   then num_col wrapped "ml_upside" = Some ml_upside
   else ∃ close, num_col wrapped "close" = Some close ∧
                 ml_upside = ser_div (ser_sub s_close close) close) →
  nrows wrapped ≠ 0 ∨ has_col wrapped "exit_tag" = true →
  let threshold := Hybrid.ml_exit_confidence_threshold self in
  ∃ df',
    Hybrid.populate_exit_trend self x7 dataframe metadata = Some df' ∧
    has_col df' "exit_long" = has_col wrapped "exit_long" ∧
    has_col df' "exit_short" = has_col wrapped "exit_short" ∧
    ∀ i d u xl xs t,
      do_predict !! i = Some d → ml_upside !! i = Some u →
      cell wrapped "exit_long" i = Some xl → cell wrapped "exit_short" i = Some xs →
      cell wrapped "exit_tag" i = Some t →
      let force_long :=
        has_col wrapped "exit_long"
        && (F64.eq d (F64.lit 1) && F64.lt u (F64.div threshold (F64.lit 100))) in
      let force_short :=
        has_col wrapped "exit_short"
        && (F64.eq d (F64.lit 1)
            && F64.gt u (F64.div (F64.opp threshold) (F64.lit 100))) in
      (∃ vl vs,
         cell df' "exit_long" i = Some vl ∧ cell df' "exit_short" i = Some vs ∧
         (is_set xl = true → is_set vl = true) ∧
         (is_set xs = true → is_set vs = true)) ∧
      (force_long = true → cell df' "exit_long" i = Some (VNum (F64.lit 1))) ∧
      (force_short = true →
         cell df' "exit_short" i = Some (VNum (F64.lit 1)) ∧
         cell df' "exit_tag" i = Some (VStr "ml_confidence_lost_short")) ∧
      (force_long = true → force_short = false →
         cell df' "exit_tag" i = Some (VStr "ml_confidence_lost")) ∧
      (force_long = false → cell df' "exit_long" i = Some xl) ∧
      (force_short = false → cell df' "exit_short" i = Some xs) ∧
      (force_long = false → force_short = false → cell df' "exit_tag" i = Some t).
Proof.
  intros Hwrapped Hs Hd Hup Htag threshold.
  destruct (hybrid_exit_rows self x7 dataframe wrapped metadata _ _ _
              Hwrapped Hs Hd Hup Htag) as (df' & Hrun & Hhl & Hhs & Hrows).
  exists df'. split; [exact Hrun |]. split; [exact Hhl |]. split; [exact Hhs |].
  intros i d u xl xs t Hdi Hui Hxl Hxs Ht force_long force_short.
  destruct (Hrows i d u xl xs t Hdi Hui Hxl Hxs Ht) as (Hlong & Hshort & Htg).
  fold threshold in Hlong, Hshort, Htg. fold force_long in Hlong, Htg.
  fold force_short in Hshort, Htg.
  split.
  { eexists. eexists. split; [exact Hlong |]. split; [exact Hshort |].
    split; intros Hset.
    - destruct force_long; [reflexivity | exact Hset].
    - destruct force_short; [reflexivity | exact Hset]. }
  rewrite Hlong, Hshort, Htg.
  destruct force_long, force_short;
    repeat split; intros; try reflexivity; discriminate.
Qed.

Lemma hybrid_exit_forcing_witness :
  ∃ df',
    Hybrid.populate_exit_trend Hybrid.default_parameters
      (Frames.returns Frames.flat_prediction Frames.flat_prediction)
      Frames.flat_prediction Frames.btc = Some df' ∧
    cell df' "exit_long" 0 = Some (VNum (F64.lit 1)) ∧
    cell df' "exit_short" 0 = Some (VNum (F64.lit 1)).
Proof.
  edestruct (hybrid_exit_forcing Hybrid.default_parameters
               (Frames.returns Frames.flat_prediction Frames.flat_prediction)
               Frames.flat_prediction Frames.flat_prediction Frames.btc)
    as (df' & Hrun & _ & _ & Hrows).
  - by_eval.
  - by_eval.
  - by_eval.
  - cbn. exists (F64.lit <$> [100%float]). split; [by_eval | reflexivity].
  - left. vm_compute. lia.
  - exists df'. split; [exact Hrun |].
    edestruct (Hrows 0) as (_ & Hlong & Hshort & _); [by_eval .. |].
    split; [apply Hlong; by_eval | apply Hshort; by_eval].
Defined.

(** ** Entry columns exclude each other *)

Lemma binary_round_aux_sign (s : bool) (m e : Z) (l : location) :
  signed_or_nan s (binary_round_aux prec emax s m e l).
Proof.
  unfold binary_round_aux.
  destruct (shr_fexp prec emax m e l) as [mrs1 e1].
  destruct (shr_fexp prec emax _ e1 loc_Exact) as [mrs2 e2].
  destruct (shr_m mrs2); [reflexivity | | exact I].
  destruct (e2 <=? emax - prec)%Z; reflexivity.
Qed.

Lemma hundred_eq : F64.lit 100 = S754_finite false 7036874417766400 (-46).
Proof. reflexivity. Qed.

(** A parameter over 100 keeps the sign of the parameter. *)
Lemma div_hundred_sign (s : bool) (a : f64) :
  signed_or_nan s a → signed_or_nan s (F64.div a (F64.lit 100)).
Proof.
  rewrite hundred_eq. unfold F64.div, SFdiv.
  destruct a as [s' | s' | | s' m e]; cbn [signed_or_nan]; intros Hs; subst.
  - destruct s; reflexivity.
  - destruct s; reflexivity.
  - exact I.
  - destruct (SFdiv_core_binary prec emax (Z.pos m) e 7036874417766400 (-46))
      as [[mz ez] lz].
    rewrite xorb_false_r. apply binary_round_aux_sign.
Qed.

Lemma gt_zero_signed (a : f64) : F64.gt a (F64.lit 0) = true → signed_or_nan false a.
Proof. destruct a as [[] | [] | | [] m e]; cbn; intros H; (reflexivity || discriminate). Qed.

Lemma opp_signed (a : f64) : signed_or_nan false a → signed_or_nan true (F64.opp a).
Proof. destruct a as [s | s | | s m e]; cbn; intros H; subst; reflexivity || exact I. Qed.

Lemma gt_signed_above (t x : f64) :
  signed_or_nan false t → F64.gt x t = true → above_zero x = true.
Proof.
  unfold F64.gt, SFltb.
  destruct t as [s | s | | s m e]; cbn [signed_or_nan]; intros Hs; subst;
    destruct x as [s' | [] | | [] m' e']; cbn [SFcompare above_zero];
    intros; (reflexivity || discriminate).
Qed.

Lemma lt_signed_below (t x : f64) :
  signed_or_nan true t → F64.lt x t = true → below_zero x = true.
Proof.
  unfold F64.lt, SFltb.
  destruct t as [s | s | | s m e]; cbn [signed_or_nan]; intros Hs; subst;
    destruct x as [s' | [] | | [] m' e']; cbn [SFcompare below_zero];
    intros; (reflexivity || discriminate).
Qed.

(** No float is above the long threshold and below the short one when the
    two parameters are positive. *)
Lemma thresholds_exclusive (a b x : f64) :
  F64.gt a (F64.lit 0) = true → F64.gt b (F64.lit 0) = true →
  F64.gt x (F64.div a (F64.lit 100))
  && F64.lt x (F64.div (F64.opp b) (F64.lit 100)) = false.
Proof.
  intros Ha Hb.
  destruct (F64.gt x (F64.div a (F64.lit 100))) eqn:Hgt; [| reflexivity].
  destruct (F64.lt x (F64.div (F64.opp b) (F64.lit 100))) eqn:Hlt; [| reflexivity].
  apply gt_signed_above in Hgt; [| apply div_hundred_sign, gt_zero_signed, Ha].
  apply lt_signed_below in Hlt;
    [| apply div_hundred_sign, opp_signed, gt_zero_signed, Hb].
  destruct x as [| [] | | [] m e]; discriminate.
Qed.

Lemma primary_entry_leaves_short (df df' : DataFrame) (metadata : Metadata) (i : nat) :
  FreqAI.populate_entry_trend df metadata = Some df' →
  cell df' "enter_short" i = cell df "enter_short" i.
Proof.
  unfold FreqAI.populate_entry_trend.
  destruct (num_col df "do_predict"); [| discriminate].
  destruct (num_col df "&-s_close"); [| discriminate].
  destruct (num_col df "EMA_12"); [| discriminate].
  destruct (num_col df "EMA_26"); [| discriminate].
  destruct (num_col df "RSI_14"); [| discriminate].
  destruct (num_col df "bb_width"); [| discriminate].
  destruct (num_col df "volume"); [| discriminate].
  cbn [mbind option_bind reduce]. intros [= <-]. frame_reads. reflexivity.
Qed.

(** C10 as stated fails.  The primary pass enters the second candle of a
    frame on which a short entry is already set there, and leaves the row
    with both entries; and the Hybrid pass, on a frame without prediction
    columns, hands on the two entries the wrapped strategy has set on a
    row. *)
Lemma entry_columns_both_set :
  (∃ df',
     FreqAI.populate_entry_trend Frames.uptrend_shorted Frames.btc = Some df' ∧
     cell df' "enter_long" 1 = Some (VNum (F64.lit 1)) ∧
     cell df' "enter_short" 1 = Some (VNum (F64.lit 1))) ∧
  (∃ df',
     Hybrid.populate_entry_trend Hybrid.default_parameters ser_sum
       (Frames.returns Frames.both_marked_unpredicted Frames.both_marked_unpredicted)
       Frames.both_marked_unpredicted Frames.btc = Some df' ∧
     cell df' "enter_long" 0 = Some (VNum (F64.lit 1)) ∧
     cell df' "enter_short" 0 = Some (VNum (F64.lit 1))).
Proof. split; eexists; (split; [by_eval |]); split; by_eval. Qed.

(** C10, amended: the primary pass does not write [enter_short], so a row
    that was not short before is not short after, and no such row leaves
    the pass with both entries set.  In the Hybrid pass on a frame with the
    prediction columns and entry columns of cells 0, 1 and NaN, with
    positive confidence parameters, the two filter conditions cannot hold
    together, so of two entries set by the wrapped strategy on a row at
    most one is kept; the pass returns that frame when the metadata names
    the pair.  Without the prediction columns the Hybrid pass returns the
    frame of the wrapped strategy as it is. *)
Theorem entry_columns_exclusive :
  (∀ (df df' : DataFrame) (metadata : Metadata) (i : nat) (o x y : value),
     FreqAI.populate_entry_trend df metadata = Some df' →
     cell df "enter_short" i = Some o → is_set o = false →
     cell df' "enter_long" i = Some x → cell df' "enter_short" i = Some y →
     is_set x && is_set y = false) ∧
  (∀ (self : Hybrid.Parameters) (series_sum : list f64 → f64)
     (x7 : Strategy.IStrategy)
     (dataframe wrapped : DataFrame) (metadata : Metadata)
     (s_close close do_predict enter_long enter_short : list f64),
     counts_marks series_sum →
     @Strategy.populate_entry_trend x7 dataframe metadata = Some wrapped →
     num_col wrapped "&-s_close" = Some s_close →
     num_col wrapped "close" = Some close →
     num_col wrapped "do_predict" = Some do_predict →
     num_col wrapped "enter_long" = Some enter_long →
     num_col wrapped "enter_short" = Some enter_short →
     forallb decision_cell enter_long = true →
     forallb decision_cell enter_short = true →
     F64.gt (Hybrid.ml_confidence_long self) (F64.lit 0) = true →
     F64.gt (Hybrid.ml_confidence_short self) (F64.lit 0) = true →
     ∃ df' enter_long' enter_short',
       (is_Some (metadata !! "pair") →
          Hybrid.populate_entry_trend self series_sum x7 dataframe metadata
          = Some df') ∧
       (∀ returned,
          Hybrid.populate_entry_trend self series_sum x7 dataframe metadata
          = Some returned → returned = df') ∧
       num_col df' "enter_long" = Some enter_long' ∧
       num_col df' "enter_short" = Some enter_short' ∧
       ∀ i sc c d l s,
         s_close !! i = Some sc → close !! i = Some c → do_predict !! i = Some d →
         enter_long !! i = Some l → enter_short !! i = Some s →
         ∃ l' s', enter_long' !! i = Some l' ∧ enter_short' !! i = Some s' ∧
                  is_set (VNum l') && is_set (VNum s') = false) ∧
  (∀ (self : Hybrid.Parameters) (series_sum : list f64 → f64)
     (x7 : Strategy.IStrategy) (dataframe wrapped : DataFrame) (metadata : Metadata),
     @Strategy.populate_entry_trend x7 dataframe metadata = Some wrapped →
     has_col wrapped "&-s_close" && has_col wrapped "do_predict" = false →
     Hybrid.populate_entry_trend self series_sum x7 dataframe metadata
     = Some wrapped).
Proof.
  split; [| split].
  - intros df df' metadata i o x y Hrun Ho Hnot Hx Hy.
    rewrite (primary_entry_leaves_short _ _ _ _ Hrun), Ho in Hy.
    injection Hy as <-. rewrite Hnot. apply andb_false_r.
  - intros self series_sum x7 dataframe wrapped metadata s_close close do_predict
      enter_long enter_short Hsum Hwrapped Hs Hc Hd Hel Hes Hdl Hds Hpl Hps.
    destruct (hybrid_entry_result self series_sum x7 dataframe wrapped metadata
                _ _ _ _ _ Hwrapped Hs Hc Hd Hel Hes)
      as (df' & Hrun & Honly & _ & Hlong & Hshort).
    exists df'. eexists. eexists.
    split; [exact Hrun |]. split; [exact Honly |].
    split; [exact Hlong |]. split; [exact Hshort |].
    intros i sc c d l s Hsc Hcc Hdd Hl Hsh.
    set (upside := F64.div (F64.sub sc c) c).
    destruct (filtered_row series_sum Hsum enter_long
                (ser_and (ser_eq_c do_predict (F64.lit 1))
                   (ser_gt_c (ser_div (ser_sub s_close close) close)
                      (F64.div (Hybrid.ml_confidence_long self) (F64.lit 100))))
                i l
                (F64.eq d (F64.lit 1)
                 && F64.gt upside (F64.div (Hybrid.ml_confidence_long self) (F64.lit 100)))
                Hdl Hl) as (l' & Hl' & Hsetl & _).
    { subst upside. auto 10 with rows. }
    destruct (filtered_row series_sum Hsum enter_short
                (ser_and (ser_eq_c do_predict (F64.lit 1))
                   (ser_lt_c (ser_div (ser_sub s_close close) close)
                      (F64.div (F64.opp (Hybrid.ml_confidence_short self)) (F64.lit 100))))
                i s
                (F64.eq d (F64.lit 1)
                 && F64.lt upside
                      (F64.div (F64.opp (Hybrid.ml_confidence_short self)) (F64.lit 100)))
                Hds Hsh) as (s' & Hs' & Hsets & _).
    { subst upside. auto 10 with rows. }
    exists l', s'. split; [exact Hl' |]. split; [exact Hs' |].
    rewrite Hsetl, Hsets.
    pose proof (thresholds_exclusive _ _ upside Hpl Hps) as Hex.
    destruct (is_set (VNum l)), (is_set (VNum s)), (F64.eq d (F64.lit 1));
      cbn [andb]; try reflexivity; rewrite ?andb_false_r; try reflexivity.
    exact Hex.
  - intros self series_sum x7 dataframe wrapped metadata Hwrapped Hno.
    unfold Hybrid.populate_entry_trend. rewrite Hwrapped. cbn [mbind option_bind].
    rewrite Hno. reflexivity.
Qed.

Lemma entry_columns_exclusive_witness :
  (∃ df',
     FreqAI.populate_entry_trend Frames.uptrend Frames.btc = Some df' ∧
     ∀ x y, cell df' "enter_long" 1 = Some x → cell df' "enter_short" 1 = Some y →
            is_set x && is_set y = false) ∧
  (∃ df' enter_long' enter_short',
     Hybrid.populate_entry_trend Hybrid.default_parameters ser_sum
       (Frames.returns Frames.both_marked Frames.both_marked) Frames.both_marked
       Frames.btc
     = Some df' ∧
     num_col df' "enter_long" = Some enter_long' ∧
     num_col df' "enter_short" = Some enter_short' ∧
     ∃ l' s', enter_long' !! 0 = Some l' ∧ enter_short' !! 0 = Some s' ∧
              is_set (VNum l') && is_set (VNum s') = false) ∧
  Hybrid.populate_entry_trend Hybrid.default_parameters ser_sum
    (Frames.returns Frames.both_marked_unpredicted Frames.both_marked_unpredicted)
    Frames.both_marked_unpredicted Frames.btc
  = Some Frames.both_marked_unpredicted.
Proof.
  split; [| split].
  - eexists. split; [by_eval |]. intros x y Hx Hy.
    eapply (proj1 entry_columns_exclusive Frames.uptrend _ Frames.btc 1 _ x y);
      [by_eval | by_eval | by_eval | exact Hx | exact Hy].
  - edestruct (proj1 (proj2 entry_columns_exclusive) Hybrid.default_parameters ser_sum
                 (Frames.returns Frames.both_marked Frames.both_marked)
                 Frames.both_marked Frames.both_marked Frames.btc)
      as (df' & enter_long' & enter_short' & Hrun & _ & Hlong & Hshort & Hrows);
      [exact ser_sum_counts_marks | by_eval .. |].
    exists df', enter_long', enter_short'.
    split; [apply Hrun; eexists; by_eval |].
    split; [exact Hlong |]. split; [exact Hshort |].
    eapply (Hrows 0); by_eval.
  - apply (proj2 (proj2 entry_columns_exclusive)); by_eval.
Defined.

(** ** Rows whose prediction is not trusted *)

(** C4: on a row where [do_predict] is not 1, whatever the other columns
    hold, the primary entry pass leaves [enter_long], [enter_tag] and
    [enter_short] as they were, and the primary exit pass, which returns
    on every frame that has rows, leaves [exit_long] and [exit_short] as
    they were; whenever the Hybrid entry pass returns, as it does when the
    metadata names the pair, neither [enter_long] nor [enter_short] is set
    on the row; and the Hybrid exit pass forces no exit there:
    [exit_long], [exit_short] and [exit_tag] are those of the wrapped
    strategy. *)
Theorem untrusted_rows_not_actionable :
  (∀ (df : DataFrame) (metadata : Metadata)
     (do_predict s_close EMA_12 EMA_26 RSI_14 bb_width volume : list f64),
     num_col df "do_predict" = Some do_predict →
     num_col df "&-s_close" = Some s_close →
     num_col df "EMA_12" = Some EMA_12 →
     num_col df "EMA_26" = Some EMA_26 →
     num_col df "RSI_14" = Some RSI_14 →
     num_col df "bb_width" = Some bb_width →
     num_col df "volume" = Some volume →
     ∃ entered exited,
       FreqAI.populate_entry_trend df metadata = Some entered ∧
       (nrows df ≠ 0 ∨ has_col df "exit_long" = true ∧ has_col df "exit_short" = true →
          FreqAI.populate_exit_trend df metadata = Some exited) ∧
       (∀ returned,
          FreqAI.populate_exit_trend df metadata = Some returned → returned = exited) ∧
       ∀ i d p e12 e26 r w v,
         do_predict !! i = Some d → s_close !! i = Some p →
         EMA_12 !! i = Some e12 → EMA_26 !! i = Some e26 → RSI_14 !! i = Some r →
         bb_width !! i = Some w → volume !! i = Some v →
         F64.eq d (F64.lit 1) = false →
         (∀ o, cell df "enter_long" i = Some o → cell entered "enter_long" i = Some o) ∧
         (∀ o, cell df "enter_tag" i = Some o → cell entered "enter_tag" i = Some o) ∧
         cell entered "enter_short" i = cell df "enter_short" i ∧
         (∀ o, cell df "exit_long" i = Some o → cell exited "exit_long" i = Some o) ∧
         (∀ o, cell df "exit_short" i = Some o → cell exited "exit_short" i = Some o)) ∧
  (∀ (self : Hybrid.Parameters) (series_sum : list f64 → f64)
     (x7 : Strategy.IStrategy)
     (dataframe wrapped : DataFrame) (metadata : Metadata)
     (s_close close do_predict enter_long enter_short : list f64),
     counts_marks series_sum →
     @Strategy.populate_entry_trend x7 dataframe metadata = Some wrapped →
     num_col wrapped "&-s_close" = Some s_close →
     num_col wrapped "close" = Some close →
     num_col wrapped "do_predict" = Some do_predict →
     num_col wrapped "enter_long" = Some enter_long →
     num_col wrapped "enter_short" = Some enter_short →
     forallb decision_cell enter_long = true →
     forallb decision_cell enter_short = true →
     ∃ df' enter_long' enter_short',
       (is_Some (metadata !! "pair") →
          Hybrid.populate_entry_trend self series_sum x7 dataframe metadata
          = Some df') ∧
       (∀ returned,
          Hybrid.populate_entry_trend self series_sum x7 dataframe metadata
          = Some returned → returned = df') ∧
       num_col df' "enter_long" = Some enter_long' ∧
       num_col df' "enter_short" = Some enter_short' ∧
       ∀ i sc c d l s,
         s_close !! i = Some sc → close !! i = Some c → do_predict !! i = Some d →
         enter_long !! i = Some l → enter_short !! i = Some s →
         F64.eq d (F64.lit 1) = false →
         ∃ l' s', enter_long' !! i = Some l' ∧ enter_short' !! i = Some s' ∧
                  is_set (VNum l') = false ∧ is_set (VNum s') = false) ∧
  (∀ (self : Hybrid.Parameters) (x7 : Strategy.IStrategy)
     (dataframe wrapped : DataFrame) (metadata : Metadata)
     (s_close do_predict ml_upside : list f64),
     @Strategy.populate_exit_trend x7 dataframe metadata = Some wrapped →
     num_col wrapped "&-s_close" = Some s_close →
     num_col wrapped "do_predict" = Some do_predict →
     (if has_col wrapped "ml_upside"
      then num_col wrapped "ml_upside" = Some ml_upside
      else ∃ close, num_col wrapped "close" = Some close ∧
                    ml_upside = ser_div (ser_sub s_close close) close) →
     nrows wrapped ≠ 0 ∨ has_col wrapped "exit_tag" = true →
     ∃ df',
       Hybrid.populate_exit_trend self x7 dataframe metadata = Some df' ∧
       ∀ i d u xl xs t,
         do_predict !! i = Some d → ml_upside !! i = Some u →
         cell wrapped "exit_long" i = Some xl →
         cell wrapped "exit_short" i = Some xs →
         cell wrapped "exit_tag" i = Some t →
         F64.eq d (F64.lit 1) = false →
         cell df' "exit_long" i = Some xl ∧
         cell df' "exit_short" i = Some xs ∧
         cell df' "exit_tag" i = Some t).
Proof.
  split; [| split].
  - intros df metadata do_predict s_close EMA_12 EMA_26 RSI_14 bb_width volume
      Hdp Hsc H12 H26 Hrsi Hbw Hvol.
    destruct (primary_entry_mask df metadata _ _ _ _ _ _ _ Hdp Hsc H12 H26 Hrsi Hbw Hvol)
      as (mask & Hentry & Hmask).
    destruct (primary_exit_run df metadata _ _ _ Hdp Hsc Hrsi)
      as (mask_long & mask_short & Hexit & Honly & Hmasks).
    eexists. eexists. split; [exact Hentry |].
    split; [exact Hexit |]. split; [exact Honly |].
    intros i d p e12 e26 r w v Hd Hp He12 He26 Hr Hw Hv Hno.
    specialize (Hmask i d p e12 e26 r w v Hd Hp He12 He26 Hr Hw Hv).
    destruct (Hmasks i d p r Hd Hp Hr) as [Hlong Hshort].
    rewrite Hno in Hmask, Hlong, Hshort. cbn [andb] in Hmask, Hlong, Hshort.
    split; [| split; [| split; [| split]]].
    + intros o Ho. frame_reads.
      apply (cell_loc_set_eq _ _ _ _ _ _ _ Hmask Ho).
    + intros o Ho. apply (cell_loc_set_eq _ _ _ _ o _ _ Hmask).
      frame_reads. exact Ho.
    + frame_reads. reflexivity.
    + intros o Ho. frame_reads.
      apply (cell_loc_set_eq _ _ _ _ _ _ _ Hlong Ho).
    + intros o Ho. apply (cell_loc_set_eq _ _ _ _ o _ _ Hshort).
      frame_reads. exact Ho.
  - intros self series_sum x7 dataframe wrapped metadata s_close close do_predict
      enter_long enter_short Hsum Hwrapped Hs Hc Hd Hel Hes Hdl Hds.
    destruct (hybrid_entry_result self series_sum x7 dataframe wrapped metadata
                _ _ _ _ _ Hwrapped Hs Hc Hd Hel Hes)
      as (df' & Hrun & Honly & _ & Hlong & Hshort).
    exists df'. eexists. eexists.
    split; [exact Hrun |]. split; [exact Honly |].
    split; [exact Hlong |]. split; [exact Hshort |].
    intros i sc c d l s Hsc Hcc Hdd Hl Hsh Hno.
    set (upside := F64.div (F64.sub sc c) c).
    destruct (filtered_row series_sum Hsum enter_long
                (ser_and (ser_eq_c do_predict (F64.lit 1))
                   (ser_gt_c (ser_div (ser_sub s_close close) close)
                      (F64.div (Hybrid.ml_confidence_long self) (F64.lit 100))))
                i l
                (F64.eq d (F64.lit 1)
                 && F64.gt upside (F64.div (Hybrid.ml_confidence_long self) (F64.lit 100)))
                Hdl Hl) as (l' & Hl' & Hsetl & _).
    { subst upside. auto 10 with rows. }
    destruct (filtered_row series_sum Hsum enter_short
                (ser_and (ser_eq_c do_predict (F64.lit 1))
                   (ser_lt_c (ser_div (ser_sub s_close close) close)
                      (F64.div (F64.opp (Hybrid.ml_confidence_short self)) (F64.lit 100))))
                i s
                (F64.eq d (F64.lit 1)
                 && F64.lt upside
                      (F64.div (F64.opp (Hybrid.ml_confidence_short self)) (F64.lit 100)))
                Hds Hsh) as (s' & Hs' & Hsets & _).
    { subst upside. auto 10 with rows. }
    exists l', s'. split; [exact Hl' |]. split; [exact Hs' |].
    rewrite Hsetl, Hsets, Hno. cbn [andb]. rewrite !andb_false_r. split; reflexivity.
  - intros self x7 dataframe wrapped metadata s_close do_predict ml_upside
      Hwrapped Hs Hd Hup Htag.
    destruct (hybrid_exit_rows self x7 dataframe wrapped metadata _ _ _
                Hwrapped Hs Hd Hup Htag) as (df' & Hrun & _ & _ & Hrows).
    exists df'. split; [exact Hrun |].
    intros i d u xl xs t Hdi Hui Hxl Hxs Ht Hno.
    destruct (Hrows i d u xl xs t Hdi Hui Hxl Hxs Ht) as (Hlong & Hshort & Htg).
    rewrite Hno in Hlong, Hshort, Htg.
    cbn [andb] in Hlong, Hshort, Htg. rewrite !andb_false_r in *.
    auto.
Qed.

Lemma untrusted_rows_not_actionable_witness :
  (∃ entered exited,
     FreqAI.populate_entry_trend Frames.untrusted_uptrend Frames.btc = Some entered ∧
     FreqAI.populate_exit_trend Frames.untrusted_uptrend Frames.btc = Some exited ∧
     cell entered "enter_long" 1 = Some (VNum F64.nan) ∧
     cell exited "exit_long" 1 = Some (VNum F64.nan)) ∧
  (∃ df' enter_long',
     Hybrid.populate_entry_trend Hybrid.default_parameters ser_sum
       (Frames.returns Frames.untrusted_marked Frames.untrusted_marked)
       Frames.untrusted_marked Frames.btc = Some df' ∧
     num_col df' "enter_long" = Some enter_long' ∧
     ∃ l', enter_long' !! 0 = Some l' ∧ is_set (VNum l') = false) ∧
  (∃ df',
     Hybrid.populate_exit_trend Hybrid.default_parameters
       (Frames.returns Frames.untrusted_flat Frames.untrusted_flat)
       Frames.untrusted_flat Frames.btc = Some df' ∧
     cell df' "exit_long" 0 = Some (VNum (F64.lit 0))).
Proof.
  destruct untrusted_rows_not_actionable as (Hprimary & Hentry & Hexit).
  split; [| split].
  - edestruct (Hprimary Frames.untrusted_uptrend Frames.btc)
      as (entered & exited & Hrun & Hrun' & _ & Hrows); [by_eval .. |].
    exists entered, exited. split; [exact Hrun |].
    split; [apply Hrun'; left; vm_compute; lia |].
    edestruct (Hrows 1) as (Hlong & _ & _ & Hexit_long & _); [by_eval .. |].
    split; [apply Hlong | apply Hexit_long]; by_eval.
  - edestruct (Hentry Hybrid.default_parameters ser_sum
                 (Frames.returns Frames.untrusted_marked Frames.untrusted_marked)
                 Frames.untrusted_marked Frames.untrusted_marked Frames.btc)
      as (df' & enter_long' & enter_short' & Hrun & _ & Hlong & _ & Hrows);
      [exact ser_sum_counts_marks | by_eval .. |].
    exists df', enter_long'. split; [apply Hrun; eexists; by_eval |].
    split; [exact Hlong |].
    edestruct (Hrows 0) as (l' & s' & Hl' & _ & Hnot & _); [by_eval .. |].
    exists l'. split; [exact Hl' | exact Hnot].
  - edestruct (Hexit Hybrid.default_parameters
                 (Frames.returns Frames.untrusted_flat Frames.untrusted_flat)
                 Frames.untrusted_flat Frames.untrusted_flat Frames.btc)
      as (df' & Hrun & Hrows).
    + by_eval.
    + by_eval.
    + by_eval.
    + cbn. exists (F64.lit <$> [100%float]). split; [by_eval | reflexivity].
    + left. vm_compute. lia.
    + exists df'. split; [exact Hrun |].
      edestruct (Hrows 0) as (Hlong & _); [by_eval .. |]. exact Hlong.
Defined.

(** ** Target labels *)

Lemma length_shift_back (k : nat) (s : list f64) :
  length (shift_back k s) = length s.
Proof.
  unfold shift_back. rewrite length_app, length_replicate, length_drop. lia.
Qed.

(** A row of [s.shift(-k)]. *)
Lemma lookup_shift_back (k i : nat) (s : list f64) :
  i < length s →
  shift_back k s !! i = if decide (i + k < length s) then s !! (k + i) else Some F64.nan.
Proof.
  intros Hi. unfold shift_back. destruct (decide (i + k < length s)) as [Hin | Hout].
  - rewrite lookup_app_l by (rewrite length_drop; lia). apply lookup_drop.
  - rewrite lookup_app_r by (rewrite length_drop; lia).
    apply lookup_replicate_2. rewrite length_drop. lia.
Qed.

Lemma forallb_lookup_false {A} (f : A → bool) (l : list A) (i : nat) (x : A) :
  l !! i = Some x → f x = false → forallb f l = false.
Proof.
  intros Hx Hf. destruct (forallb f l) eqn:Hall; [| reflexivity].
  rewrite forallb_forall in Hall. rewrite <- Hf. symmetry. apply Hall.
  apply list_elem_of_In, list_elem_of_lookup. eauto.
Qed.

(** The rolling mean that computes every window afresh leaves undefined
    the rows pandas leaves undefined. *)
Lemma windowed_min_periods (window_mean : list f64 → f64) :
  min_periods (windowed window_mean).
Proof.
  intros w s. unfold windowed. split; [apply length_imap |].
  intros i Hi Hw Hrow. rewrite list_lookup_imap.
  destruct (lookup_lt_is_Some_2 s i Hi) as [x ->].
  cbn [fmap option_fmap option_map]. f_equal.
  destruct (decide (1 ≤ w ≤ S i)) as [Hin | Hout]; [| reflexivity].
  destruct Hrow as [Hshort | ->]; [lia | reflexivity].
Qed.

Section RollingShift.
Variable rolling_mean : nat → list f64 → list f64.
Hypothesis Hmin : min_periods rolling_mean.

(** The window of row [i] of [s.shift(-k).rolling(w)], where it is
    complete, holds the [w] cells of [s] that end [k] rows ahead. *)
Lemma rolling_shift_window (w k i : nat) (s : list f64) :
  w ≤ S i → i + k < length s →
  take w (drop (S i - w) (shift_back k s)) = take w (drop (S i - w + k) s).
Proof.
  intros Hw Hin. unfold shift_back.
  rewrite drop_app_le by (rewrite length_drop; lia).
  rewrite drop_drop.
  rewrite take_app_le by (rewrite length_drop; lia).
  replace (k + (S i - w)) with (S i - w + k) by lia. reflexivity.
Qed.

(** A row of [s.shift(-k).rolling(w).mean()] holds a value. *)
Lemma rolling_shift_row (w k i : nat) (s : list f64) :
  i < length s → ∃ r, rolling_mean w (shift_back k s) !! i = Some r.
Proof using Hmin.
  intros Hi. apply lookup_lt_is_Some_2.
  rewrite (proj1 (Hmin w (shift_back k s))), length_shift_back. exact Hi.
Qed.

(** It is undefined before row [w - 1], on the last [k] rows, and where a
    cell of the window is not finite. *)
Lemma rolling_shift_undefined (w k i : nat) (s : list f64) :
  1 ≤ w → i < length s →
  S i < w ∨ length s ≤ i + k
  ∨ forallb F64.is_finite (take w (drop (S i - w + k) s)) = false →
  rolling_mean w (shift_back k s) !! i = Some F64.nan.
Proof using Hmin.
  intros Hw Hi Hrow.
  apply (proj2 (Hmin w (shift_back k s)));
    [rewrite length_shift_back; exact Hi | exact Hw |].
  destruct (decide (S i < w)) as [Hshort | Hlong]; [left; exact Hshort | right].
  destruct (decide (i + k < length s)) as [Hin | Hout].
  - rewrite rolling_shift_window by lia.
    destruct Hrow as [? | [? | Hnot]]; [lia | lia | exact Hnot].
  - apply (forallb_lookup_false F64.is_finite _ (w - 1) F64.nan); [| reflexivity].
    rewrite lookup_take_lt by lia. rewrite lookup_drop.
    replace (S i - w + (w - 1)) with i by lia.
    rewrite (lookup_shift_back k i s Hi). rewrite decide_False by exact Hout.
    reflexivity.
Qed.

(** With fewer than [w + k] rows no window of [s.shift(-k).rolling(w)] is
    complete. *)
Lemma rolling_shift_short (w k : nat) (s : list f64) :
  1 ≤ w → length s < w + k →
  rolling_mean w (shift_back k s) = replicate (length s) F64.nan.
Proof using Hmin.
  intros Hw Hshort. apply list_eq. intros i.
  destruct (decide (i < length s)) as [Hi | Hi].
  - rewrite (rolling_shift_undefined w k i s Hw Hi) by lia.
    symmetry. apply lookup_replicate_2, Hi.
  - transitivity (@None f64); [| symmetry]; apply lookup_ge_None_2.
    + rewrite (proj1 (Hmin w (shift_back k s))), length_shift_back. lia.
    + rewrite length_replicate. lia.
Qed.
End RollingShift.




(** ** Ratio features *)

(** Division by an undefined or zero denominator. *)
Lemma div_unusable_denominator (x d : f64) : unusable_denominator x d (F64.div x d).
Proof.
  unfold unusable_denominator, F64.div, SFdiv. split; [| split].
  - intros Hd. destruct d; try discriminate.
    destruct x; (split; [reflexivity |]); intros y;
      unfold F64.gt, F64.lt, F64.eq, F64.ge, F64.le, F64.ne, SFltb, SFeqb, SFleb;
      destruct y; repeat split.
  - intros Hd. destruct d; try discriminate.
    destruct x; split; reflexivity.
  - intros Hd. destruct d; try discriminate; destruct x; reflexivity.
Qed.

Lemma frame_eq (d d' : DataFrame) :
  nrows d = nrows d' → (∀ name, cols d !! name = cols d' !! name) → d = d'.
Proof.
  destruct d as [n c], d' as [n' c']. cbn [nrows cols].
  intros -> Hcols. f_equal. apply map_eq, Hcols.
Qed.

Lemma same_candles_set_num_col (d d' : DataFrame) (name : string) (l : list f64) :
  name ∉ candle_columns → same_candles d d' → same_candles (set_num_col name l d) d'.
Proof.
  intros Hname [Hn Hcols]. split; [exact Hn |].
  intros other Hother. rewrite cols_set_num_col_ne; [apply Hcols, Hother |].
  intros ->. contradiction.
Qed.

Lemma nrows_writes (columns : list (string * list f64)) (d : DataFrame) :
  nrows (writes columns d) = nrows d.
Proof. induction columns as [| column columns IH]; [reflexivity | exact IH]. Qed.

Lemma cols_writes (columns : list (string * list f64)) (d : DataFrame) (name : string) :
  cols (writes columns d) !! name
  = match (list_to_map columns : gmap string (list f64)) !! name with
    | Some l => Some (VNum <$> l)
    | None => cols d !! name
    end.
Proof.
  induction columns as [| [k l] columns IH]; [reflexivity |].
  cbn [writes foldr list_to_map fst snd]. fold (writes columns d).
  destruct (decide (k = name)) as [-> | Hne].
  - rewrite lookup_insert_eq. apply cols_set_col_eq.
  - rewrite lookup_insert_ne by exact Hne.
    rewrite cols_set_num_col_ne by exact Hne. exact IH.
Qed.

(** Writing a set of columns over the same set of columns leaves no trace
    of the first writes. *)
Lemma writes_overwrite (first second : list (string * list f64)) (d : DataFrame) :
  first.*1 = second.*1 → writes second (writes first d) = writes second d.
Proof.
  intros Hnames. apply frame_eq; [rewrite !nrows_writes; reflexivity |].
  intros name. rewrite !cols_writes.
  destruct (list_to_map second !! name) as [l |] eqn:Hsecond; [reflexivity |].
  apply not_elem_of_list_to_map in Hsecond. rewrite <- Hnames in Hsecond.
  apply (not_elem_of_list_to_map (M := gmap string)) in Hsecond.
  rewrite Hsecond. reflexivity.
Qed.

(** What [feature_engineering_expand_all] returns is the frame it was given
    with fourteen columns written, among them the bands and the three
    ratios. *)
Lemma expand_all_written (ta : Indicators) (rolling_mean : nat → list f64 → list f64)
    (df df' : DataFrame) (period : nat) :
  FreqAI.feature_engineering_expand_all ta rolling_mean df period = Some df' →
  ∃ rsi mfi adx sma ema lower mid upper roc fastk fastd close volume,
    num_col df "close" = Some close ∧
    num_col df "volume" = Some volume ∧
    df' = writes
            [("%-stochrsi_d-period", fastd);
             ("%-stochrsi_k-period", fastk);
             ("%-relative_volume-period", ser_div volume (rolling_mean period volume));
             ("%-roc-period", roc);
             ("%-close-bb_lower-period", ser_div close lower);
             ("%-bb_width-period", ser_div (ser_sub upper lower) mid);
             ("bb_upperband-period", upper);
             ("bb_middleband-period", mid);
             ("bb_lowerband-period", lower);
             ("%-ema-period", ema);
             ("%-sma-period", sma);
             ("%-adx-period", adx);
             ("%-mfi-period", mfi);
             ("%-rsi-period", rsi)] df.
Proof.
  unfold FreqAI.feature_engineering_expand_all.
  destruct (ta_RSI ta df period) as [rsi |]; cbn [mbind option_bind]; [| discriminate].
  destruct (ta_MFI ta _ period) as [mfi |]; cbn [mbind option_bind]; [| discriminate].
  destruct (ta_ADX ta _ period) as [adx |]; cbn [mbind option_bind]; [| discriminate].
  destruct (ta_EMA ta _ period) as [sma |]; cbn [mbind option_bind]; [| discriminate].
  destruct (ta_EMA ta _ period) as [ema |]; cbn [mbind option_bind]; [| discriminate].
  destruct (typical_price ta _) as [price |]; cbn [mbind option_bind]; [| discriminate].
  destruct (bollinger_bands ta price period (F64.lit 2.2)) as [[[lower mid] upper] |];
    cbn [mbind option_bind]; [| discriminate].
  frame_reads. cbn [mbind option_bind]. frame_reads.
  destruct (num_col df "close") as [close |]; cbn [mbind option_bind]; [| discriminate].
  frame_reads.
  destruct (ta_ROC ta _ period) as [roc |]; cbn [mbind option_bind]; [| discriminate].
  frame_reads.
  destruct (num_col df "volume") as [volume |]; cbn [mbind option_bind];
    [| discriminate].
  destruct (ta_STOCHRSI ta _ 14 period 3) as [[fastk fastd] |];
    cbn [mbind option_bind]; [| discriminate].
  intros [= <-].
  exists rsi, mfi, adx, sma, ema, lower, mid, upper, roc, fastk, fastd, close, volume.
  split; [reflexivity |]. split; reflexivity.
Qed.

(** The three ratio columns of [feature_engineering_expand_all], in terms
    of the band columns written by the same call. *)
Lemma ratio_feature_columns (ta : Indicators)
    (rolling_mean : nat → list f64 → list f64) (df df' : DataFrame) (period : nat) :
  FreqAI.feature_engineering_expand_all ta rolling_mean df period = Some df' →
  ∃ close volume lower mid upper,
    num_col df "close" = Some close ∧
    num_col df "volume" = Some volume ∧
    num_col df' "bb_lowerband-period" = Some lower ∧
    num_col df' "bb_middleband-period" = Some mid ∧
    num_col df' "bb_upperband-period" = Some upper ∧
    num_col df' "%-bb_width-period" = Some (ser_div (ser_sub upper lower) mid) ∧
    num_col df' "%-close-bb_lower-period" = Some (ser_div close lower) ∧
    num_col df' "%-relative_volume-period"
    = Some (ser_div volume (rolling_mean period volume)).
Proof.
  intros Hrun. apply expand_all_written in Hrun
    as (rsi & mfi & adx & sma & ema & lower & mid & upper & roc & fastk & fastd
        & close & volume & Hclose & Hvolume & ->).
  exists close, volume, lower, mid, upper.
  split; [exact Hclose |]. split; [exact Hvolume |].
  cbn [writes foldr fst snd].
  repeat (split; [frame_reads; reflexivity |]). frame_reads. reflexivity.
Qed.

Lemma with_bands_candles_only (lower mid upper : list f64) :
  candles_only (Frames.with_bands lower mid upper).
Proof.
  intros d d' [Hn Hcols]. unfold Frames.with_bands, Frames.undefined_on. cbn.
  unfold num_col. rewrite Hn.
  rewrite (Hcols "close"), (Hcols "high"), (Hcols "low"), (Hcols "volume")
    by (unfold candle_columns; set_solver).
  repeat split.
Qed.

(** C9 as stated fails.  The ratios are plain float divisions: 100 over a
    zero denominator is +infinity, not an undefined value, and it is above
    0.015; so in every run that returns, a row of
    ["%-close-bb_lower-period"] whose lower band is 0 under a close of 100
    is +infinity.  And a condition over an undefined value can hold: [!=]
    is true of it, as on the first row of the relative volume of two
    candles, which is undefined whatever the indicator library returns. *)
Lemma zero_denominator_gives_infinity :
  F64.div (F64.lit 100) (F64.lit 0) = S754_infinity false ∧
  F64.is_nan (S754_infinity false) = false ∧
  F64.gt (S754_infinity false) (F64.lit 0.015) = true ∧
  (∀ ta rolling_mean df df' period close lower i,
     FreqAI.feature_engineering_expand_all ta rolling_mean df period = Some df' →
     num_col df "close" = Some close →
     num_col df' "bb_lowerband-period" = Some lower →
     close !! i = Some (F64.lit 100) → lower !! i = Some (F64.lit 0) →
     ∃ ratio, num_col df' "%-close-bb_lower-period" = Some ratio ∧
              ratio !! i = Some (S754_infinity false)) ∧
  F64.ne F64.nan (F64.lit 1) = true ∧
  (∀ ta rolling_mean df',
     min_periods rolling_mean →
     FreqAI.feature_engineering_expand_all ta rolling_mean Frames.two_candles 14
     = Some df' →
     ∃ ratio, num_col df' "%-relative_volume-period" = Some ratio ∧
              ratio !! 0 = Some F64.nan) ∧
  is_Some (FreqAI.feature_engineering_expand_all (Frames.undefined_indicators 2) (windowed mean)
             Frames.two_candles 14).
Proof.
  split; [by_eval |]. split; [by_eval |]. split; [by_eval |].
  split; [| split; [by_eval | split]].
  - intros ta rolling_mean df df' period close lower i Hrun Hclose Hlower Hc Hl.
    destruct (ratio_feature_columns ta rolling_mean df df' period Hrun)
      as (close' & volume & lower' & mid & upper & Hclose' & _ & Hlower' & _ & _ & _
          & Hratio & _).
    assert (close' = close) by congruence. assert (lower' = lower) by congruence.
    subst. eexists. split; [exact Hratio |].
    apply (lookup_ser_div _ _ _ _ _ Hc Hl).
  - intros ta rolling_mean df' Hmin Hrun.
    destruct (ratio_feature_columns ta rolling_mean _ df' 14 Hrun)
      as (close & volume & lower & mid & upper & _ & Hvolume & _ & _ & _ & _ & _
          & Hratio).
    eexists. split; [exact Hratio |].
    assert (volume = F64.lit <$> [10; 12]%float) as ->
      by (vm_compute in Hvolume; injection Hvolume as <-; reflexivity).
    apply lookup_ser_div with (x := F64.lit 10) (y := F64.nan); [reflexivity |].
    apply (proj2 (Hmin 14 _)); [cbn; lia | lia | left; lia].
  - eexists. by_eval.
Qed.

(** C9, amended: in the three ratio features (band width over the middle
    band, close over the lower band, volume over its rolling mean), a row
    whose denominator is undefined is undefined, and every ordering and
    every equality over it is false, while [!=] is true; a row whose
    denominator is zero is undefined when its numerator is zero or
    undefined and is an infinity otherwise; no such row is zero.  The
    relative volume is undefined on the rows before the first complete
    window. *)
Theorem ratio_features_propagate
    (ta : Indicators) (rolling_mean : nat → list f64 → list f64)
    (df df' : DataFrame) (period : nat) :
  min_periods rolling_mean →
  FreqAI.feature_engineering_expand_all ta rolling_mean df period = Some df' →
  ∃ close volume lower mid upper bb_width close_bb_lower relative_volume,
    num_col df "close" = Some close ∧
    num_col df "volume" = Some volume ∧
    num_col df' "bb_lowerband-period" = Some lower ∧
    num_col df' "bb_middleband-period" = Some mid ∧
    num_col df' "bb_upperband-period" = Some upper ∧
    num_col df' "%-bb_width-period" = Some bb_width ∧
    num_col df' "%-close-bb_lower-period" = Some close_bb_lower ∧
    num_col df' "%-relative_volume-period" = Some relative_volume ∧
    ∀ i,
      (∀ l m u, lower !! i = Some l → mid !! i = Some m → upper !! i = Some u →
         ∃ q, bb_width !! i = Some q ∧ q = F64.div (F64.sub u l) m ∧
              unusable_denominator (F64.sub u l) m q) ∧
      (∀ c l, close !! i = Some c → lower !! i = Some l →
         ∃ q, close_bb_lower !! i = Some q ∧ q = F64.div c l ∧
              unusable_denominator c l q) ∧
      (∀ v, volume !! i = Some v →
         ∃ q r, rolling_mean period volume !! i = Some r ∧
                relative_volume !! i = Some q ∧ q = F64.div v r ∧
                unusable_denominator v r q ∧
                (i < period - 1 → F64.is_nan q = true)).
Proof.
  intros Hmin Hrun.
  destruct (ratio_feature_columns ta rolling_mean df df' period Hrun)
    as (close & volume & lower & mid & upper & Hclose & Hvolume
        & Hl & Hm & Hu & Hw & Hr & Hv).
  exists close, volume, lower, mid, upper. eexists. eexists. eexists.
  split; [exact Hclose |]. split; [exact Hvolume |].
  split; [exact Hl |]. split; [exact Hm |]. split; [exact Hu |].
  split; [exact Hw |]. split; [exact Hr |]. split; [exact Hv |].
  intros i. split; [| split].
  - intros l m u Hli Hmi Hui. exists (F64.div (F64.sub u l) m).
    split; [auto with rows |].
    split; [reflexivity | apply div_unusable_denominator].
  - intros c l Hci Hli. exists (F64.div c l). split; [auto with rows |].
    split; [reflexivity | apply div_unusable_denominator].
  - intros v Hvi.
    assert (Hi : i < length volume) by (eapply lookup_lt_Some, Hvi).
    destruct (lookup_lt_is_Some_2 (rolling_mean period volume) i) as [r Hri].
    { rewrite (proj1 (Hmin period volume)). exact Hi. }
    exists (F64.div v r), r. split; [exact Hri |].
    split; [apply (lookup_ser_div _ _ _ _ _ Hvi Hri) |].
    split; [reflexivity |]. split; [apply div_unusable_denominator |].
    intros Hwarm.
    rewrite (proj2 (Hmin period volume) i Hi) in Hri by (lia || (left; lia)).
    injection Hri as <-.
    apply (proj1 (div_unusable_denominator v F64.nan)). reflexivity.
Qed.

Lemma ratio_features_propagate_witness :
  ∃ df' close_bb_lower,
    FreqAI.feature_engineering_expand_all (Frames.undefined_indicators 2) (windowed mean)
      Frames.two_candles 14 = Some df' ∧
    num_col df' "%-close-bb_lower-period" = Some close_bb_lower ∧
    ∃ q, close_bb_lower !! 0 = Some q ∧ F64.is_nan q = true ∧
         F64.gt q (F64.lit 0.015) = false ∧ F64.ne q (F64.lit 0.015) = true.
Proof.
  destruct (FreqAI.feature_engineering_expand_all (Frames.undefined_indicators 2)
              (windowed mean) Frames.two_candles 14) as [df' |] eqn:Hrun;
    [| vm_compute in Hrun; discriminate Hrun].
  destruct (ratio_features_propagate (Frames.undefined_indicators 2) (windowed mean)
              Frames.two_candles df' 14 (windowed_min_periods mean) Hrun)
    as (close & volume & lower & mid & upper & bb_width & close_bb_lower
        & relative_volume & Hclose & _ & Hlower & _ & _ & _ & Hratio & _ & Hrows).
  exists df', close_bb_lower. split; [reflexivity |]. split; [exact Hratio |].
  destruct (Hrows 0) as (_ & Hclose_lower & _).
  assert (Hc : close = F64.lit <$> [101; 102]%float)
    by (vm_compute in Hclose; injection Hclose as <-; reflexivity).
  assert (Hl : lower = [F64.nan; F64.nan]).
  { vm_compute in Hrun. injection Hrun as <-.
    vm_compute in Hlower. injection Hlower as <-. reflexivity. }
  edestruct (Hclose_lower (F64.lit 101) F64.nan) as (q & Hq & _ & Hnan & _).
  - rewrite Hc. reflexivity.
  - rewrite Hl. reflexivity.
  - exists q. split; [exact Hq |].
    destruct (Hnan eq_refl) as [Hqnan Hcmp]. split; [exact Hqnan |].
    split; apply (Hcmp (F64.lit 0.015)).
Defined.

(** * Further properties *)

(** ** Well-formed frames *)

Lemma well_formed_col (df : DataFrame) (name : string) (s : Series) :
  well_formed df → cols df !! name = Some s → length s = nrows df.
Proof. intros Hwf Hs. exact (Hwf name s Hs). Qed.

Lemma well_formed_num_col (df : DataFrame) (name : string) (l : list f64) :
  well_formed df → num_col df name = Some l → length l = nrows df.
Proof.
  intros Hwf Hl. apply num_col_inv in Hl.
  rewrite <- (well_formed_col df name _ Hwf Hl). symmetry. apply length_fmap.
Qed.

Lemma well_formed_set_col (df : DataFrame) (name : string) (s : Series) :
  well_formed df → length s = nrows df → well_formed (set_col name s df).
Proof.
  intros Hwf Hs. unfold well_formed, set_col. cbn [cols nrows].
  apply map_Forall_insert_2; assumption.
Qed.

Lemma well_formed_set_num_col (df : DataFrame) (name : string) (l : list f64) :
  well_formed df → length l = nrows df → well_formed (set_num_col name l df).
Proof.
  intros Hwf Hl. apply well_formed_set_col; [exact Hwf |]. rewrite length_fmap. exact Hl.
Qed.

Lemma well_formed_loc_set (df : DataFrame) (mask : list bool) (name : string) (v : value) :
  well_formed df → length mask = nrows df → well_formed (loc_set mask name v df).
Proof.
  intros Hwf Hm. unfold loc_set. apply well_formed_set_col; [exact Hwf |].
  rewrite length_zip_with.
  destruct (cols df !! name) as [s |] eqn:Hs; cbn [default from_option id].
  - rewrite (well_formed_col df name s Hwf Hs). lia.
  - rewrite length_replicate. lia.
Qed.

(** Lengths of the element-wise operations. *)
Ltac lengths :=
  unfold ser_and, ser_or, ser_not, ser_gt, ser_lt, ser_gt_c, ser_lt_c, ser_eq_c,
    ser_sub, ser_div, ser_sub_c;
  repeat first [rewrite length_zip_with | rewrite length_fmap].

(** A cell of a well-formed frame exists exactly on the rows of the frame. *)
Lemma cell_is_Some (df : DataFrame) (name : string) (i : nat) :
  well_formed df → is_Some (cell df name i) ↔ i < nrows df.
Proof.
  intros Hwf. unfold cell. destruct (cols df !! name) as [s |] eqn:Hs.
  - rewrite lookup_lt_is_Some, (well_formed_col df name s Hwf Hs). reflexivity.
  - destruct (decide (i < nrows df)); split; intros H; try assumption; try lia.
    + eexists. reflexivity.
    + destruct H as [x H]. discriminate.
Qed.

(** ** The passes of the primary strategy, row by row *)

Lemma num_col_missing (df : DataFrame) (name : string) :
  has_col df name = false → num_col df name = None.
Proof. intros Hno. apply has_col_false in Hno. unfold num_col. rewrite Hno. reflexivity. Qed.

(** X1: the entry pass of the primary strategy raises when one of the seven
    columns it reads is missing, and its exit pass when one of
    [do_predict], ["&-s_close"] and [RSI_14] is; on a frame that has rows,
    or holds both exit columns, the exit pass returns as soon as these
    three are numeric, whether or not the trend, band and volume columns of
    the entry rule are there; on a frame without rows and without an
    [exit_long] column it raises. *)
Theorem primary_passes_missing_column (df : DataFrame) (metadata : Metadata) :
  (∀ name,
     name ∈ ["do_predict"; "&-s_close"; "EMA_12"; "EMA_26"; "RSI_14"; "bb_width";
             "volume"] →
     has_col df name = false → FreqAI.populate_entry_trend df metadata = None) ∧
  (∀ name,
     name ∈ ["do_predict"; "&-s_close"; "RSI_14"] →
     has_col df name = false → FreqAI.populate_exit_trend df metadata = None) ∧
  (is_Some (num_col df "do_predict") → is_Some (num_col df "&-s_close") →
   is_Some (num_col df "RSI_14") →
   (nrows df ≠ 0 ∨ has_col df "exit_long" = true ∧ has_col df "exit_short" = true →
    is_Some (FreqAI.populate_exit_trend df metadata)) ∧
   (nrows df = 0 → has_col df "exit_long" = false →
    FreqAI.populate_exit_trend df metadata = None)).
Proof.
  split; [| split].
  - intros name Hin Hno. apply num_col_missing in Hno.
    unfold FreqAI.populate_entry_trend.
    repeat (apply elem_of_cons in Hin as [-> | Hin]);
      [.. | apply elem_of_nil in Hin; contradiction];
      repeat match goal with
        | |- context [num_col df ?n ≫= _] =>
            destruct (num_col df n) eqn:?; cbn [mbind option_bind];
            [| reflexivity]
        end; discriminate.
  - intros name Hin Hno. apply num_col_missing in Hno.
    unfold FreqAI.populate_exit_trend.
    repeat (apply elem_of_cons in Hin as [-> | Hin]);
      [.. | apply elem_of_nil in Hin; contradiction];
      repeat match goal with
        | |- context [num_col df ?n ≫= _] =>
            destruct (num_col df n) eqn:?; cbn [mbind option_bind];
            [| reflexivity]
        end; discriminate.
  - intros [d Hd] [p Hp] [r Hr].
    destruct (primary_exit_run df metadata d p r Hd Hp Hr)
      as (mask_long & mask_short & Hrun & _). split.
    + intros Hok. rewrite (Hrun Hok). eexists. reflexivity.
    + apply (primary_exit_no_rows df metadata d p r Hd Hp Hr).
Qed.

Lemma primary_passes_missing_column_witness :
  FreqAI.populate_entry_trend Frames.flat_prediction Frames.btc = None ∧
  FreqAI.populate_exit_trend Frames.no_exit_columns Frames.btc = None ∧
  is_Some (FreqAI.populate_exit_trend Frames.untrusted_uptrend Frames.btc) ∧
  FreqAI.populate_exit_trend Frames.no_rows Frames.btc = None.
Proof.
  split; [| split; [| split]].
  - apply (proj1 (primary_passes_missing_column Frames.flat_prediction Frames.btc)
             "volume"); [set_solver | by_eval].
  - apply (proj1 (proj2 (primary_passes_missing_column Frames.no_exit_columns
                           Frames.btc)) "RSI_14"); [set_solver | by_eval].
  - apply (proj2 (proj2 (primary_passes_missing_column Frames.untrusted_uptrend
                           Frames.btc)));
      [eexists; by_eval .. | left; vm_compute; lia].
  - apply (proj2 (proj2 (primary_passes_missing_column Frames.no_rows Frames.btc)));
      [eexists; by_eval .. | by_eval | by_eval].
Defined.

(** The frames the two passes return, with their masks and the length of
    the masks. *)
Lemma primary_entry_result (df df' : DataFrame) (metadata : Metadata) :
  well_formed df →
  FreqAI.populate_entry_trend df metadata = Some df' →
  ∃ mask, length mask = nrows df ∧
    df' = loc_set mask "enter_tag" (VStr "ml_long")
            (loc_set mask "enter_long" (VNum (F64.lit 1)) df).
Proof.
  intros Hwf. unfold FreqAI.populate_entry_trend.
  destruct (num_col df "do_predict") as [c1 |] eqn:H1; [| discriminate].
  destruct (num_col df "&-s_close") as [c2 |] eqn:H2; [| discriminate].
  destruct (num_col df "EMA_12") as [c3 |] eqn:H3; [| discriminate].
  destruct (num_col df "EMA_26") as [c4 |] eqn:H4; [| discriminate].
  destruct (num_col df "RSI_14") as [c5 |] eqn:H5; [| discriminate].
  destruct (num_col df "bb_width") as [c6 |] eqn:H6; [| discriminate].
  destruct (num_col df "volume") as [c7 |] eqn:H7; [| discriminate].
  cbn [mbind option_bind reduce foldl]. intros [= <-].
  eexists. split; [| reflexivity]. lengths.
  rewrite (well_formed_num_col _ _ _ Hwf H1), (well_formed_num_col _ _ _ Hwf H2),
    (well_formed_num_col _ _ _ Hwf H3), (well_formed_num_col _ _ _ Hwf H4),
    (well_formed_num_col _ _ _ Hwf H5), (well_formed_num_col _ _ _ Hwf H6),
    (well_formed_num_col _ _ _ Hwf H7). lia.
Qed.

Lemma primary_exit_result (df df' : DataFrame) (metadata : Metadata) :
  well_formed df →
  FreqAI.populate_exit_trend df metadata = Some df' →
  ∃ mask_long mask_short,
    length mask_long = nrows df ∧ length mask_short = nrows df ∧
    df' = loc_set mask_short "exit_short" (VNum (F64.lit 1))
            (loc_set mask_long "exit_long" (VNum (F64.lit 1)) df).
Proof.
  intros Hwf. unfold FreqAI.populate_exit_trend.
  destruct (num_col df "do_predict") as [c1 |] eqn:H1; [| discriminate].
  destruct (num_col df "&-s_close") as [c2 |] eqn:H2; [| discriminate].
  destruct (num_col df "RSI_14") as [c3 |] eqn:H3; [| discriminate].
  cbn [mbind option_bind reduce foldl].
  destruct (loc_set_scalar _ "exit_long" _ df) as [df1 |] eqn:Hlong;
    cbn [mbind option_bind]; [| discriminate].
  destruct (loc_set_scalar _ "exit_short" _ df1) as [df2 |] eqn:Hshort;
    cbn [mbind option_bind]; [| discriminate].
  intros [= <-].
  apply loc_set_scalar_inv in Hlong as [-> _].
  apply loc_set_scalar_inv in Hshort as [-> _].
  eexists. eexists. split; [| split; [| reflexivity]]; lengths;
    rewrite (well_formed_num_col _ _ _ Hwf H1), (well_formed_num_col _ _ _ Hwf H2),
      (well_formed_num_col _ _ _ Hwf H3); lia.
Qed.

(** X2: on a well-formed frame the two passes of the primary strategy
    return a well-formed frame with the same rows; the entry pass changes
    no column but [enter_long] and [enter_tag], and the exit pass no column
    but [exit_long] and [exit_short]: candles, indicators and predictions
    are left as they were. *)
Theorem primary_passes_frame (df df' : DataFrame) (metadata : Metadata) :
  well_formed df →
  (FreqAI.populate_entry_trend df metadata = Some df' →
     well_formed df' ∧ nrows df' = nrows df ∧
     ∀ name, name ≠ "enter_long" → name ≠ "enter_tag" →
             cols df' !! name = cols df !! name) ∧
  (FreqAI.populate_exit_trend df metadata = Some df' →
     well_formed df' ∧ nrows df' = nrows df ∧
     ∀ name, name ≠ "exit_long" → name ≠ "exit_short" →
             cols df' !! name = cols df !! name).
Proof.
  intros Hwf. split; intros Hrun.
  - destruct (primary_entry_result df df' metadata Hwf Hrun) as (mask & Hlen & ->).
    split; [| split; [reflexivity |]].
    + apply well_formed_loc_set; [apply well_formed_loc_set; assumption | exact Hlen].
    + intros name Hlong Htag.
      rewrite !cols_loc_set_ne by (apply not_eq_sym; assumption). reflexivity.
  - destruct (primary_exit_result df df' metadata Hwf Hrun)
      as (mask_long & mask_short & Hl & Hs & ->).
    split; [| split; [reflexivity |]].
    + apply well_formed_loc_set; [apply well_formed_loc_set; assumption | exact Hs].
    + intros name Hlong Hshort.
      rewrite !cols_loc_set_ne by (apply not_eq_sym; assumption). reflexivity.
Qed.

(** X3: on a frame that has rows, or holds both exit columns, the exit
    pass of the primary strategy sets [exit_long] to 1 on the rows where
    [do_predict = 1] and the prediction is below -0.005 or [RSI_14] is
    above 80, and [exit_short] to 1 where [do_predict = 1] and the
    prediction is above 0.005 or [RSI_14] is below 20; the other rows keep
    their cells.  The two exits are not exclusive: a row whose prediction
    is below -0.005 while its RSI is below 20 gets both. *)
Theorem primary_exit_rules
    (df : DataFrame) (metadata : Metadata) (do_predict s_close RSI_14 : list f64) :
  num_col df "do_predict" = Some do_predict →
  num_col df "&-s_close" = Some s_close →
  num_col df "RSI_14" = Some RSI_14 →
  nrows df ≠ 0 ∨ has_col df "exit_long" = true ∧ has_col df "exit_short" = true →
  ∃ df',
    FreqAI.populate_exit_trend df metadata = Some df' ∧
    ∀ i d p r ol os,
      do_predict !! i = Some d → s_close !! i = Some p → RSI_14 !! i = Some r →
      cell df "exit_long" i = Some ol → cell df "exit_short" i = Some os →
      cell df' "exit_long" i
      = Some (if F64.eq d (F64.lit 1)
                 && (F64.lt p (F64.lit (-0.005)) || F64.gt r (F64.lit 80))
              then VNum (F64.lit 1) else ol) ∧
      cell df' "exit_short" i
      = Some (if F64.eq d (F64.lit 1)
                 && (F64.gt p (F64.lit 0.005) || F64.lt r (F64.lit 20))
              then VNum (F64.lit 1) else os) ∧
      (F64.eq d (F64.lit 1) = true → F64.lt p (F64.lit (-0.005)) = true →
       F64.lt r (F64.lit 20) = true →
       cell df' "exit_long" i = Some (VNum (F64.lit 1)) ∧
       cell df' "exit_short" i = Some (VNum (F64.lit 1))).
Proof.
  intros Hd Hp Hr Hok.
  destruct (primary_exit_run df metadata _ _ _ Hd Hp Hr)
    as (mask_long & mask_short & Hrun & _ & Hmasks).
  eexists. split; [exact (Hrun Hok) |].
  intros i d p r ol os Hdi Hpi Hri Hol Hos.
  destruct (Hmasks i d p r Hdi Hpi Hri) as [Hlong Hshort].
  assert (Hl : cell (loc_set mask_short "exit_short" (VNum (F64.lit 1))
                       (loc_set mask_long "exit_long" (VNum (F64.lit 1)) df))
                 "exit_long" i
               = Some (if F64.eq d (F64.lit 1)
                          && (F64.lt p (F64.lit (-0.005)) || F64.gt r (F64.lit 80))
                       then VNum (F64.lit 1) else ol)).
  { frame_reads. apply cell_loc_set_eq; assumption. }
  assert (Hs : cell (loc_set mask_short "exit_short" (VNum (F64.lit 1))
                       (loc_set mask_long "exit_long" (VNum (F64.lit 1)) df))
                 "exit_short" i
               = Some (if F64.eq d (F64.lit 1)
                          && (F64.gt p (F64.lit 0.005) || F64.lt r (F64.lit 20))
                       then VNum (F64.lit 1) else os)).
  { apply cell_loc_set_eq; [assumption |]. frame_reads. assumption. }
  split; [exact Hl |]. split; [exact Hs |].
  intros Hone Hlow Hrsi. rewrite Hl, Hs, Hone, Hlow, Hrsi.
  cbn [andb orb]. rewrite orb_true_r. split; reflexivity.
Qed.

(** X4: a row on which an input of the entry rule is undefined is never
    entered: where [do_predict], the prediction, [bb_width] or [volume] is
    NaN, or where [RSI_14] is NaN together with one of the two EMAs, the
    entry pass leaves [enter_long] and [enter_tag] as they were. *)
Theorem primary_entry_undefined_inputs
    (df : DataFrame) (metadata : Metadata)
    (do_predict s_close EMA_12 EMA_26 RSI_14 bb_width volume : list f64) :
  num_col df "do_predict" = Some do_predict →
  num_col df "&-s_close" = Some s_close →
  num_col df "EMA_12" = Some EMA_12 →
  num_col df "EMA_26" = Some EMA_26 →
  num_col df "RSI_14" = Some RSI_14 →
  num_col df "bb_width" = Some bb_width →
  num_col df "volume" = Some volume →
  ∃ df',
    FreqAI.populate_entry_trend df metadata = Some df' ∧
    ∀ i d p e12 e26 r w v,
      do_predict !! i = Some d → s_close !! i = Some p →
      EMA_12 !! i = Some e12 → EMA_26 !! i = Some e26 → RSI_14 !! i = Some r →
      bb_width !! i = Some w → volume !! i = Some v →
      F64.is_nan d || F64.is_nan p || F64.is_nan w || F64.is_nan v
      || (F64.is_nan r && (F64.is_nan e12 || F64.is_nan e26)) = true →
      (∀ o, cell df "enter_long" i = Some o → cell df' "enter_long" i = Some o) ∧
      (∀ t, cell df "enter_tag" i = Some t → cell df' "enter_tag" i = Some t).
Proof.
  intros Hdp Hsc H12 H26 Hrsi Hbw Hvol.
  destruct (primary_entry_mask df metadata _ _ _ _ _ _ _ Hdp Hsc H12 H26 Hrsi Hbw Hvol)
    as (mask & Hrun & Hmask).
  eexists. split; [exact Hrun |].
  intros i d p e12 e26 r w v Hd Hp He12 He26 Hr Hw Hv Hnan.
  specialize (Hmask i d p e12 e26 r w v Hd Hp He12 He26 Hr Hw Hv).
  assert (Hoff : F64.eq d (F64.lit 1) && F64.gt p (F64.lit 0.0001)
                 && (F64.gt e12 e26 || F64.lt r (F64.lit 35))
                 && F64.gt w (F64.lit 0.015) && F64.gt v (F64.lit 0) = false).
  { clear Hmask. unfold F64.eq, F64.gt, F64.lt, SFeqb, SFltb.
    destruct d; try (reflexivity || discriminate);
      destruct p; try (rewrite ?andb_false_r; reflexivity);
      destruct w; try (rewrite ?andb_false_r; reflexivity);
      destruct v; try (rewrite ?andb_false_r; reflexivity);
      (destruct r; [discriminate Hnan .. | | discriminate Hnan]);
      (destruct e12, e26; try discriminate Hnan);
      cbn [SFcompare orb]; rewrite ?andb_false_r; reflexivity. }
  rewrite Hoff in Hmask. split.
  - intros o Ho. frame_reads. apply (cell_loc_set_eq _ _ _ _ _ _ _ Hmask Ho).
  - intros t Ht. apply (cell_loc_set_eq _ _ _ _ t _ _ Hmask). frame_reads. exact Ht.
Qed.

(** ** The Hybrid passes on any frame *)

(** The outcomes of the Hybrid entry pass: the frame of the wrapped strategy
    as it is, or that frame with [ml_upside] written and each entry column
    either left alone or filtered. *)
Lemma hybrid_entry_cases
    (self : Hybrid.Parameters) (series_sum : list f64 → f64) (x7 : Strategy.IStrategy)
    (dataframe wrapped df' : DataFrame) (metadata : Metadata) :
  @Strategy.populate_entry_trend x7 dataframe metadata = Some wrapped →
  Hybrid.populate_entry_trend self series_sum x7 dataframe metadata = Some df' →
  has_col wrapped "&-s_close" && has_col wrapped "do_predict" = false ∧ df' = wrapped ∨
  ∃ s_close close do_predict,
    num_col wrapped "&-s_close" = Some s_close ∧
    num_col wrapped "close" = Some close ∧
    num_col wrapped "do_predict" = Some do_predict ∧
    ∃ keep_long keep_short df3,
      (well_formed wrapped →
         length keep_long = nrows wrapped ∧ length keep_short = nrows wrapped) ∧
      (df3 = set_num_col "ml_upside" (ser_div (ser_sub s_close close) close) wrapped ∨
       df3 = loc_set (ser_not keep_long) "enter_long" (VNum (F64.lit 0))
               (set_num_col "ml_upside" (ser_div (ser_sub s_close close) close) wrapped)) ∧
      (df' = df3 ∨
       df' = loc_set (ser_not keep_short) "enter_short" (VNum (F64.lit 0)) df3).
Proof.
  intros Hwrapped. unfold Hybrid.populate_entry_trend.
  rewrite Hwrapped. cbn [mbind option_bind].
  destruct (has_col wrapped "&-s_close" && has_col wrapped "do_predict") eqn:Hguard.
  2:{ intros [= <-]. left. split; reflexivity. }
  destruct (num_col wrapped "&-s_close") as [s_close |] eqn:Hs; [| discriminate].
  destruct (num_col wrapped "close") as [close |] eqn:Hc; [| discriminate].
  cbn [mbind option_bind]. frame_reads.
  destruct (num_col wrapped "do_predict") as [do_predict |] eqn:Hd; [| discriminate].
  cbn [mbind option_bind]. intros Hrun. right.
  exists s_close, close, do_predict. split; [reflexivity |]. split; [reflexivity |].
  split; [reflexivity |].
  set (ml_upside := ser_div (ser_sub s_close close) close) in *.
  set (keep_long := ser_and (ser_eq_c do_predict (F64.lit 1))
                      (ser_gt_c ml_upside
                         (F64.div (Hybrid.ml_confidence_long self) (F64.lit 100)))) in *.
  set (keep_short := ser_and (ser_eq_c do_predict (F64.lit 1))
                       (ser_lt_c ml_upside
                          (F64.div (F64.opp (Hybrid.ml_confidence_short self))
                             (F64.lit 100)))).
  exists keep_long, keep_short.
  assert (Hlen : well_formed wrapped →
                 length keep_long = nrows wrapped ∧ length keep_short = nrows wrapped).
  { intros Hwf. subst keep_short keep_long ml_upside. lengths.
    rewrite (well_formed_num_col _ _ _ Hwf Hs), (well_formed_num_col _ _ _ Hwf Hc),
      (well_formed_num_col _ _ _ Hwf Hd). lia. }
  set (df2 := set_num_col "ml_upside" ml_upside wrapped) in *.
  (* the short filter, on the frame the long filter has left *)
  assert (Hshort : ∀ df3,
    num_col df3 "do_predict" = Some do_predict →
    num_col df3 "ml_upside" = Some ml_upside →
    (if Hybrid.can_short && has_col df3 "enter_short"
     then do_predict ← num_col df3 "do_predict";
          ml_upside ← num_col df3 "ml_upside";
          enter_short ← num_col df3 "enter_short";
          if F64.gt (series_sum enter_short) (F64.lit 0)
          then loc_set_scalar
                 (ser_not
                    (ser_and (ser_eq_c do_predict (F64.lit 1))
                       (ser_lt_c ml_upside
                          (F64.div (F64.opp (Hybrid.ml_confidence_short self))
                             (F64.lit 100)))))
                 "enter_short" (VNum (F64.lit 0)) df3
          else Some df3
     else Some df3) = Some df' →
    df' = df3 ∨ df' = loc_set (ser_not keep_short) "enter_short" (VNum (F64.lit 0)) df3).
  { intros df3 Hd3 Hu3. change Hybrid.can_short with true. cbn [andb].
    destruct (has_col df3 "enter_short"); [| intros [= <-]; left; reflexivity].
    rewrite Hd3, Hu3. cbn [mbind option_bind]. fold keep_short.
    destruct (num_col df3 "enter_short") as [es |]; [| discriminate].
    cbn [mbind option_bind].
    destruct (F64.gt (series_sum es) (F64.lit 0)); [| intros [= <-]; left; reflexivity].
    intros Hset. apply loc_set_scalar_inv in Hset as [-> _]. right. reflexivity. }
  assert (Hd2 : num_col df2 "do_predict" = Some do_predict)
    by (subst df2; frame_reads; exact Hd).
  assert (Hu2 : num_col df2 "ml_upside" = Some ml_upside)
    by (subst df2; frame_reads; reflexivity).
  destruct (has_col wrapped "enter_long").
  - destruct (num_col wrapped "enter_long") as [el |]; [| discriminate].
    cbn [mbind option_bind] in Hrun.
    destruct (F64.gt (series_sum el) (F64.lit 0)); cbn [mbind option_bind] in Hrun.
    + destruct (loc_set_scalar (ser_not keep_long) "enter_long" _ df2) as [df3 |] eqn:Hset;
        cbn [mbind option_bind] in Hrun; [| discriminate].
      apply loc_set_scalar_inv in Hset as [-> _].
      destruct (num_col _ "enter_long") as [el' |] in Hrun;
        cbn [mbind option_bind] in Hrun; [| discriminate].
      assert (Hrun' :
        (if Hybrid.can_short
            && has_col (loc_set (ser_not keep_long) "enter_long" (VNum (F64.lit 0)) df2)
                 "enter_short"
         then do_predict ←
                num_col (loc_set (ser_not keep_long) "enter_long" (VNum (F64.lit 0)) df2)
                  "do_predict";
              ml_upside ←
                num_col (loc_set (ser_not keep_long) "enter_long" (VNum (F64.lit 0)) df2)
                  "ml_upside";
              enter_short ←
                num_col (loc_set (ser_not keep_long) "enter_long" (VNum (F64.lit 0)) df2)
                  "enter_short";
              if F64.gt (series_sum enter_short) (F64.lit 0)
              then loc_set_scalar
                     (ser_not
                        (ser_and (ser_eq_c do_predict (F64.lit 1))
                           (ser_lt_c ml_upside
                              (F64.div (F64.opp (Hybrid.ml_confidence_short self))
                                 (F64.lit 100)))))
                     "enter_short" (VNum (F64.lit 0))
                     (loc_set (ser_not keep_long) "enter_long" (VNum (F64.lit 0)) df2)
              else Some (loc_set (ser_not keep_long) "enter_long" (VNum (F64.lit 0)) df2)
         else Some (loc_set (ser_not keep_long) "enter_long" (VNum (F64.lit 0)) df2))
        = Some df').
      { destruct (F64.gt (series_sum el) (series_sum el'));
          [destruct (metadata !! "pair"); [| discriminate] |];
          cbn [mbind option_bind] in Hrun; exact Hrun. }
      eexists. split; [exact Hlen |]. split; [right; reflexivity |].
      apply Hshort; [frame_reads; assumption .. | exact Hrun'].
    + eexists. split; [exact Hlen |]. split; [left; reflexivity |].
      apply Hshort; [assumption .. | exact Hrun].
  - cbn [mbind option_bind] in Hrun.
    eexists. split; [exact Hlen |]. split; [left; reflexivity |].
    apply Hshort; [assumption .. | exact Hrun].
Qed.

(** A cell that is set after [dataframe.loc[mask, name] = 0] was there, set,
    before. *)
Lemma cell_loc_set_clear (df : DataFrame) (mask : list bool) (name : string)
    (i : nat) (x : value) :
  cell (loc_set mask name (VNum (F64.lit 0)) df) name i = Some x →
  is_set x = true → cell df name i = Some x.
Proof.
  unfold cell at 1, loc_set. rewrite cols_set_col_eq.
  intros Hx Hset. apply lookup_zip_with_Some in Hx as (b & o & -> & Hb & Ho).
  destruct b; [discriminate Hset |].
  unfold cell. destruct (cols df !! name) as [s |]; cbn [default from_option id] in Ho.
  - exact Ho.
  - apply lookup_replicate_1 in Ho as [-> _]. discriminate Hset.
Qed.

(** X5: whatever the wrapped strategy returns, the Hybrid entry pass only
    filters: a row set in [enter_long] or [enter_short] afterwards carries
    the cell that the wrapped strategy had set there.  Apart from
    [ml_upside] and the two entry columns no column changes, the rows are
    kept, and a well-formed frame stays well-formed; without both
    prediction columns the frame of the wrapped strategy is returned as it
    is. *)
Theorem hybrid_entry_only_filters
    (self : Hybrid.Parameters) (series_sum : list f64 → f64) (x7 : Strategy.IStrategy)
    (dataframe wrapped df' : DataFrame) (metadata : Metadata) :
  @Strategy.populate_entry_trend x7 dataframe metadata = Some wrapped →
  Hybrid.populate_entry_trend self series_sum x7 dataframe metadata = Some df' →
  (∀ i x, cell df' "enter_long" i = Some x → is_set x = true →
          cell wrapped "enter_long" i = Some x) ∧
  (∀ i x, cell df' "enter_short" i = Some x → is_set x = true →
          cell wrapped "enter_short" i = Some x) ∧
  (∀ name, name ≠ "ml_upside" → name ≠ "enter_long" → name ≠ "enter_short" →
           cols df' !! name = cols wrapped !! name) ∧
  nrows df' = nrows wrapped ∧
  (well_formed wrapped → well_formed df') ∧
  (has_col wrapped "&-s_close" && has_col wrapped "do_predict" = false →
   df' = wrapped).
Proof.
  intros Hwrapped Hrun.
  destruct (hybrid_entry_cases self series_sum x7 dataframe wrapped df' metadata
              Hwrapped Hrun)
    as [[Hguard ->] | (s_close & close & do_predict & Hs & Hc & Hd
                       & keep_long & keep_short & df3 & Hlen & Hlong & Hshort)].
  { repeat split; auto. }
  set (df2 := set_num_col "ml_upside" (ser_div (ser_sub s_close close) close) wrapped)
    in *.
  assert (Hwf2 : well_formed wrapped → well_formed df2).
  { intros Hwf. apply well_formed_set_num_col; [exact Hwf |]. lengths.
    rewrite (well_formed_num_col _ _ _ Hwf Hs), (well_formed_num_col _ _ _ Hwf Hc). lia. }
  split; [| split; [| split; [| split; [| split]]]].
  - intros i x Hx Hset.
    destruct Hshort as [-> | ->]; [| rewrite cell_loc_set_ne in Hx by discriminate];
      (destruct Hlong as [-> | ->];
       [| apply cell_loc_set_clear in Hx; [| exact Hset]]);
      subst df2; rewrite cell_set_num_col_ne in Hx by discriminate; exact Hx.
  - intros i x Hx Hset.
    destruct Hshort as [-> | ->]; [| apply cell_loc_set_clear in Hx; [| exact Hset]];
      (destruct Hlong as [-> | ->];
       [| rewrite cell_loc_set_ne in Hx by discriminate]);
      subst df2; rewrite cell_set_num_col_ne in Hx by discriminate; exact Hx.
  - intros name Hup Hl Hsh.
    destruct Hshort as [-> | ->]; [| rewrite cols_loc_set_ne by (apply not_eq_sym, Hsh)];
      (destruct Hlong as [-> | ->];
       [| rewrite cols_loc_set_ne by (apply not_eq_sym, Hl)]);
      subst df2; apply cols_set_num_col_ne, not_eq_sym, Hup.
  - destruct Hshort as [-> | ->], Hlong as [-> | ->]; reflexivity.
  - intros Hwf. destruct (Hlen Hwf) as [Hkl Hks].
    assert (Hwf3 : well_formed df3).
    { destruct Hlong as [-> | ->]; [exact (Hwf2 Hwf) |].
      apply well_formed_loc_set; [exact (Hwf2 Hwf) |].
      unfold ser_not. rewrite length_fmap. exact Hkl. }
    destruct Hshort as [-> | ->]; [exact Hwf3 |].
    apply well_formed_loc_set; [exact Hwf3 |].
    unfold ser_not. rewrite length_fmap.
    destruct Hlong as [-> | ->]; exact Hks.
  - intros Hguard. rewrite (num_col_has_col _ _ _ Hs), (num_col_has_col _ _ _ Hd) in Hguard.
    discriminate Hguard.
Qed.

(** The outcomes of the Hybrid exit pass. *)
Lemma hybrid_exit_cases
    (self : Hybrid.Parameters) (x7 : Strategy.IStrategy)
    (dataframe wrapped df' : DataFrame) (metadata : Metadata) :
  @Strategy.populate_exit_trend x7 dataframe metadata = Some wrapped →
  Hybrid.populate_exit_trend self x7 dataframe metadata = Some df' →
  has_col wrapped "&-s_close" = false ∧ df' = wrapped ∨
  has_col wrapped "&-s_close" = true ∧
  ∃ df1 do_predict ml_upside mask_long mask_short df2,
    (has_col wrapped "ml_upside" = true ∧ df1 = wrapped ∨
     has_col wrapped "ml_upside" = false ∧
     ∃ s_close close,
       num_col wrapped "&-s_close" = Some s_close ∧
       num_col wrapped "close" = Some close ∧
       df1 = set_num_col "ml_upside" (ser_div (ser_sub s_close close) close) wrapped) ∧
    num_col df1 "do_predict" = Some do_predict ∧
    num_col df1 "ml_upside" = Some ml_upside ∧
    mask_long
    = ser_and (ser_eq_c do_predict (F64.lit 1))
        (ser_lt_c ml_upside
           (F64.div (Hybrid.ml_exit_confidence_threshold self) (F64.lit 100))) ∧
    mask_short
    = ser_and (ser_eq_c do_predict (F64.lit 1))
        (ser_gt_c ml_upside
           (F64.div (F64.opp (Hybrid.ml_exit_confidence_threshold self)) (F64.lit 100))) ∧
    (has_col df1 "exit_long" = false ∧ df2 = df1 ∨
     has_col df1 "exit_long" = true ∧
     df2 = loc_set mask_long "exit_tag" (VStr "ml_confidence_lost")
             (loc_set mask_long "exit_long" (VNum (F64.lit 1)) df1)) ∧
    (has_col df1 "exit_short" = false ∧ df' = df2 ∨
     has_col df1 "exit_short" = true ∧
     df' = loc_set mask_short "exit_tag" (VStr "ml_confidence_lost_short")
             (loc_set mask_short "exit_short" (VNum (F64.lit 1)) df2)).
Proof.
  intros Hwrapped. unfold Hybrid.populate_exit_trend.
  rewrite Hwrapped. cbn [mbind option_bind].
  change Hybrid.ml_exit_on_confidence_loss with true.
  change Hybrid.can_short with true. cbn [andb].
  destruct (has_col wrapped "&-s_close") eqn:Hguard.
  2:{ intros [= <-]. left. split; reflexivity. }
  intros Hrun. right. split; [reflexivity |].
  assert (Hstage : ∃ df1,
    (if negb (has_col wrapped "ml_upside")
     then s_close ← num_col wrapped "&-s_close";
          close ← num_col wrapped "close";
          Some (set_num_col "ml_upside" (ser_div (ser_sub s_close close) close) wrapped)
     else Some wrapped) = Some df1 ∧
    (has_col wrapped "ml_upside" = true ∧ df1 = wrapped ∨
     has_col wrapped "ml_upside" = false ∧
     ∃ s_close close,
       num_col wrapped "&-s_close" = Some s_close ∧
       num_col wrapped "close" = Some close ∧
       df1 = set_num_col "ml_upside" (ser_div (ser_sub s_close close) close) wrapped)).
  { destruct (has_col wrapped "ml_upside"); cbn [negb] in *.
    - exists wrapped. split; [reflexivity |]. left. split; reflexivity.
    - destruct (num_col wrapped "&-s_close") as [s_close |]; [| discriminate].
      destruct (num_col wrapped "close") as [close |]; [| discriminate].
      cbn [mbind option_bind]. eexists. split; [reflexivity |].
      right. split; [reflexivity |]. exists s_close, close. auto. }
  destruct Hstage as (df1 & Hrun1 & Hdf1).
  rewrite Hrun1 in Hrun. cbn [mbind option_bind] in Hrun.
  destruct (num_col df1 "do_predict") as [do_predict |] eqn:Hd; [| discriminate].
  destruct (num_col df1 "ml_upside") as [ml_upside |] eqn:Hu; [| discriminate].
  cbn [mbind option_bind] in Hrun.
  exists df1, do_predict, ml_upside. eexists. eexists.
  destruct (has_col df1 "exit_long") eqn:Hl.
  - destruct (loc_set_scalar _ "exit_long" _ df1) as [dl |] eqn:Hsl;
      cbn [mbind option_bind] in Hrun; [| discriminate].
    apply loc_set_scalar_inv in Hsl as [-> _].
    destruct (loc_set_scalar _ "exit_tag" _ _) as [dt |] eqn:Hst in Hrun;
      cbn [mbind option_bind] in Hrun; [| discriminate].
    apply loc_set_scalar_inv in Hst as [-> _].
    revert Hrun. frame_reads. rewrite Hd, Hu. cbn [mbind option_bind].
    destruct (has_col df1 "exit_short") eqn:Hs.
    + destruct (loc_set_scalar _ "exit_short" _ _) as [ds |] eqn:Hss;
        cbn [mbind option_bind]; [| discriminate].
      apply loc_set_scalar_inv in Hss as [-> _].
      intros Hrun. apply loc_set_scalar_inv in Hrun as [-> _].
      eexists; (split; [exact Hdf1 |]); (split; [reflexivity |]);
      (split; [reflexivity |]); (split; [reflexivity |]); (split; [reflexivity |]);
      (split; [right; split; reflexivity |]); right; split; reflexivity.
    + intros [= <-].
      eexists; (split; [exact Hdf1 |]); (split; [reflexivity |]);
      (split; [reflexivity |]); (split; [reflexivity |]); (split; [reflexivity |]);
      (split; [right; split; reflexivity |]); left; split; reflexivity.
  - cbn [mbind option_bind] in Hrun.
    destruct (has_col df1 "exit_short") eqn:Hs.
    + rewrite Hd, Hu in Hrun. cbn [mbind option_bind] in Hrun.
      destruct (loc_set_scalar _ "exit_short" _ _) as [ds |] eqn:Hss in Hrun;
        cbn [mbind option_bind] in Hrun; [| discriminate].
      apply loc_set_scalar_inv in Hss as [-> _].
      apply loc_set_scalar_inv in Hrun as [-> _].
      eexists; (split; [exact Hdf1 |]); (split; [exact Hd |]);
      (split; [exact Hu |]); (split; [reflexivity |]); (split; [reflexivity |]);
      (split; [left; split; reflexivity |]); right; split; reflexivity.
    + injection Hrun as <-.
      eexists; (split; [exact Hdf1 |]); (split; [exact Hd |]);
      (split; [exact Hu |]); (split; [reflexivity |]); (split; [reflexivity |]);
      (split; [left; split; reflexivity |]); left; split; reflexivity.
Qed.

(** A row that is set stays set under [dataframe.loc[mask, name] = 1]. *)
Lemma cell_loc_set_keeps (df : DataFrame) (mask : list bool) (name : string)
    (i : nat) (x : value) :
  well_formed df → length mask = nrows df →
  cell df name i = Some x → is_set x = true →
  ∃ y, cell (loc_set mask name (VNum (F64.lit 1)) df) name i = Some y ∧
       is_set y = true.
Proof.
  intros Hwf Hlen Hx Hset.
  assert (Hi : i < nrows df) by (apply (cell_is_Some df name i Hwf); eauto).
  destruct (lookup_lt_is_Some_2 mask i) as [b Hb]; [lia |].
  eexists. split; [apply (cell_loc_set_eq _ _ _ _ _ _ _ Hb Hx) |].
  destruct b; [reflexivity | exact Hset].
Qed.

(** X6: the two Hybrid passes guard their filter differently.  On a frame
    of the wrapped strategy that holds ["&-s_close"] but no [do_predict]
    column, the entry pass returns the frame as it is, and the exit pass,
    which tests ["&-s_close"] only, raises on reading [do_predict]. *)
Theorem hybrid_passes_without_do_predict
    (self : Hybrid.Parameters) (series_sum : list f64 → f64) (x7 : Strategy.IStrategy)
    (dataframe wrapped : DataFrame) (metadata : Metadata) :
  has_col wrapped "&-s_close" = true →
  has_col wrapped "do_predict" = false →
  (@Strategy.populate_entry_trend x7 dataframe metadata = Some wrapped →
   Hybrid.populate_entry_trend self series_sum x7 dataframe metadata = Some wrapped) ∧
  (@Strategy.populate_exit_trend x7 dataframe metadata = Some wrapped →
   Hybrid.populate_exit_trend self x7 dataframe metadata = None).
Proof.
  intros Hs Hd. split; intros Hwrapped.
  - unfold Hybrid.populate_entry_trend. rewrite Hwrapped. cbn [mbind option_bind].
    rewrite Hs, Hd. reflexivity.
  - destruct (Hybrid.populate_exit_trend self x7 dataframe metadata) as [df' |] eqn:Hrun;
      [| reflexivity].
    destruct (hybrid_exit_cases self x7 dataframe wrapped df' metadata Hwrapped Hrun)
      as [[Hno _] | (_ & df1 & do_predict & ml_upside & ml & ms & df2 & Hdf1 & Hdp & _)].
    + congruence.
    + apply num_col_missing in Hd.
      destruct Hdf1 as [[_ ->] | (_ & s_close & close & _ & _ & ->)];
        revert Hdp; frame_reads; congruence.
Qed.

(** X7: the Hybrid exit pass changes no column but [ml_upside], [exit_long],
    [exit_short] and [exit_tag], keeps the rows, and creates no exit
    column.  An [ml_upside] column that is already there is used as it is,
    not computed again; without a ["&-s_close"] column the frame of the
    wrapped strategy is returned as it is.  On a well-formed frame the
    result is well-formed and no exit is cleared: a row set in [exit_long]
    or [exit_short] by the wrapped strategy stays set. *)
Theorem hybrid_exit_only_forces
    (self : Hybrid.Parameters) (x7 : Strategy.IStrategy)
    (dataframe wrapped df' : DataFrame) (metadata : Metadata) :
  @Strategy.populate_exit_trend x7 dataframe metadata = Some wrapped →
  Hybrid.populate_exit_trend self x7 dataframe metadata = Some df' →
  (∀ name, name ≠ "ml_upside" → name ≠ "exit_long" → name ≠ "exit_short" →
           name ≠ "exit_tag" → cols df' !! name = cols wrapped !! name) ∧
  (has_col wrapped "ml_upside" = true →
   cols df' !! "ml_upside" = cols wrapped !! "ml_upside") ∧
  has_col df' "exit_long" = has_col wrapped "exit_long" ∧
  has_col df' "exit_short" = has_col wrapped "exit_short" ∧
  nrows df' = nrows wrapped ∧
  (has_col wrapped "&-s_close" = false → df' = wrapped) ∧
  (well_formed wrapped →
   well_formed df' ∧
   ∀ name i x, name = "exit_long" ∨ name = "exit_short" →
     cell wrapped name i = Some x → is_set x = true →
     ∃ y, cell df' name i = Some y ∧ is_set y = true).
Proof.
  intros Hwrapped Hrun.
  destruct (hybrid_exit_cases self x7 dataframe wrapped df' metadata Hwrapped Hrun)
    as [[Hno ->] | (Hyes & df1 & do_predict & ml_upside & mask_long & mask_short & df2
                    & Hdf1 & Hdp & Hup & Hml & Hms & Hdf2 & Hdf')].
  { repeat split; eauto. }
  assert (H1 : (∀ name, name ≠ "ml_upside" → cols df1 !! name = cols wrapped !! name) ∧
               (has_col wrapped "ml_upside" = true → df1 = wrapped) ∧
               nrows df1 = nrows wrapped ∧ (well_formed wrapped → well_formed df1)).
  { destruct Hdf1 as [[_ ->] | (Hnone & s_close & close & Hs & Hc & ->)].
    - repeat split; auto.
    - split; [| split; [| split]].
      + intros name Hne. apply cols_set_num_col_ne, not_eq_sym, Hne.
      + congruence.
      + reflexivity.
      + intros Hwf. apply well_formed_set_num_col; [exact Hwf |]. lengths.
        rewrite (well_formed_num_col _ _ _ Hwf Hs), (well_formed_num_col _ _ _ Hwf Hc).
        lia. }
  destruct H1 as (Hcols1 & Hsame1 & Hrows1 & Hwf1).
  assert (Hlen : well_formed wrapped →
                 length mask_long = nrows df1 ∧ length mask_short = nrows df1).
  { intros Hwf. specialize (Hwf1 Hwf). subst mask_long mask_short. lengths.
    rewrite (well_formed_num_col _ _ _ Hwf1 Hdp), (well_formed_num_col _ _ _ Hwf1 Hup).
    lia. }
  assert (Hhas : ∀ name, name ≠ "ml_upside" → has_col df1 name = has_col wrapped name).
  { intros name Hne. unfold has_col. rewrite Hcols1 by exact Hne. reflexivity. }
  split; [| split; [| split; [| split; [| split; [| split]]]]].
  - intros name Hu Hl Hs Ht. rewrite <- (Hcols1 name Hu).
    destruct Hdf' as [[_ ->] | [_ ->]], Hdf2 as [[_ ->] | [_ ->]];
      rewrite ?cols_loc_set_ne by (apply not_eq_sym; assumption); reflexivity.
  - intros Hthere. rewrite <- (Hsame1 Hthere).
    destruct Hdf' as [[_ ->] | [_ ->]], Hdf2 as [[_ ->] | [_ ->]];
      frame_reads; reflexivity.
  - rewrite <- (Hhas "exit_long") by discriminate.
    destruct Hdf' as [[_ ->] | [_ ->]], Hdf2 as [[Hl ->] | [Hl ->]]; frame_reads;
      rewrite ?Hl; try reflexivity; unfold loc_set; apply has_col_set_col_eq.
  - rewrite <- (Hhas "exit_short") by discriminate.
    destruct Hdf' as [[Hs ->] | [Hs ->]], Hdf2 as [[_ ->] | [_ ->]]; frame_reads;
      rewrite ?Hs; try reflexivity; unfold loc_set; apply has_col_set_col_eq.
  - rewrite <- Hrows1.
    destruct Hdf' as [[_ ->] | [_ ->]], Hdf2 as [[_ ->] | [_ ->]]; reflexivity.
  - congruence.
  - intros Hwf. destruct (Hlen Hwf) as [Hll Hls]. specialize (Hwf1 Hwf).
    assert (Hwf2 : well_formed df2 ∧ nrows df2 = nrows df1).
    { destruct Hdf2 as [[_ ->] | [_ ->]]; [auto |].
      split; [| reflexivity].
      apply well_formed_loc_set; [apply well_formed_loc_set; assumption | exact Hll]. }
    destruct Hwf2 as [Hwf2 Hrows2]. split.
    { destruct Hdf' as [[_ ->] | [_ ->]]; [exact Hwf2 |].
      apply well_formed_loc_set; [apply well_formed_loc_set |]; try assumption;
        rewrite ?nrows_loc_set; congruence. }
    intros name i x Hname Hx Hset.
    assert (Hx1 : cell df1 name i = Some x).
    { unfold cell in *. rewrite Hcols1, Hrows1; [exact Hx |].
      destruct Hname as [-> | ->]; discriminate. }
    assert (Hx2 : ∃ y, cell df2 name i = Some y ∧ is_set y = true).
    { destruct Hdf2 as [[_ ->] | [_ ->]]; [eauto |].
      destruct Hname as [-> | ->]; frame_reads; [| eauto].
      apply (cell_loc_set_keeps _ _ _ _ x); assumption. }
    destruct Hx2 as (y & Hy & Hysets).
    destruct Hdf' as [[_ ->] | [_ ->]]; [eauto |].
    destruct Hname as [-> | ->]; frame_reads; [eauto |].
    apply (cell_loc_set_keeps _ _ _ _ y); try assumption; congruence.
Qed.

(** ** The trade guard on undefined prices *)

(** The order of binary64 is transitive. *)
Lemma lt_trans (x y z : f64) :
  F64.lt x y = true → F64.lt y z = true → F64.lt x z = true.
Proof.
  unfold F64.lt, SFltb.
  destruct x as [sx | sx | | sx mx ex], y as [sy | sy | | sy my ey],
    z as [sz | sz | | sz mz ez]; cbn [SFcompare];
    try discriminate; try reflexivity;
    destruct sx, sy, sz; try discriminate; try reflexivity.
  all: change (PosDef.Pos.compare_cont Eq mx my) with (mx ?= my)%positive;
    change (PosDef.Pos.compare_cont Eq my mz) with (my ?= mz)%positive;
    change (PosDef.Pos.compare_cont Eq mx mz) with (mx ?= mz)%positive;
    destruct (Z.compare_spec ex ey), (Z.compare_spec ey ez), (Z.compare_spec ex ez);
    try lia; try discriminate; try reflexivity;
    destruct (Pos.compare_spec mx my), (Pos.compare_spec my mz),
      (Pos.compare_spec mx mz);
    cbn [CompOpp]; try discriminate; try reflexivity; lia.
Qed.

Lemma last_candle_missing (dataframe : DataFrame) (name : string) :
  has_col dataframe name = false → last_candle dataframe name = None.
Proof.
  intros Hno. apply has_col_false in Hno. unfold last_candle. rewrite Hno.
  destruct (decide _); reflexivity.
Qed.

(** X8: the slippage check fails open on an undefined price.  With at
    least one analysed candle, in a frame of two or more columns, an entry
    on either side is confirmed when the last close or the rate is NaN,
    since no comparison with NaN holds; and the guard raises when the frame
    has no [close] column. *)
Theorem confirm_trade_entry_undefined_price
    (dp : string → DataFrame) (pair order_type time_in_force : string)
    (amount rate : f64) (current_time : Z) (entry_tag : option string)
    (side : string) :
  1 ≤ nrows (dp pair) →
  (has_col (dp pair) "close" = false →
   FreqAI.confirm_trade_entry dp pair order_type amount rate time_in_force
     current_time entry_tag side = None) ∧
  (∀ c, last_candle (dp pair) "close" = Some c →
     F64.is_nan c || F64.is_nan rate = true →
     FreqAI.confirm_trade_entry dp pair order_type amount rate time_in_force
       current_time entry_tag side = Some true).
Proof.
  intros Hn. split.
  - intros Hno. unfold FreqAI.confirm_trade_entry.
    destruct (decide (nrows (dp pair) < 1)) as [Hlt | _]; [lia |].
    rewrite (last_candle_missing _ _ Hno). reflexivity.
  - intros c Hc Hnan.
    rewrite (confirm_trade_entry_last_close _ _ _ _ _ _ _ _ _ c Hn Hc).
    f_equal. unfold F64.gt, F64.lt, SFltb.
    destruct c; cbn [F64.is_nan orb] in Hnan.
    4: destruct rate; try discriminate Hnan.
    1-3: destruct rate; try discriminate Hnan.
    all: destruct (decide (side = "long")); cbn [negb];
      try reflexivity;
      match goal with
      | |- context [SFcompare ?a S754_nan] => destruct a; reflexivity
      | |- context [SFcompare S754_nan ?a] => destruct a; reflexivity
      | _ => idtac
      end.
Qed.

Lemma confirm_trade_entry_undefined_price_witness :
  FreqAI.confirm_trade_entry (λ _, Cases.undefined_close) "BTC/USDT:USDT" "limit"
    (F64.lit 1) (F64.lit 1000000) "GTC" 0 None "long" = Some true.
Proof.
  refine (proj2 (confirm_trade_entry_undefined_price (λ _, Cases.undefined_close)
                   _ _ _ _ _ _ _ _ _) F64.nan _ _).
  - vm_compute. lia.
  - by_eval.
  - by_eval.
Defined.

(** X9: the slippage check is monotone in the rate.  Against the same last
    candle, a long entry confirmed at a rate is confirmed at every lower
    rate, and an entry on the other side confirmed at a rate is confirmed
    at every higher rate. *)
Theorem confirm_trade_entry_monotone
    (dp : string → DataFrame) (pair order_type time_in_force : string)
    (amount lower higher : f64) (current_time : Z) (entry_tag : option string)
    (c : f64) :
  1 ≤ nrows (dp pair) →
  last_candle (dp pair) "close" = Some c →
  F64.lt lower higher = true →
  (FreqAI.confirm_trade_entry dp pair order_type amount higher time_in_force
     current_time entry_tag "long" = Some true →
   FreqAI.confirm_trade_entry dp pair order_type amount lower time_in_force
     current_time entry_tag "long" = Some true) ∧
  (∀ side, side ≠ "long" →
   FreqAI.confirm_trade_entry dp pair order_type amount lower time_in_force
     current_time entry_tag side = Some true →
   FreqAI.confirm_trade_entry dp pair order_type amount higher time_in_force
     current_time entry_tag side = Some true).
Proof.
  intros Hn Hc Hlt. split.
  - rewrite !(confirm_trade_entry_last_close _ _ _ _ _ _ _ _ _ c Hn Hc).
    destruct (decide ("long" = "long")) as [_ | Hne]; [| contradiction].
    intros Hhigh. f_equal.
    destruct (F64.gt lower (F64.mul c (F64.lit 1.0025))) eqn:Hlow; [| reflexivity].
    assert (Habove : F64.gt higher (F64.mul c (F64.lit 1.0025)) = true)
      by exact (lt_trans _ _ _ Hlow Hlt).
    rewrite Habove in Hhigh. discriminate Hhigh.
  - intros side Hside.
    rewrite !(confirm_trade_entry_last_close _ _ _ _ _ _ _ _ _ c Hn Hc).
    destruct (decide (side = "long")); [contradiction |].
    intros Hlow. f_equal.
    destruct (F64.lt higher (F64.mul c (F64.lit 0.9975))) eqn:Hhigh; [| reflexivity].
    rewrite (lt_trans _ _ _ Hlt Hhigh) in Hlow. discriminate Hlow.
Qed.

Lemma confirm_trade_entry_monotone_witness :
  FreqAI.confirm_trade_entry (λ _, Frames.traded_candle) "BTC/USDT:USDT" "limit"
    (F64.lit 1) (F64.lit 90) "GTC" 0 None "long" = Some true.
Proof.
  apply (proj1 (confirm_trade_entry_monotone (λ _, Frames.traded_candle) "BTC/USDT:USDT"
                  "limit" "GTC" (F64.lit 1) (F64.lit 90) (F64.lit 100) 0 None
                  (F64.lit 100) ltac:(vm_compute; lia) eq_refl eq_refl)).
  by_eval.
Defined.

(** X10: [custom_exit] on undefined inputs.  With at least one analysed
    candle it raises when the frame has no [do_predict] column; on a frame
    of two or more columns a last [do_predict] that is NaN counts as lost
    confidence; with [do_predict = 1], an undefined profit gives no
    override, a missing ["&-s_close"] column raises once the profit is
    above 0.02, and a prediction that is NaN or zero gives no override. *)
Theorem custom_exit_undefined_inputs
    (dp : string → DataFrame) (pair : string) (trade : FreqAI.Trade)
    (current_time : Z) (current_rate current_profit : f64) :
  1 ≤ nrows (dp pair) →
  (has_col (dp pair) "do_predict" = false →
   FreqAI.custom_exit dp pair trade current_time current_rate current_profit = None) ∧
  (∀ d, last_candle (dp pair) "do_predict" = Some d →
     (F64.is_nan d = true →
      FreqAI.custom_exit dp pair trade current_time current_rate current_profit
      = Some (Some "ml_confidence_lost")) ∧
     (F64.eq d (F64.lit 1) = true → F64.is_nan current_profit = true →
      FreqAI.custom_exit dp pair trade current_time current_rate current_profit
      = Some None) ∧
     (F64.eq d (F64.lit 1) = true → F64.gt current_profit (F64.lit 0.02) = true →
      has_col (dp pair) "&-s_close" = false →
      FreqAI.custom_exit dp pair trade current_time current_rate current_profit = None) ∧
     (F64.eq d (F64.lit 1) = true →
      ∀ p, last_candle (dp pair) "&-s_close" = Some p →
        F64.is_nan p || F64.is_zero p = true →
        FreqAI.custom_exit dp pair trade current_time current_rate current_profit
        = Some None)).
Proof.
  intros Hn. unfold FreqAI.custom_exit.
  destruct (decide (nrows (dp pair) < 1)) as [Hlt | _]; [lia |]. split.
  - intros Hno. rewrite (last_candle_missing _ _ Hno). reflexivity.
  - intros d ->. cbn [mbind option_bind]. unfold F64.ne, F64.eq.
    split; [| split; [| split]].
    + intros Hnan. destruct d; try discriminate Hnan. reflexivity.
    + intros -> Hnan. cbn [negb].
      destruct current_profit; try discriminate Hnan. reflexivity.
    + intros -> -> Hno. cbn [negb].
      rewrite (last_candle_missing _ _ Hno). reflexivity.
    + intros -> p -> Hp. cbn [negb mbind option_bind].
      destruct (F64.gt current_profit (F64.lit 0.02)); [| reflexivity].
      destruct p as [s | s | | s m e]; try discriminate Hp;
        destruct (FreqAI.is_short trade); try reflexivity; destruct s; reflexivity.
Qed.

Lemma custom_exit_undefined_inputs_witness :
  FreqAI.custom_exit (λ _, Frames.traded_candle) "BTC/USDT:USDT"
    {| FreqAI.is_short := false |} 0 (F64.lit 100) (F64.lit 0.03) = None.
Proof.
  apply (custom_exit_undefined_inputs (λ _, Frames.traded_candle)).
  - vm_compute. lia.
  - by_eval.
Defined.

(** ** Targets on a short history *)

Lemma ratio_of_undefined (close : list f64) (c : f64) :
  ser_sub_c (ser_div (replicate (length close) F64.nan) close) c
  = replicate (length close) F64.nan.
Proof.
  unfold ser_sub_c, ser_div. induction close as [| x close IH]; [reflexivity |].
  cbn [length replicate zip_with fmap list_fmap]. f_equal. exact IH.
Qed.

(** X11: on a short history the target column holds no label.  With fewer
    than [2 * H] candles the primary strategy writes NaN on every row of
    ["&-s_close"], and the Hybrid strategy does so with fewer than 29
    candles; both raise without a [close] column. *)
Theorem targets_short_history
    (rolling_mean : nat → list f64 → list f64) (H : nat) (df : DataFrame) :
  min_periods rolling_mean →
  (has_col df "close" = false →
   FreqAI.set_freqai_targets rolling_mean {| FreqAI.label_period_candles := H |} df
   = None ∧
   Hybrid.set_freqai_targets rolling_mean df = None) ∧
  (∀ close, num_col df "close" = Some close →
     (length close < 2 * H →
      ∃ df',
        FreqAI.set_freqai_targets rolling_mean {| FreqAI.label_period_candles := H |} df
        = Some df' ∧
        num_col df' "&-s_close" = Some (replicate (length close) F64.nan)) ∧
     (length close < 29 →
      ∃ df',
        Hybrid.set_freqai_targets rolling_mean df = Some df' ∧
        num_col df' "&-s_close" = Some (replicate (length close) F64.nan))).
Proof.
  intros Hmin.
  unfold FreqAI.set_freqai_targets, Hybrid.set_freqai_targets.
  cbn [FreqAI.label_period_candles]. split.
  - intros Hno. rewrite (num_col_missing _ _ Hno). split; reflexivity.
  - intros close ->. cbn [mbind option_bind]. split; intros Hshort.
    + eexists. split; [reflexivity |]. rewrite num_col_set_num_col_eq. f_equal.
      rewrite (rolling_shift_short rolling_mean Hmin) by lia.
      apply ratio_of_undefined.
    + eexists. split; [reflexivity |]. rewrite num_col_set_num_col_eq. f_equal.
      apply (rolling_shift_short rolling_mean Hmin); lia.
Qed.

Lemma targets_short_history_witness :
  ∃ df',
    FreqAI.set_freqai_targets (windowed mean) {| FreqAI.label_period_candles := 3 |}
      Frames.five_closes = Some df' ∧
    num_col df' "&-s_close" = Some (replicate 5 F64.nan).
Proof.
  refine (proj1 (proj2 (targets_short_history (windowed mean) 3 Frames.five_closes
                          (windowed_min_periods mean))
                   (F64.lit <$> [1; 2; 3; 4; 5]%float) _) _).
  - by_eval.
  - cbn. lia.
Defined.

(** ** The general theorems on concrete frames *)

Lemma well_formed_frame (n : nat) (columns : list (string * Series)) :
  Forall (λ column, length column.2 = n) columns →
  well_formed (Frames.frame n columns).
Proof.
  intros Hall name s Hs. cbn [Frames.frame cols nrows] in *.
  apply elem_of_list_to_map_2 in Hs.
  rewrite Forall_forall in Hall. exact (Hall (name, s) Hs).
Qed.

Ltac frame_well_formed := apply well_formed_frame; repeat constructor.

Lemma primary_passes_frame_witness :
  ∃ df',
    FreqAI.populate_entry_trend Frames.uptrend Frames.btc = Some df' ∧
    well_formed df' ∧ nrows df' = 3.
Proof.
  destruct (FreqAI.populate_entry_trend Frames.uptrend Frames.btc) as [df' |] eqn:Hrun;
    [| vm_compute in Hrun; discriminate Hrun].
  exists df'. split; [reflexivity |].
  destruct (primary_passes_frame Frames.uptrend df' Frames.btc) as [Hentry _].
  - unfold Frames.uptrend. frame_well_formed.
  - destruct (Hentry Hrun) as (Hwf & Hn & _). split; [exact Hwf | exact Hn].
Defined.

Lemma primary_exit_rules_witness :
  ∃ df',
    FreqAI.populate_exit_trend Frames.uptrend Frames.btc = Some df' ∧
    cell df' "exit_short" 0 = Some (VNum (F64.lit 1)) ∧
    cell df' "exit_long" 0 = Some (VNum F64.nan).
Proof.
  edestruct (primary_exit_rules Frames.uptrend Frames.btc) as (df' & Hrun & Hrows);
    [by_eval | by_eval | by_eval | left; vm_compute; lia |].
  exists df'. split; [exact Hrun |].
  edestruct (Hrows 0) as (Hlong & Hshort & _); [by_eval .. |].
  split; [rewrite Hshort | rewrite Hlong]; by_eval.
Defined.

Lemma primary_entry_undefined_inputs_witness :
  ∃ df',
    FreqAI.populate_entry_trend Cases.undefined_volume Frames.btc = Some df' ∧
    cell df' "enter_long" 1 = Some (VNum F64.nan).
Proof.
  edestruct (primary_entry_undefined_inputs Cases.undefined_volume Frames.btc)
    as (df' & Hrun & Hrows); [by_eval .. |].
  exists df'. split; [exact Hrun |].
  edestruct (Hrows 1) as [Hlong _]; [by_eval .. |].
  apply Hlong. by_eval.
Defined.

Lemma hybrid_entry_only_filters_witness :
  ∃ df',
    Hybrid.populate_entry_trend Hybrid.default_parameters ser_sum
      (Frames.returns Frames.ten_marked Frames.ten_marked) Frames.ten_marked Frames.btc
    = Some df' ∧
    nrows df' = 10 ∧ well_formed df'.
Proof.
  destruct (Hybrid.populate_entry_trend Hybrid.default_parameters ser_sum
              (Frames.returns Frames.ten_marked Frames.ten_marked) Frames.ten_marked Frames.btc)
    as [df' |] eqn:Hrun; [| vm_compute in Hrun; discriminate Hrun].
  exists df'. split; [reflexivity |].
  destruct (hybrid_entry_only_filters Hybrid.default_parameters ser_sum
              (Frames.returns Frames.ten_marked Frames.ten_marked)
              Frames.ten_marked Frames.ten_marked df' Frames.btc eq_refl Hrun)
    as (_ & _ & _ & Hn & Hwf & _).
  split; [exact Hn |]. apply Hwf. unfold Frames.ten_marked. frame_well_formed.
Defined.

Lemma hybrid_passes_without_do_predict_witness :
  Hybrid.populate_entry_trend Hybrid.default_parameters ser_sum
    (Frames.returns Cases.prediction_only Cases.prediction_only)
    Cases.prediction_only Frames.btc = Some Cases.prediction_only ∧
  Hybrid.populate_exit_trend Hybrid.default_parameters
    (Frames.returns Cases.prediction_only Cases.prediction_only)
    Cases.prediction_only Frames.btc = None.
Proof.
  destruct (hybrid_passes_without_do_predict Hybrid.default_parameters ser_sum
              (Frames.returns Cases.prediction_only Cases.prediction_only)
              Cases.prediction_only Cases.prediction_only Frames.btc) as [Hentry Hexit];
    [by_eval | by_eval |].
  split; [apply Hentry | apply Hexit]; reflexivity.
Defined.

Lemma hybrid_exit_only_forces_witness :
  ∃ df',
    Hybrid.populate_exit_trend Hybrid.default_parameters
      (Frames.returns Frames.flat_prediction Frames.flat_prediction)
      Frames.flat_prediction Frames.btc = Some df' ∧
    nrows df' = 1 ∧ well_formed df' ∧
    cols df' !! "close" = cols Frames.flat_prediction !! "close".
Proof.
  destruct (Hybrid.populate_exit_trend Hybrid.default_parameters
              (Frames.returns Frames.flat_prediction Frames.flat_prediction)
              Frames.flat_prediction Frames.btc)
    as [df' |] eqn:Hrun; [| vm_compute in Hrun; discriminate Hrun].
  exists df'. split; [reflexivity |].
  destruct (hybrid_exit_only_forces Hybrid.default_parameters
              (Frames.returns Frames.flat_prediction Frames.flat_prediction)
              Frames.flat_prediction Frames.flat_prediction df' Frames.btc eq_refl Hrun)
    as (Hcols & _ & _ & _ & Hn & _ & Hwf).
  split; [exact Hn |]. split.
  - apply Hwf. unfold Frames.flat_prediction. frame_well_formed.
  - apply Hcols; discriminate.
Defined.

(** ** The indicator pass and the stand-in model *)

(** A cell read after [dataframe.loc[mask, name] = v]: the row is under the
    mask, and holds [v] or what it held. *)
Lemma cell_loc_set_inv (df : DataFrame) (mask : list bool) (name : string)
    (v x : value) (i : nat) :
  cell (loc_set mask name v df) name i = Some x →
  ∃ b : bool, mask !! i = Some b ∧
    if b then x = v else cell df name i = Some x ∨ x = VNum F64.nan.
Proof.
  unfold cell at 1, loc_set. rewrite cols_set_col_eq.
  intros Hx. apply lookup_zip_with_Some in Hx as (b & o & -> & Hb & Ho).
  exists b. split; [exact Hb |]. destruct b; [reflexivity |].
  unfold cell. destruct (cols df !! name) as [s |]; cbn [default from_option id] in Ho.
  - left. exact Ho.
  - right. apply lookup_replicate_1 in Ho as [-> _]. reflexivity.
Qed.

(** Rows of a mask, read backwards. *)
Ltac rows_inv :=
  repeat match goal with
    | H : ser_and _ _ !! _ = Some _ |- _ =>
        apply lookup_zip_with_Some in H as (? & ? & -> & ? & ?)
    | H : ser_or _ _ !! _ = Some _ |- _ =>
        apply lookup_zip_with_Some in H as (? & ? & -> & ? & ?)
    | H : ser_gt_c _ _ !! _ = Some _ |- _ =>
        apply list_lookup_fmap_Some in H as (? & -> & ?)
    | H : ser_lt_c _ _ !! _ = Some _ |- _ =>
        apply list_lookup_fmap_Some in H as (? & -> & ?)
    | H : ser_eq_c _ _ !! _ = Some _ |- _ =>
        apply list_lookup_fmap_Some in H as (? & -> & ?)
    | H : replicate _ _ !! _ = Some _ |- _ =>
        apply lookup_replicate_1 in H as [-> ?]
    end.

Lemma num_col_written (d : DataFrame) (name other : string) (l : list f64) :
  name = other ∨ is_Some (num_col d other) →
  is_Some (num_col (set_num_col name l d) other).
Proof.
  intros [-> | Hthere].
  - rewrite num_col_set_num_col_eq. eauto.
  - destruct (decide (name = other)) as [-> | Hne].
    + rewrite num_col_set_num_col_eq. eauto.
    + rewrite num_col_set_num_col_ne by exact Hne. exact Hthere.
Qed.

(** A column read at the head of a chain of writes. *)
Ltac read_head :=
  repeat first
    [ apply num_col_set_num_col_eq
    | etransitivity; [apply num_col_set_num_col_ne; discriminate |] ].

(** What the indicator pass hands to the FreqAI model: the frame it was
    given with fourteen columns written. *)
Lemma populate_indicators_written
    (ta : Indicators) (rolling_mean : nat → list f64 → list f64)
    (freqai_start : DataFrame → Metadata → option DataFrame)
    (df df' : DataFrame) (metadata : Metadata) :
  FreqAIIndicators.populate_indicators ta rolling_mean freqai_start df metadata
  = Some df' →
  ∃ rsi14 rsi3 mfi adx e12 e26 e50 e100 e200 lower mid upper volume,
    ta_RSI ta df 14 = Some rsi14 ∧
    num_col df "volume" = Some volume ∧
    freqai_start
      (writes
         [("volume_mean_20", rolling_mean 20 volume);
          ("bb_width", ser_div (ser_sub upper lower) mid);
          ("bb_upper", upper);
          ("bb_mid", mid);
          ("bb_lower", lower);
          ("EMA_200", e200);
          ("EMA_100", e100);
          ("EMA_50", e50);
          ("EMA_26", e26);
          ("EMA_12", e12);
          ("ADX_14", adx);
          ("MFI_14", mfi);
          ("RSI_3", rsi3);
          ("RSI_14", rsi14)] df) metadata = Some df'.
Proof.
  unfold FreqAIIndicators.populate_indicators. cbn [foldl].
  change ("EMA_" +:+ pretty 12) with "EMA_12".
  change ("EMA_" +:+ pretty 26) with "EMA_26".
  change ("EMA_" +:+ pretty 50) with "EMA_50".
  change ("EMA_" +:+ pretty 100) with "EMA_100".
  change ("EMA_" +:+ pretty 200) with "EMA_200".
  destruct (ta_RSI ta df 14) as [rsi14 |]; cbn [mbind option_bind]; [| discriminate].
  destruct (ta_RSI ta _ 3) as [rsi3 |]; cbn [mbind option_bind]; [| discriminate].
  destruct (ta_MFI ta _ 14) as [mfi |]; cbn [mbind option_bind]; [| discriminate].
  destruct (ta_ADX ta _ 14) as [adx |]; cbn [mbind option_bind]; [| discriminate].
  destruct (ta_EMA ta _ 12) as [e12 |]; cbn [mbind option_bind]; [| discriminate].
  destruct (ta_EMA ta _ 26) as [e26 |]; cbn [mbind option_bind]; [| discriminate].
  destruct (ta_EMA ta _ 50) as [e50 |]; cbn [mbind option_bind]; [| discriminate].
  destruct (ta_EMA ta _ 100) as [e100 |]; cbn [mbind option_bind]; [| discriminate].
  destruct (ta_EMA ta _ 200) as [e200 |]; cbn [mbind option_bind]; [| discriminate].
  destruct (typical_price ta _) as [price |]; cbn [mbind option_bind]; [| discriminate].
  destruct (bollinger_bands ta price 20 (F64.lit 2)) as [[[lower mid] upper] |];
    cbn [mbind option_bind]; [| discriminate].
  rewrite num_col_set_num_col_eq. cbn [mbind option_bind].
  rewrite (num_col_set_num_col_ne _ "bb_upper" "bb_lower") by discriminate.
  rewrite (num_col_set_num_col_ne _ "bb_mid" "bb_lower") by discriminate.
  rewrite num_col_set_num_col_eq. cbn [mbind option_bind].
  rewrite (num_col_set_num_col_ne _ "bb_upper" "bb_mid") by discriminate.
  rewrite num_col_set_num_col_eq. cbn [mbind option_bind].
  match goal with
  | |- (num_col ?d "volume" ≫= _) = _ → _ =>
      replace (num_col d "volume") with (num_col df "volume")
        by (symmetry; read_head; reflexivity)
  end.
  destruct (num_col df "volume") as [volume |]; cbn [mbind option_bind];
    [| discriminate].
  intros Hstart.
  exists rsi14, rsi3, mfi, adx, e12, e26, e50, e100, e200, lower, mid, upper, volume.
  split; [reflexivity |]. split; [reflexivity |]. exact Hstart.
Qed.

Ltac listed :=
  solve [repeat first [apply list_elem_of_here | apply list_elem_of_further]].

Ltac other_column :=
  rewrite !not_elem_of_cons; repeat split; try discriminate; apply not_elem_of_nil.

Lemma num_col_writes (columns : list (string * list f64)) (d : DataFrame)
    (name : string) :
  num_col (writes columns d) name
  = match (list_to_map columns : gmap string (list f64)) !! name with
    | Some l => Some l
    | None => num_col d name
    end.
Proof.
  unfold num_col. rewrite cols_writes.
  destruct (list_to_map columns !! name) as [l |]; [| reflexivity].
  cbn [mbind option_bind]. apply mapM_as_num_fmap.
Qed.

(** X12: the indicator pass of the primary strategy raises without a
    [volume] column, whatever the indicator library returns; when it
    returns, its result is what the FreqAI model returns for a frame with
    the same rows in which fourteen indicator columns have been written,
    [bb_width] being the upper band minus the lower band over the middle
    band of that frame and [volume_mean_20] the rolling mean of the
    volume, and in which every other column, the candles and any decision
    column among them, is as it was. *)
Theorem populate_indicators_hands_over
    (ta : Indicators) (rolling_mean : nat → list f64 → list f64)
    (freqai_start : DataFrame → Metadata → option DataFrame)
    (df : DataFrame) (metadata : Metadata) :
  (has_col df "volume" = false →
   FreqAIIndicators.populate_indicators ta rolling_mean freqai_start df metadata
   = None) ∧
  (∀ df',
   FreqAIIndicators.populate_indicators ta rolling_mean freqai_start df metadata
   = Some df' →
   ∃ df1 lower mid upper volume,
     freqai_start df1 metadata = Some df' ∧
     nrows df1 = nrows df ∧
     num_col df "volume" = Some volume ∧
     num_col df1 "bb_lower" = Some lower ∧
     num_col df1 "bb_mid" = Some mid ∧
     num_col df1 "bb_upper" = Some upper ∧
     num_col df1 "bb_width" = Some (ser_div (ser_sub upper lower) mid) ∧
     num_col df1 "volume_mean_20" = Some (rolling_mean 20 volume) ∧
     (∀ name,
        name ∈ ["RSI_14"; "RSI_3"; "MFI_14"; "ADX_14"; "EMA_12"; "EMA_26"; "EMA_50";
                "EMA_100"; "EMA_200"] → is_Some (num_col df1 name)) ∧
     ∀ name,
       name ∉ ["RSI_14"; "RSI_3"; "MFI_14"; "ADX_14"; "EMA_12"; "EMA_26"; "EMA_50";
               "EMA_100"; "EMA_200"; "bb_lower"; "bb_mid"; "bb_upper"; "bb_width";
               "volume_mean_20"] →
       cols df1 !! name = cols df !! name).
Proof.
  split.
  - intros Hno.
    destruct (FreqAIIndicators.populate_indicators ta rolling_mean freqai_start df
                metadata) as [df' |] eqn:Hrun; [| reflexivity].
    apply populate_indicators_written in Hrun
      as (rsi14 & rsi3 & mfi & adx & e12 & e26 & e50 & e100 & e200 & lower & mid
          & upper & volume & _ & Hvolume & _).
    rewrite (num_col_missing _ _ Hno) in Hvolume. discriminate Hvolume.
  - intros df' Hrun.
    apply populate_indicators_written in Hrun
      as (rsi14 & rsi3 & mfi & adx & e12 & e26 & e50 & e100 & e200 & lower & mid
          & upper & volume & _ & Hvolume & Hstart).
    eexists. exists lower, mid, upper, volume.
    split; [exact Hstart |]. split; [apply nrows_writes |].
    split; [exact Hvolume |].
    do 5 (split; [rewrite num_col_writes; reflexivity |]). split.
    + intros name Hin. rewrite num_col_writes.
      repeat (apply elem_of_cons in Hin as [-> | Hin]);
        [.. | apply elem_of_nil in Hin; contradiction]; eexists; reflexivity.
    + intros name Hname. rewrite !not_elem_of_cons in Hname.
      cbn [writes foldr fst snd].
      rewrite !cols_set_num_col_ne by (apply not_eq_sym; tauto). reflexivity.
Qed.

Lemma populate_indicators_hands_over_witness :
  FreqAIIndicators.populate_indicators (Frames.undefined_indicators 2) (windowed mean)
    MockFreqAI.start Frames.two_candles_no_volume Frames.btc = None ∧
  ∃ df' df1,
    FreqAIIndicators.populate_indicators (Frames.undefined_indicators 2) (windowed mean)
      MockFreqAI.start Frames.two_candles Frames.btc = Some df' ∧
    MockFreqAI.start df1 Frames.btc = Some df' ∧
    num_col df1 "volume_mean_20" = Some [F64.nan; F64.nan].
Proof.
  split.
  - apply (proj1 (populate_indicators_hands_over (Frames.undefined_indicators 2) (windowed mean)
                    MockFreqAI.start Frames.two_candles_no_volume Frames.btc)).
    by_eval.
  - destruct (FreqAIIndicators.populate_indicators (Frames.undefined_indicators 2)
                (windowed mean) MockFreqAI.start Frames.two_candles Frames.btc)
      as [df' |] eqn:Hrun; [| vm_compute in Hrun; discriminate Hrun].
    destruct (proj2 (populate_indicators_hands_over (Frames.undefined_indicators 2)
                       (windowed mean) MockFreqAI.start Frames.two_candles Frames.btc)
                df' Hrun)
      as (df1 & lower & mid & upper & volume & Hstart & _ & Hvolume & _ & _ & _ & _
          & Hmean & _).
    exists df', df1. split; [reflexivity |]. split; [exact Hstart |].
    rewrite Hmean. vm_compute in Hvolume. injection Hvolume as <-. by_eval.
Defined.

(** ** The run of the test script *)

Lemma num_col_cols (df df' : DataFrame) (name : string) :
  cols df' !! name = cols df !! name → num_col df' name = num_col df name.
Proof. intros H. unfold num_col. rewrite H. reflexivity. Qed.

Lemma cell_cols_eq (df df' : DataFrame) (name : string) (i : nat) :
  cols df' !! name = cols df !! name → nrows df' = nrows df →
  cell df' name i = cell df name i.
Proof. intros Hc Hn. unfold cell. rewrite Hc, Hn. reflexivity. Qed.

Lemma bind_Some {A B} (x : A) (f : A → option B) : Some x ≫= f = f x.
Proof. reflexivity. Qed.

Lemma bind_bind_ret {A B} (m : option A) (f : A → option B) :
  (x ← m; y ← f x; Some y) = (x ← m; f x).
Proof. destruct m as [x |]; cbn; [destruct (f x) |]; reflexivity. Qed.

(** A number written under a mask into a column that did not exist. *)
Lemma num_col_loc_set_new (df : DataFrame) (mask : list bool) (name : string)
    (x : f64) :
  has_col df name = false →
  num_col (loc_set mask name (VNum x) df) name
  = Some (zip_with (λ (b : bool) o, if b then x else o) mask
            (replicate (length mask) F64.nan)).
Proof.
  intros Hno. apply has_col_false in Hno. unfold num_col, loc_set.
  rewrite cols_set_col_eq, Hno. cbn [default from_option id mbind option_bind].
  replace (replicate (length mask) (VNum F64.nan))
    with (VNum <$> replicate (length mask) F64.nan) by apply fmap_replicate.
  rewrite zip_with_mask_fmap. apply mapM_as_num_fmap.
Qed.

(** The frames of the run with the stand-in model: the entry mask is
    false on every row, and the exit masks follow [RSI_14]. *)
Lemma mock_run_frames
    (ta : Indicators) (rolling_mean : nat → list f64 → list f64)
    (df df1 : DataFrame) (metadata : Metadata) :
  FreqAIIndicators.populate_indicators ta rolling_mean MockFreqAI.start df metadata
  = Some df1 →
  ∃ rsi14 mask mask_long mask_short,
    let entered :=
      loc_set mask "enter_tag" (VStr "ml_long")
        (loc_set mask "enter_long" (VNum (F64.lit 1)) df1) in
    ta_RSI ta df 14 = Some rsi14 ∧
    FreqAI.populate_entry_trend df1 metadata = Some entered ∧
    FreqAI.populate_exit_trend entered metadata
    = (dataframe ← loc_set_scalar mask_long "exit_long" (VNum (F64.lit 1)) entered;
       loc_set_scalar mask_short "exit_short" (VNum (F64.lit 1)) dataframe) ∧
    nrows df1 = nrows df ∧
    (∀ name, name ∈ ["enter_long"; "enter_short"; "exit_long"; "exit_short"] →
             cols df1 !! name = cols df !! name) ∧
    (∀ name, name ∈ TestScript.required_indicators → has_col df1 name = true) ∧
    (∀ i b, mask !! i = Some b → b = false) ∧
    (∀ i b, mask_long !! i = Some b → b = true →
            ∃ r, rsi14 !! i = Some r ∧ F64.gt r (F64.lit 80) = true) ∧
    (∀ i b, mask_short !! i = Some b → b = true →
            ∃ r, rsi14 !! i = Some r ∧ F64.lt r (F64.lit 20) = true).
Proof.
  intros Hrun.
  apply populate_indicators_written in Hrun
    as (rsi14 & rsi3 & mfi & adx & e12 & e26 & e50 & e100 & e200 & lower & mid
        & upper & volume & Hrsi & Hvolume & Hstart).
  unfold MockFreqAI.start, MockFreqAI.constant in Hstart.
  cbn [writes foldr fst snd] in Hstart. rewrite !nrows_set_num_col in Hstart.
  apply (inj Some) in Hstart.
  assert (Hd : num_col df1 "do_predict" = Some (replicate (nrows df) (F64.lit 1))).
  { rewrite <- Hstart. frame_reads. reflexivity. }
  assert (Hp : num_col df1 "&-s_close" = Some (replicate (nrows df) (F64.lit 0))).
  { rewrite <- Hstart. frame_reads. reflexivity. }
  assert (Hr1 : num_col df1 "RSI_14" = Some rsi14).
  { rewrite <- Hstart. frame_reads. reflexivity. }
  assert (H12 : num_col df1 "EMA_12" = Some e12).
  { rewrite <- Hstart. frame_reads. reflexivity. }
  assert (H26 : num_col df1 "EMA_26" = Some e26).
  { rewrite <- Hstart. frame_reads. reflexivity. }
  assert (Hw : num_col df1 "bb_width" = Some (ser_div (ser_sub upper lower) mid)).
  { rewrite <- Hstart. frame_reads. reflexivity. }
  assert (Hkeep : ∀ name,
            name ∈ ["enter_long"; "enter_short"; "exit_long"; "exit_short"; "volume"] →
            cols df1 !! name = cols df !! name).
  { intros name Hin. rewrite <- Hstart.
    repeat (apply elem_of_cons in Hin as [-> | Hin]);
      try (apply elem_of_nil in Hin; contradiction);
      rewrite !cols_set_num_col_ne by discriminate; reflexivity. }
  assert (Hv1 : num_col df1 "volume" = Some volume).
  { rewrite <- Hvolume. apply num_col_cols, Hkeep. listed. }
  assert (Hthere : ∀ name, name ∈ TestScript.required_indicators →
                           has_col df1 name = true).
  { intros name Hin. rewrite <- Hstart.
    unfold TestScript.required_indicators in Hin.
    repeat (apply elem_of_cons in Hin as [-> | Hin]);
      try (apply elem_of_nil in Hin; contradiction);
      frame_reads; apply has_col_set_col_eq. }
  assert (Hn1 : nrows df1 = nrows df) by (rewrite <- Hstart; reflexivity).
  clear Hstart.
  exists rsi14. eexists. eexists. eexists. cbn zeta.
  split; [exact Hrsi |]. split.
  { unfold FreqAI.populate_entry_trend.
    rewrite Hd, Hp, H12, H26, Hr1, Hw, Hv1.
    cbn [mbind option_bind reduce foldl]. reflexivity. }
  split.
  { unfold FreqAI.populate_exit_trend. frame_reads.
    rewrite Hd, Hp, Hr1. cbn [reduce foldl].
    rewrite !bind_Some. rewrite bind_bind_ret. reflexivity. }
  split; [exact Hn1 |].
  split.
  { intros name Hin. apply Hkeep.
    repeat (apply elem_of_cons in Hin as [-> | Hin]);
      try (apply elem_of_nil in Hin; contradiction); listed. }
  split; [exact Hthere |].
  split; [| split].
  - intros i b Hb. rows_inv.
    replace (F64.gt (F64.lit 0) (F64.lit 0.0001)) with false by by_eval.
    rewrite !andb_false_r. reflexivity.
  - intros i b Hb Hfire. rows_inv. apply andb_prop in Hfire as [_ Hfire].
    replace (F64.lt (F64.lit 0) (F64.lit (-0.005))) with false in Hfire by by_eval.
    cbn [orb] in Hfire. eauto.
  - intros i b Hb Hfire. rows_inv. apply andb_prop in Hfire as [_ Hfire].
    replace (F64.gt (F64.lit 0) (F64.lit 0.005)) with false in Hfire by by_eval.
    cbn [orb] in Hfire. eauto.
Qed.

(** X13: the passes the test script runs, with its stand-in model.
    Whenever the indicator pass returns, the indicators the script then
    looks for are there and the entry pass returns; since the stand-in
    predicts a return of 0 on every row, no row is entered, whatever the
    indicators are; the exit pass returns on a frame that has rows, and an
    exit is set only where [RSI_14] is above 80 (long) or below 20
    (short). *)
Theorem mock_run_enters_nothing
    (ta : Indicators) (rolling_mean : nat → list f64 → list f64)
    (df df1 : DataFrame) (metadata : Metadata) :
  FreqAIIndicators.populate_indicators ta rolling_mean MockFreqAI.start df metadata
  = Some df1 →
  ∃ rsi14 df2,
    ta_RSI ta df 14 = Some rsi14 ∧
    FreqAI.populate_entry_trend df1 metadata = Some df2 ∧
    (∀ name, name ∈ TestScript.required_indicators → has_col df1 name = true) ∧
    (∀ i x, cell df2 "enter_long" i = Some x → is_set x = true →
            cell df "enter_long" i = Some x) ∧
    (nrows df ≠ 0 → is_Some (FreqAI.populate_exit_trend df2 metadata)) ∧
    ∀ df3, FreqAI.populate_exit_trend df2 metadata = Some df3 →
      (∀ i x, cell df3 "enter_long" i = Some x → is_set x = true →
              cell df "enter_long" i = Some x) ∧
      (∀ i x, cell df3 "exit_long" i = Some x → is_set x = true →
              cell df "exit_long" i = Some x ∨
              ∃ r, rsi14 !! i = Some r ∧ F64.gt r (F64.lit 80) = true) ∧
      (∀ i x, cell df3 "exit_short" i = Some x → is_set x = true →
              cell df "exit_short" i = Some x ∨
              ∃ r, rsi14 !! i = Some r ∧ F64.lt r (F64.lit 20) = true).
Proof.
  intros Hrun.
  destruct (mock_run_frames ta rolling_mean df df1 metadata Hrun)
    as (rsi14 & mask & mask_long & mask_short & Hrsi & Hentry & Hexit & Hrows & Hkeep
        & Hthere & Hmask & Hlong & Hshort).
  cbn zeta in Hentry, Hexit.
  exists rsi14. eexists. split; [exact Hrsi |]. split; [exact Hentry |].
  split; [exact Hthere |].
  assert (Hentered : ∀ i x,
            cell (loc_set mask "enter_tag" (VStr "ml_long")
                    (loc_set mask "enter_long" (VNum (F64.lit 1)) df1))
              "enter_long" i = Some x →
            is_set x = true → cell df "enter_long" i = Some x).
  { intros i x Hx Hset. revert Hx. frame_reads. intros Hx.
    apply cell_loc_set_inv in Hx as (b & Hb & Hx).
    rewrite (Hmask i b Hb) in Hx.
    destruct Hx as [Hx | ->]; [| discriminate Hset].
    rewrite <- Hx. symmetry. apply cell_cols_eq; [apply Hkeep; listed | exact Hrows]. }
  split; [exact Hentered |]. split.
  - intros Hn. rewrite Hexit.
    rewrite loc_set_scalar_Some by (left; rewrite !nrows_loc_set; congruence).
    cbn [mbind option_bind].
    rewrite loc_set_scalar_Some by (left; rewrite !nrows_loc_set; congruence).
    eexists. reflexivity.
  - intros df3 Hdf3. rewrite Hexit in Hdf3.
    destruct (loc_set_scalar mask_long "exit_long" _ _) as [dl |] eqn:Hsl;
      cbn [mbind option_bind] in Hdf3; [| discriminate].
    apply loc_set_scalar_inv in Hsl as [-> _].
    apply loc_set_scalar_inv in Hdf3 as [-> _].
    split; [| split].
    + intros i x Hx Hset. apply (Hentered i x); [| exact Hset].
      revert Hx. frame_reads. intros Hx. frame_reads. exact Hx.
    + intros i x Hx Hset. revert Hx. frame_reads. intros Hx.
      apply cell_loc_set_inv in Hx as (b & Hb & Hx). destruct b.
      * right. exact (Hlong i true Hb eq_refl).
      * left. destruct Hx as [Hx | ->]; [| discriminate Hset].
        revert Hx. frame_reads. intros Hx.
        rewrite <- Hx. symmetry.
        apply cell_cols_eq; [apply Hkeep; listed | exact Hrows].
    + intros i x Hx Hset.
      apply cell_loc_set_inv in Hx as (b & Hb & Hx). destruct b.
      * right. exact (Hshort i true Hb eq_refl).
      * left. destruct Hx as [Hx | ->]; [| discriminate Hset].
        revert Hx. frame_reads. intros Hx.
        rewrite <- Hx. symmetry.
        apply cell_cols_eq; [apply Hkeep; listed | exact Hrows].
Qed.

Lemma mock_run_enters_nothing_witness :
  ∃ df1 df2 df3,
    FreqAIIndicators.populate_indicators (Frames.undefined_indicators 2) (windowed mean)
      MockFreqAI.start Frames.two_candles TestScript.metadata = Some df1 ∧
    FreqAI.populate_entry_trend df1 TestScript.metadata = Some df2 ∧
    FreqAI.populate_exit_trend df2 TestScript.metadata = Some df3.
Proof.
  destruct (FreqAIIndicators.populate_indicators (Frames.undefined_indicators 2)
              (windowed mean) MockFreqAI.start Frames.two_candles TestScript.metadata)
    as [df1 |] eqn:Hrun; [| vm_compute in Hrun; discriminate Hrun].
  destruct (mock_run_enters_nothing (Frames.undefined_indicators 2) (windowed mean)
              Frames.two_candles df1 TestScript.metadata Hrun)
    as (rsi14 & df2 & _ & Hentry & _ & _ & Hexit & _).
  destruct Hexit as [df3 Hexit]; [vm_compute; lia |].
  exists df1, df2, df3. auto.
Defined.

Lemma zip_with_mask_off (mask : list bool) (x : f64) :
  (∀ i b, mask !! i = Some b → b = false) →
  zip_with (λ (b : bool) o, if b then x else o) mask
    (replicate (length mask) F64.nan)
  = replicate (length mask) F64.nan.
Proof.
  intros Hoff. induction mask as [| b mask IH]; [reflexivity |].
  cbn [length replicate zip_with].
  rewrite (Hoff 0 b eq_refl). f_equal. apply IH.
  intros i b' Hb'. exact (Hoff (S i) b' Hb').
Qed.

(** The sum of a column that holds no number is 0. *)
Lemma sum_undefined (series_sum : list f64 → f64) (n : nat) :
  counts_marks series_sum →
  F64.eq (series_sum (replicate n F64.nan)) (F64.lit 0) = true.
Proof.
  intros Hsum. specialize (Hsum (replicate n F64.nan)).
  destruct (decide (F64.one ∈ replicate n F64.nan)) as [Hin | _].
  - apply elem_of_replicate in Hin as [Hone _]. discriminate Hone.
  - apply Hsum. clear Hsum. induction n as [| n IH]; [reflexivity | exact IH].
Qed.

(** X14: the indicator test of the script, on candles that carry no
    decision column yet.  With fewer candles than the warm-up length the
    script exits with status 1.  Otherwise, when the indicator pass
    raises the script reports the failure, and when it returns the script
    ends on its warning that no entry signal was generated: after the
    three passes with the stand-in model [enter_long] holds no number on
    any row, there is no [enter_short] column, and both counts are 0. *)
Theorem mock_run_warns
    (ta : Indicators) (rolling_mean : nat → list f64 → list f64)
    (series_sum : list f64 → f64) (df : DataFrame) :
  counts_marks series_sum →
  (∀ name, name ∈ ["enter_long"; "enter_short"; "exit_long"; "exit_short"] →
           has_col df name = false) →
  (nrows df < FreqAI.startup_candle_count →
   TestScript.run ta rolling_mean series_sum df = TestScript.Exit 1) ∧
  (FreqAI.startup_candle_count ≤ nrows df →
   (FreqAIIndicators.populate_indicators ta rolling_mean MockFreqAI.start df
      TestScript.metadata = None →
    TestScript.run ta rolling_mean series_sum df = TestScript.Failed) ∧
   (is_Some (FreqAIIndicators.populate_indicators ta rolling_mean MockFreqAI.start df
               TestScript.metadata) →
    TestScript.run ta rolling_mean series_sum df = TestScript.Complete true)).
Proof.
  intros Hsum Hnone. unfold TestScript.run. split.
  - intros Hshort.
    destruct (decide (nrows df < FreqAI.startup_candle_count)); [reflexivity | lia].
  - intros Hlong.
    destruct (decide (nrows df < FreqAI.startup_candle_count)) as [? | _]; [lia |].
    split; [intros ->; reflexivity |].
    intros [df1 Hrun]. rewrite Hrun.
    destruct (mock_run_frames ta rolling_mean df df1 TestScript.metadata Hrun)
      as (rsi14 & mask & mask_long & mask_short & Hrsi & Hentry & Hexit & Hrows
          & Hkeep & Hthere & Hmask & _ & _).
    cbn zeta in Hentry, Hexit.
    assert (Hmissing : filter (λ ind, has_col df1 ind = false)
                         TestScript.required_indicators = []).
    { unfold TestScript.required_indicators.
      repeat (rewrite filter_cons_False
                by (rewrite Hthere by listed; discriminate)).
      reflexivity. }
    rewrite Hmissing.
    destruct (decide ([] ≠ [])) as [Hne | _]; [contradiction |].
    assert (Hn : nrows df ≠ 0) by (unfold FreqAI.startup_candle_count in Hlong; lia).
    assert (Hno1 : ∀ name,
              name ∈ ["enter_long"; "enter_short"; "exit_long"; "exit_short"] →
              has_col df1 name = false).
    { intros name Hin. unfold has_col. rewrite (Hkeep name Hin).
      apply (Hnone name Hin). }
    unfold TestScript.signals. rewrite Hrun. cbn [mbind option_bind].
    rewrite Hentry. cbn [mbind option_bind].
    rewrite Hexit.
    rewrite loc_set_scalar_Some by (left; rewrite !nrows_loc_set; congruence).
    cbn [mbind option_bind].
    rewrite loc_set_scalar_Some by (left; rewrite !nrows_loc_set; congruence).
    cbn [mbind option_bind].
    set (entered := loc_set mask "enter_tag" (VStr "ml_long")
                      (loc_set mask "enter_long" (VNum (F64.lit 1)) df1)).
    set (exited := loc_set mask_short "exit_short" (VNum (F64.lit 1))
                     (loc_set mask_long "exit_long" (VNum (F64.lit 1)) entered)).
    assert (Hlong_entries :
      TestScript.signal_count series_sum exited "enter_long"
      = Some (series_sum (replicate (length mask) F64.nan))).
    { unfold TestScript.signal_count. subst exited entered. frame_reads.
      rewrite has_col_loc_set_eq.
      rewrite (num_col_loc_set_new _ _ _ _ (Hno1 "enter_long" ltac:(listed))).
      rewrite (zip_with_mask_off _ _ Hmask). reflexivity. }
    assert (Hshort_entries :
      TestScript.signal_count series_sum exited "enter_short" = Some (F64.lit 0)).
    { unfold TestScript.signal_count. subst exited entered. frame_reads.
      rewrite (Hno1 "enter_short" ltac:(listed)). reflexivity. }
    assert (Hlong_exits :
      is_Some (TestScript.signal_count series_sum exited "exit_long")).
    { unfold TestScript.signal_count. subst exited. frame_reads.
      rewrite has_col_loc_set_eq.
      rewrite num_col_loc_set_new
        by (subst entered; frame_reads; apply (Hno1 "exit_long"); listed).
      eexists. reflexivity. }
    assert (Hshort_exits :
      is_Some (TestScript.signal_count series_sum exited "exit_short")).
    { unfold TestScript.signal_count. subst exited.
      rewrite has_col_loc_set_eq.
      rewrite num_col_loc_set_new
        by (subst entered; frame_reads; apply (Hno1 "exit_short"); listed).
      eexists. reflexivity. }
    destruct Hlong_exits as [long_exits Hlong_exits].
    destruct Hshort_exits as [short_exits Hshort_exits].
    rewrite Hlong_entries. cbn [mbind option_bind].
    rewrite Hshort_entries. cbn [mbind option_bind].
    rewrite Hlong_exits. cbn [mbind option_bind].
    rewrite Hshort_exits. cbn [mbind option_bind].
    rewrite (sum_undefined series_sum _ Hsum). reflexivity.
Qed.

Lemma mock_run_warns_witness :
  TestScript.run (Frames.undefined_indicators 2) (windowed mean) ser_sum Frames.two_candles
  = TestScript.Exit 1 ∧
  TestScript.run (Frames.undefined_indicators 800) (windowed mean) ser_sum
    (Frames.flat_history 800)
  = TestScript.Complete true.
Proof.
  split.
  - apply (mock_run_warns (Frames.undefined_indicators 2) (windowed mean) ser_sum
             Frames.two_candles ser_sum_counts_marks).
    + intros name Hin.
      repeat (apply elem_of_cons in Hin as [-> | Hin]);
        try (apply elem_of_nil in Hin; contradiction); by_eval.
    + vm_compute. lia.
  - apply (mock_run_warns (Frames.undefined_indicators 800) (windowed mean) ser_sum
             (Frames.flat_history 800) ser_sum_counts_marks).
    + intros name Hin.
      repeat (apply elem_of_cons in Hin as [-> | Hin]);
        try (apply elem_of_nil in Hin; contradiction); by_eval.
    + vm_compute. lia.
    + match goal with
      | |- is_Some ?run =>
          destruct run eqn:Hrun; [eexists; reflexivity |];
          vm_compute in Hrun; discriminate Hrun
      end.
Defined.

(** ** The feature functions of the Hybrid strategy *)

Lemma lookup_astype_int (mask : list bool) (i : nat) (b : bool) :
  mask !! i = Some b →
  astype_int mask !! i = Some (if b then F64.lit 1 else F64.lit 0).
Proof. intros Hb. unfold astype_int. rewrite list_lookup_fmap, Hb. reflexivity. Qed.

Lemma gt_undefined (a b : f64) :
  F64.is_nan a || F64.is_nan b = true → F64.gt a b = false.
Proof.
  unfold F64.gt, SFltb. destruct a, b; try discriminate; reflexivity.
Qed.

(** X15: [feature_engineering_standard] of the Hybrid strategy.  The
    fallback [high - low] of the [atr] lookup is computed before the
    lookup, so the function raises without a [high] or a [low] column even
    when the frame has an [atr] column.  When it returns, ["%-atr"] is the
    [atr] column if there is one and [high - low] otherwise, ["%-atr_pct"]
    is that column over [close], and the cross feature is 1 where
    [ema_12 > ema_26] and 0 elsewhere, 0 also on the rows where an EMA is
    not yet defined. *)
Theorem hybrid_standard_features (df : DataFrame) :
  (has_col df "high" && has_col df "low" = false →
   HybridFeatures.feature_engineering_standard df = None) ∧
  ∀ df', HybridFeatures.feature_engineering_standard df = Some df' →
    nrows df' = nrows df ∧
    (∀ s, cols df !! "atr" = Some s → cols df' !! "%-atr" = Some s) ∧
    (has_col df "atr" = false →
     ∃ high low,
       num_col df "high" = Some high ∧ num_col df "low" = Some low ∧
       num_col df' "%-atr" = Some (ser_sub high low)) ∧
    (∃ atr close,
       num_col df' "%-atr" = Some atr ∧ num_col df "close" = Some close ∧
       num_col df' "%-atr_pct" = Some (ser_div atr close)) ∧
    (∀ ema_12 ema_26,
       num_col df "ema_12" = Some ema_12 → num_col df "ema_26" = Some ema_26 →
       ∃ cross,
         num_col df' "%-ema12_ema26_cross" = Some cross ∧
         ∀ i a b, ema_12 !! i = Some a → ema_26 !! i = Some b →
           cross !! i = Some (if F64.gt a b then F64.lit 1 else F64.lit 0) ∧
           (F64.is_nan a || F64.is_nan b = true → cross !! i = Some (F64.lit 0))).
Proof.
  unfold HybridFeatures.feature_engineering_standard. split.
  - intros Hno.
    assert (Hread : ∀ d, has_col d "high" = has_col df "high" →
                         has_col d "low" = has_col df "low" →
                         (high ← num_col d "high"; low ← num_col d "low";
                          @Some (list f64 * list f64) (high, low)) = None).
    { intros d Hh Hl. apply andb_false_iff in Hno as [Hno | Hno].
      - rewrite <- Hh in Hno. rewrite (num_col_missing _ _ Hno). reflexivity.
      - rewrite <- Hl in Hno. rewrite (num_col_missing _ _ Hno).
        destruct (num_col d "high"); reflexivity. }
    destruct (has_col df "rsi_14");
      [destruct (num_col df "rsi_14"); [| reflexivity] |];
      cbn [mbind option_bind]; frame_reads;
      (destruct (has_col df "ema_12" && has_col df "ema_26");
       [destruct (num_col df "ema_12"); [| reflexivity];
        destruct (num_col df "ema_26"); [| reflexivity] |]);
      cbn [mbind option_bind];
      match goal with
      | |- (num_col ?d "high" ≫= _) = None =>
          specialize (Hread d); revert Hread; frame_reads; intros Hread;
          specialize (Hread eq_refl eq_refl);
          destruct (num_col df "high"); [| reflexivity];
          destruct (num_col df "low"); [discriminate Hread | reflexivity]
      end.
  - intros df'.
    destruct (has_col df "rsi_14") eqn:Hrsi;
      [destruct (num_col df "rsi_14") as [rsi_14 |]; [| discriminate] |];
      cbn [mbind option_bind]; frame_reads;
      (destruct (has_col df "ema_12" && has_col df "ema_26") eqn:Hema;
       [destruct (num_col df "ema_12") as [e12 |] eqn:H12; [| discriminate];
        destruct (num_col df "ema_26") as [e26 |] eqn:H26; [| discriminate] |]);
      cbn [mbind option_bind]; frame_reads;
      (destruct (num_col df "high") as [high |] eqn:Hhigh; [| discriminate]);
      (destruct (num_col df "low") as [low |] eqn:Hlow; [| discriminate]);
      cbn [mbind option_bind];
      rewrite ?num_col_set_col_ne by discriminate; frame_reads;
      match goal with
      | |- (num_col ?d "%-atr" ≫= _) = _ → _ =>
          destruct (num_col d "%-atr") as [atr |] eqn:Hatr; [| discriminate]
      end;
      (destruct (num_col df "close") as [close |] eqn:Hclose; [| discriminate]);
      cbn [mbind option_bind]; intros [= <-];
      (split; [reflexivity |]);
      (split;
       [intros s Hs; frame_reads; rewrite cols_set_col_eq; frame_reads; rewrite Hs;
        reflexivity |]);
      (split;
       [intros Hnone; apply has_col_false in Hnone; exists high, low;
        split; [reflexivity |]; split; [reflexivity |];
        frame_reads; unfold num_col; rewrite cols_set_col_eq; frame_reads;
        rewrite Hnone; cbn [default from_option id mbind option_bind];
        apply mapM_as_num_fmap |]);
      (split;
       [exists atr, close; split; [frame_reads; exact Hatr |];
        split; [reflexivity |]; apply num_col_set_num_col_eq |]);
      intros ema_12 ema_26 He12 He26.
    all: try (rewrite (num_col_has_col _ _ _ He12), (num_col_has_col _ _ _ He26) in Hema;
              discriminate Hema).
    all: injection He12 as <-; injection He26 as <-;
      exists (astype_int (ser_gt e12 e26));
      (split; [frame_reads; rewrite num_col_set_col_ne by discriminate; frame_reads;
               reflexivity |]);
      intros i a b Ha Hb;
      pose proof (lookup_astype_int _ _ _ (lookup_ser_gt _ _ _ _ _ Ha Hb)) as Hrow;
      (split; [exact Hrow |]); intros Hnan;
      rewrite (gt_undefined _ _ Hnan) in Hrow; exact Hrow.
Qed.

Lemma hybrid_standard_features_witness :
  HybridFeatures.feature_engineering_standard Cases.atr_only = None ∧
  ∃ df' cross,
    HybridFeatures.feature_engineering_standard Cases.warming_up = Some df' ∧
    num_col df' "%-ema12_ema26_cross" = Some cross ∧
    cross !! 0 = Some (F64.lit 0).
Proof.
  split.
  - apply (proj1 (hybrid_standard_features Cases.atr_only)). by_eval.
  - destruct (HybridFeatures.feature_engineering_standard Cases.warming_up)
      as [df' |] eqn:Hrun; [| vm_compute in Hrun; discriminate Hrun].
    destruct (proj2 (hybrid_standard_features Cases.warming_up) df' Hrun)
      as (_ & _ & _ & _ & Hcross).
    destruct (Hcross [F64.lit 100] [F64.nan] eq_refl eq_refl) as (cross & Hc & Hrows).
    exists df', cross. split; [reflexivity |]. split; [exact Hc |].
    apply (Hrows 0 (F64.lit 100) F64.nan eq_refl eq_refl). reflexivity.
Defined.

(** X16: [feature_engineering_expand_basic] of the Hybrid strategy returns
    the frame as it is when it has neither EMA column, without reading
    [close]; with an EMA column and no [close] column it raises.  When it
    returns, the feature of an EMA that is there is [(close - ema) / ema],
    undefined on the rows where the EMA is undefined and undefined or
    infinite where it is zero. *)
Theorem hybrid_basic_features (df : DataFrame) :
  (has_col df "ema_12" = false → has_col df "ema_26" = false →
   HybridFeatures.feature_engineering_expand_basic df = Some df) ∧
  (has_col df "ema_12" || has_col df "ema_26" = true → has_col df "close" = false →
   HybridFeatures.feature_engineering_expand_basic df = None) ∧
  ∀ df', HybridFeatures.feature_engineering_expand_basic df = Some df' →
    ∀ name feature ema,
      (name = "ema_12" ∧ feature = "%-pct_close_ema12") ∨
      (name = "ema_26" ∧ feature = "%-pct_close_ema26") →
      num_col df name = Some ema →
      ∃ close column,
        num_col df "close" = Some close ∧
        num_col df' feature = Some column ∧
        ∀ i c e, close !! i = Some c → ema !! i = Some e →
          ∃ q, column !! i = Some q ∧ q = F64.div (F64.sub c e) e ∧
               unusable_denominator (F64.sub c e) e q.
Proof.
  unfold HybridFeatures.feature_engineering_expand_basic. split; [| split].
  - intros -> H26. cbn [mbind option_bind]. rewrite H26. reflexivity.
  - intros Hema Hno. apply num_col_missing in Hno.
    destruct (has_col df "ema_12"); rewrite ?Hno; [reflexivity |].
    cbn [orb] in Hema. cbn [mbind option_bind]. rewrite Hema, Hno. reflexivity.
  - intros df' Hrun name feature ema Hname Hema.
    assert (Hrows : ∀ close column, column = ser_div (ser_sub close ema) ema →
              ∀ i c e, close !! i = Some c → ema !! i = Some e →
                ∃ q, column !! i = Some q ∧ q = F64.div (F64.sub c e) e ∧
                     unusable_denominator (F64.sub c e) e q).
    { intros close column -> i c e Hc He. eexists.
      split; [eauto with rows |]. split; [reflexivity |].
      apply div_unusable_denominator. }
    revert Hrun.
    destruct (has_col df "ema_12") eqn:H12;
      [destruct (num_col df "close") as [close |] eqn:Hclose; [| discriminate];
       destruct (num_col df "ema_12") as [e12 |] eqn:He12; [| discriminate] |];
      cbn [mbind option_bind]; frame_reads;
      (destruct (has_col df "ema_26") eqn:H26;
       [destruct (num_col df "close") as [close' |] eqn:Hclose'; [| discriminate];
        destruct (num_col df "ema_26") as [e26 |] eqn:He26; [| discriminate] |]);
      cbn [mbind option_bind]; intros [= <-];
      destruct Hname as [[-> ->] | [-> ->]];
      try (rewrite (num_col_has_col _ _ _ Hema) in H12; discriminate H12);
      try (rewrite (num_col_has_col _ _ _ Hema) in H26; discriminate H26);
      rewrite ?He12, ?He26 in Hema; injection Hema as <-;
      try (injection Hclose as <-);
      eexists; eexists; (split; [reflexivity |]);
      (split; [frame_reads; reflexivity |]); apply Hrows; reflexivity.
Qed.

Lemma hybrid_basic_features_witness :
  HybridFeatures.feature_engineering_expand_basic Frames.one_candle
  = Some Frames.one_candle.
Proof. apply (proj1 (hybrid_basic_features Frames.one_candle)); by_eval. Defined.

(** ** The expanded features and the period *)

(** ** The expanded features and the period *)

Lemma same_candles_refl (d : DataFrame) : same_candles d d.
Proof. split; reflexivity. Qed.

Ltac candles :=
  repeat (apply same_candles_set_num_col;
          [unfold candle_columns; rewrite !not_elem_of_cons;
           repeat split; try discriminate; apply not_elem_of_nil |]);
  first [apply same_candles_refl | assumption].

Lemma same_candles_num_col (d d' : DataFrame) (name : string) :
  same_candles d d' → name ∈ candle_columns → num_col d name = num_col d' name.
Proof. intros [_ Hcols] Hname. unfold num_col. rewrite (Hcols name Hname). reflexivity. Qed.

Section ExpandAll.
Variables (ta : Indicators) (rolling_mean : nat → list f64 → list f64).
Hypothesis Hta : candles_only ta.

(** With indicators that read the candles only, the frame
    [feature_engineering_expand_all] returns is the frame it was given
    with the columns computed from the candles written to it. *)
Lemma expand_all_frame (d df : DataFrame) (period : nat) :
  same_candles d df →
  FreqAI.feature_engineering_expand_all ta rolling_mean d period
  = (columns ← expand_all_columns ta rolling_mean df period;
     Some (writes columns d)).
Proof using Hta.
  intros Hsame. unfold FreqAI.feature_engineering_expand_all, expand_all_columns.
  rewrite (proj1 (Hta d df Hsame) period).
  destruct (ta_RSI ta df period) as [rsi |]; cbn [mbind option_bind]; [| reflexivity].
  match goal with
  | |- context [ta_MFI ta ?x period] =>
      lazymatch x with df => fail | _ => idtac end;
      rewrite (proj1 (proj2 (Hta x df ltac:(candles))) period)
  end.
  destruct (ta_MFI ta df period) as [mfi |]; cbn [mbind option_bind]; [| reflexivity].
  match goal with
  | |- context [ta_ADX ta ?x period] =>
      lazymatch x with df => fail | _ => idtac end;
      rewrite (proj1 (proj2 (proj2 (Hta x df ltac:(candles)))) period)
  end.
  destruct (ta_ADX ta df period) as [adx |]; cbn [mbind option_bind]; [| reflexivity].
  match goal with
  | |- context [ta_EMA ta ?x period] =>
      lazymatch x with df => fail | _ => idtac end;
      rewrite (proj1 (proj2 (proj2 (proj2 (Hta x df ltac:(candles))))) period)
  end.
  destruct (ta_EMA ta df period) as [ema |] eqn:Hema; cbn [mbind option_bind];
    [| reflexivity].
  match goal with
  | |- context [ta_EMA ta ?x period] =>
      lazymatch x with df => fail | _ => idtac end;
      rewrite (proj1 (proj2 (proj2 (proj2 (Hta x df ltac:(candles))))) period)
  end.
  rewrite Hema. cbn [mbind option_bind].
  match goal with
  | |- context [typical_price ta ?x] =>
      lazymatch x with df => fail | _ => idtac end;
      rewrite (proj2 (proj2 (proj2 (proj2 (proj2 (proj2 (Hta x df ltac:(candles))))))))
  end.
  destruct (typical_price ta df) as [price |]; cbn [mbind option_bind]; [| reflexivity].
  destruct (bollinger_bands ta price period (F64.lit 2.2)) as [[[lower mid] upper] |];
    cbn [mbind option_bind]; [| reflexivity].
  frame_reads. cbn [mbind option_bind]. frame_reads.
  rewrite (same_candles_num_col d df "close" Hsame) by (unfold candle_columns; listed).
  destruct (num_col df "close") as [close |]; cbn [mbind option_bind]; [| reflexivity].
  frame_reads.
  match goal with
  | |- context [ta_ROC ta ?x period] =>
      lazymatch x with df => fail | _ => idtac end;
      rewrite (proj1 (proj2 (proj2 (proj2 (proj2 (Hta x df ltac:(candles)))))) period)
  end.
  destruct (ta_ROC ta df period) as [roc |]; cbn [mbind option_bind]; [| reflexivity].
  frame_reads.
  rewrite (same_candles_num_col d df "volume" Hsame) by (unfold candle_columns; listed).
  destruct (num_col df "volume") as [volume |]; cbn [mbind option_bind];
    [| reflexivity].
  match goal with
  | |- context [ta_STOCHRSI ta ?x 14 period 3] =>
      lazymatch x with df => fail | _ => idtac end;
      rewrite (proj1 (proj2 (proj2 (proj2 (proj2 (proj2 (Hta x df ltac:(candles)))))))
                 14 period 3)
  end.
  destruct (ta_STOCHRSI ta df 14 period 3) as [[fastk fastd] |];
    cbn [mbind option_bind]; reflexivity.
Qed.

(** The names of the columns written do not depend on the period. *)
Lemma expand_all_columns_names (df : DataFrame) (period : nat)
    (columns : list (string * list f64)) :
  expand_all_columns ta rolling_mean df period = Some columns →
  columns.*1
  = ["%-stochrsi_d-period"; "%-stochrsi_k-period"; "%-relative_volume-period";
     "%-roc-period"; "%-close-bb_lower-period"; "%-bb_width-period";
     "bb_upperband-period"; "bb_middleband-period"; "bb_lowerband-period";
     "%-ema-period"; "%-sma-period"; "%-adx-period"; "%-mfi-period"; "%-rsi-period"]
  ∧ ∃ ema, ta_EMA ta df period = Some ema ∧
           (list_to_map columns : gmap string (list f64)) !! "%-sma-period" = Some ema ∧
           (list_to_map columns : gmap string (list f64)) !! "%-ema-period" = Some ema.
Proof.
  unfold expand_all_columns.
  destruct (ta_RSI ta df period) as [rsi |]; cbn [mbind option_bind]; [| discriminate].
  destruct (ta_MFI ta df period) as [mfi |]; cbn [mbind option_bind]; [| discriminate].
  destruct (ta_ADX ta df period) as [adx |]; cbn [mbind option_bind]; [| discriminate].
  destruct (ta_EMA ta df period) as [ema |]; cbn [mbind option_bind]; [| discriminate].
  destruct (typical_price ta df) as [price |]; cbn [mbind option_bind]; [| discriminate].
  destruct (bollinger_bands ta price period (F64.lit 2.2)) as [[[lower mid] upper] |];
    cbn [mbind option_bind]; [| discriminate].
  destruct (num_col df "close") as [close |]; cbn [mbind option_bind]; [| discriminate].
  destruct (ta_ROC ta df period) as [roc |]; cbn [mbind option_bind]; [| discriminate].
  destruct (num_col df "volume") as [volume |]; cbn [mbind option_bind];
    [| discriminate].
  destruct (ta_STOCHRSI ta df 14 period 3) as [[fastk fastd] |];
    cbn [mbind option_bind]; [| discriminate].
  intros [= <-]. split; [reflexivity |]. exists ema. split; [reflexivity |].
  split; reflexivity.
Qed.
End ExpandAll.

Lemma same_candles_writes (columns : list (string * list f64)) (d : DataFrame) :
  (∀ name, name ∈ columns.*1 → name ∉ candle_columns) →
  same_candles (writes columns d) d.
Proof.
  intros Hnames. split; [apply nrows_writes |].
  intros name Hname. rewrite cols_writes.
  destruct (list_to_map columns !! name) as [l |] eqn:Hl; [| reflexivity].
  exfalso. apply (Hnames name); [| exact Hname].
  apply elem_of_list_to_map_2 in Hl. apply list_elem_of_fmap.
  exists (name, l). split; [reflexivity | exact Hl].
Qed.

(** X17: the feature named ["%-sma-period"] is not a simple moving average.
    With indicators that read the candles only, whenever
    [feature_engineering_expand_all] returns it has written the same
    column, the EMA of the period, under ["%-sma-period"] and under
    ["%-ema-period"]. *)
Theorem expand_all_sma_is_ema
    (ta : Indicators) (rolling_mean : nat → list f64 → list f64)
    (df df' : DataFrame) (period : nat) :
  candles_only ta →
  FreqAI.feature_engineering_expand_all ta rolling_mean df period = Some df' →
  ∃ ema,
    ta_EMA ta df period = Some ema ∧
    num_col df' "%-sma-period" = Some ema ∧
    num_col df' "%-ema-period" = Some ema.
Proof.
  intros Hta Hrun.
  rewrite (expand_all_frame ta rolling_mean Hta df df period (same_candles_refl df))
    in Hrun.
  destruct (expand_all_columns ta rolling_mean df period) as [columns |] eqn:Hcolumns;
    [| discriminate].
  cbn [mbind option_bind] in Hrun. injection Hrun as <-.
  destruct (expand_all_columns_names ta rolling_mean df period columns Hcolumns)
    as (_ & ema & Hema & Hsma & Hema').
  exists ema. split; [exact Hema |].
  rewrite !num_col_writes, Hsma, Hema'. split; reflexivity.
Qed.

Lemma expand_all_sma_is_ema_witness :
  ∃ df' column,
    FreqAI.feature_engineering_expand_all (Frames.undefined_indicators 2) (windowed mean)
      Frames.two_candles 14 = Some df' ∧
    num_col df' "%-sma-period" = Some column ∧
    num_col df' "%-ema-period" = Some column.
Proof.
  destruct (FreqAI.feature_engineering_expand_all (Frames.undefined_indicators 2)
              (windowed mean) Frames.two_candles 14) as [df' |] eqn:Hrun;
    [| vm_compute in Hrun; discriminate Hrun].
  destruct (expand_all_sma_is_ema (Frames.undefined_indicators 2) (windowed mean)
              Frames.two_candles df' 14 (with_bands_candles_only _ _ _) Hrun)
    as (ema & _ & Hsma & Hema).
  exists df', ema. split; [reflexivity |]. split; [exact Hsma | exact Hema].
Defined.

(** X18: the names of the columns [feature_engineering_expand_all] writes
    do not depend on the period, so a second call overwrites what the
    first has written.  With indicators that read the candles only,
    expanding at a period a frame already expanded at another period gives
    the same frame as expanding the original frame. *)
Theorem expand_all_overwrites
    (ta : Indicators) (rolling_mean : nat → list f64 → list f64)
    (df df1 : DataFrame) (first second : nat) :
  candles_only ta →
  FreqAI.feature_engineering_expand_all ta rolling_mean df first = Some df1 →
  FreqAI.feature_engineering_expand_all ta rolling_mean df1 second
  = FreqAI.feature_engineering_expand_all ta rolling_mean df second.
Proof.
  intros Hta Hfirst.
  rewrite (expand_all_frame ta rolling_mean Hta df df first (same_candles_refl df))
    in Hfirst.
  destruct (expand_all_columns ta rolling_mean df first) as [written |] eqn:Hwritten;
    [| discriminate].
  cbn [mbind option_bind] in Hfirst. injection Hfirst as <-.
  destruct (expand_all_columns_names ta rolling_mean df first written Hwritten)
    as [Hnames _].
  assert (Hsame : same_candles (writes written df) df).
  { apply same_candles_writes. rewrite Hnames. intros name Hin.
    unfold candle_columns.
    repeat (apply elem_of_cons in Hin as [-> | Hin]);
      try (apply elem_of_nil in Hin; contradiction);
      rewrite !not_elem_of_cons; repeat split; try discriminate; apply not_elem_of_nil. }
  rewrite (expand_all_frame ta rolling_mean Hta _ df second Hsame).
  rewrite (expand_all_frame ta rolling_mean Hta df df second (same_candles_refl df)).
  destruct (expand_all_columns ta rolling_mean df second) as [columns |] eqn:Hcolumns;
    [| reflexivity].
  cbn [mbind option_bind]. f_equal. apply writes_overwrite.
  destruct (expand_all_columns_names ta rolling_mean df second columns Hcolumns)
    as [Hnames' _].
  congruence.
Qed.

Lemma expand_all_overwrites_witness :
  ∃ df1,
    FreqAI.feature_engineering_expand_all (Frames.undefined_indicators 2) (windowed mean)
      Frames.two_candles 14 = Some df1 ∧
    FreqAI.feature_engineering_expand_all (Frames.undefined_indicators 2) (windowed mean) df1 20
    = FreqAI.feature_engineering_expand_all (Frames.undefined_indicators 2) (windowed mean)
        Frames.two_candles 20.
Proof.
  destruct (FreqAI.feature_engineering_expand_all (Frames.undefined_indicators 2)
              (windowed mean) Frames.two_candles 14) as [df1 |] eqn:Hrun;
    [| vm_compute in Hrun; discriminate Hrun].
  exists df1. split; [reflexivity |].
  exact (expand_all_overwrites _ (windowed mean) Frames.two_candles df1 14 20
           (with_bands_candles_only _ _ _) Hrun).
Defined.

(** ** Entries and exits of the primary strategy on the same candle *)

Lemma entered_not_reversed (p : f64) :
  F64.gt p (F64.lit 0.0001) = true → F64.lt p (F64.lit (-0.005)) = false.
Proof.
  intros Hup. destruct (F64.lt p (F64.lit (-0.005))) eqn:Hdown; [| reflexivity].
  assert (Habsurd : F64.lt (F64.lit 0.0001) (F64.lit (-0.005)) = true)
    by exact (lt_trans _ _ _ Hup Hdown).
  vm_compute in Habsurd. discriminate Habsurd.
Qed.

(** X19: the entry pass followed by the exit pass, on a frame that has
    rows or holds both exit columns.  On a row that the entry pass
    enters, the exit pass sets [exit_long] exactly when
    [RSI_14] is above 80, the prediction of an entered row being above the
    reversal level; so a candle leaves the two passes with [enter_long]
    and [exit_long] both at 1 when the trend is up and the market
    overbought. *)
Theorem entered_rows_exit_only_overbought
    (df : DataFrame) (metadata : Metadata)
    (do_predict s_close EMA_12 EMA_26 RSI_14 bb_width volume : list f64) :
  num_col df "do_predict" = Some do_predict →
  num_col df "&-s_close" = Some s_close →
  num_col df "EMA_12" = Some EMA_12 →
  num_col df "EMA_26" = Some EMA_26 →
  num_col df "RSI_14" = Some RSI_14 →
  num_col df "bb_width" = Some bb_width →
  num_col df "volume" = Some volume →
  nrows df ≠ 0 ∨ has_col df "exit_long" = true ∧ has_col df "exit_short" = true →
  ∃ df1 df2,
    FreqAI.populate_entry_trend df metadata = Some df1 ∧
    FreqAI.populate_exit_trend df1 metadata = Some df2 ∧
    ∀ i d p e12 e26 r w v el ol,
      do_predict !! i = Some d → s_close !! i = Some p →
      EMA_12 !! i = Some e12 → EMA_26 !! i = Some e26 → RSI_14 !! i = Some r →
      bb_width !! i = Some w → volume !! i = Some v →
      cell df "enter_long" i = Some el → cell df "exit_long" i = Some ol →
      F64.eq d (F64.lit 1) && F64.gt p (F64.lit 0.0001)
      && (F64.gt e12 e26 || F64.lt r (F64.lit 35))
      && F64.gt w (F64.lit 0.015) && F64.gt v (F64.lit 0) = true →
      cell df2 "enter_long" i = Some (VNum (F64.lit 1)) ∧
      cell df2 "exit_long" i
      = Some (if F64.gt r (F64.lit 80) then VNum (F64.lit 1) else ol).
Proof.
  intros Hdp Hsc H12 H26 Hrsi Hbw Hvol Hok.
  destruct (primary_entry_mask df metadata _ _ _ _ _ _ _ Hdp Hsc H12 H26 Hrsi Hbw Hvol)
    as (mask & Hrun1 & Hmask).
  set (df1 := loc_set mask "enter_tag" (VStr "ml_long")
                (loc_set mask "enter_long" (VNum (F64.lit 1)) df)) in *.
  assert (Hdp1 : num_col df1 "do_predict" = Some do_predict)
    by (subst df1; frame_reads; exact Hdp).
  assert (Hsc1 : num_col df1 "&-s_close" = Some s_close)
    by (subst df1; frame_reads; exact Hsc).
  assert (Hrsi1 : num_col df1 "RSI_14" = Some RSI_14)
    by (subst df1; frame_reads; exact Hrsi).
  destruct (primary_exit_run df1 metadata _ _ _ Hdp1 Hsc1 Hrsi1)
    as (mask_long & mask_short & Hrun2 & _ & Hmasks).
  exists df1. eexists. split; [exact Hrun1 |]. split.
  { apply Hrun2. subst df1. rewrite !nrows_loc_set. frame_reads. exact Hok. }
  intros i d p e12 e26 r w v el ol Hd Hp He12 He26 Hr Hw Hv Hel Hol Hfire.
  specialize (Hmask i d p e12 e26 r w v Hd Hp He12 He26 Hr Hw Hv).
  rewrite Hfire in Hmask.
  destruct (Hmasks i d p r Hd Hp Hr) as [Hlong _].
  apply andb_prop in Hfire as [Hfire _]. apply andb_prop in Hfire as [Hfire _].
  apply andb_prop in Hfire as [Hfire _]. apply andb_prop in Hfire as [Hone Hup].
  rewrite Hone, (entered_not_reversed p Hup) in Hlong. cbn [andb orb] in Hlong.
  split.
  - frame_reads. subst df1. frame_reads.
    apply (cell_loc_set_eq _ _ _ _ el _ _ Hmask Hel).
  - frame_reads. apply (cell_loc_set_eq _ _ _ _ ol _ _ Hlong).
    subst df1. frame_reads. exact Hol.
Qed.

Lemma entered_rows_exit_only_overbought_witness :
  ∃ df1 df2,
    FreqAI.populate_entry_trend Frames.uptrend Frames.btc = Some df1 ∧
    FreqAI.populate_exit_trend df1 Frames.btc = Some df2 ∧
    cell df2 "enter_long" 1 = Some (VNum (F64.lit 1)) ∧
    cell df2 "exit_long" 1 = Some (VNum F64.nan).
Proof.
  edestruct (entered_rows_exit_only_overbought Frames.uptrend Frames.btc)
    as (df1 & df2 & Hrun1 & Hrun2 & Hrows);
    [by_eval | by_eval | by_eval | by_eval | by_eval | by_eval | by_eval
    | left; vm_compute; lia |].
  exists df1, df2. split; [exact Hrun1 |]. split; [exact Hrun2 |].
  edestruct (Hrows 1) as [Henter Hexit]; [by_eval .. |].
  split; [exact Henter |]. rewrite Hexit. by_eval.
Defined.
